(** * Scaffolding engine of the chart generator (package chartutil)

    A shallow embedding of [pkg/chartutil/create.go] (name validation,
    placeholder substitution, file planning, file writing, the
    new-unit / add-module decision of [Create], the clone path
    [CreateFrom]) and of the older kind-parameterised generator
    [CreateManifest] with its command, followed by the properties of the
    design document that were checked against them and by further
    properties of the code: what is never removed, what happens on each
    failure, which errors are returned and which are only printed.

    Go strings are byte strings: they are modelled by [string].  The
    operating system is modelled by an explicit [World]: a tree of files and
    directories keyed by absolute, cleaned paths, the working directory, the
    diagnostic stream and the log of the calls made so far.  Every function
    of the source that touches the file system is a state transformer over
    that world. *)

From Stdlib Require Import Ascii String Arith Bool Lia.
From stdpp Require Import gmap strings list fin_maps.

Set Default Proof Using "Type".

(* ================================================================= *)
(** ** Byte strings *)

(** The double quote and the newline, the two bytes that the string
    literals below do not spell directly. *)
Definition dq : string := String "034"%char EmptyString.
Definition nl : string := String "010"%char EmptyString.

(** [qq s] is [s] between double quotes. *)
Definition qq (s : string) : string := dq +:+ s +:+ dq.

(** A Go raw string literal, given line by line: every line is followed by
    its newline. *)
Fixpoint unlines (ls : list string) : string :=
  match ls with
  | [] => EmptyString
  | l :: ls' => l +:+ nl +:+ unlines ls'
  end.

(** [s[n:]] *)
Fixpoint string_drop (n : nat) (s : string) : string :=
  match n, s with
  | O, _ => s
  | S _, EmptyString => EmptyString
  | S n', String _ s' => string_drop n' s'
  end.

Fixpoint string_forallb (p : ascii -> bool) (s : string) : bool :=
  match s with
  | EmptyString => true
  | String c s' => p c && string_forallb p s'
  end.

(** [strings.HasPrefix] *)
Definition strings_HasPrefix (s pre : string) : bool := String.prefix pre s.

(** [strings.Contains]: some suffix of [s] starts with [substr]. *)
Fixpoint strings_Contains (s substr : string) : bool :=
  String.prefix substr s ||
  match s with
  | EmptyString => false
  | String _ s' => strings_Contains s' substr
  end.

(** [strings.Count] for a non-empty [substr]: the number of non-overlapping
    occurrences, scanning from the left.  [fuel] bounds the number of bytes
    still to be scanned. *)
Fixpoint count_go (fuel : nat) (s substr : string) : nat :=
  match fuel with
  | O => O
  | S fuel' =>
      match s with
      | EmptyString => O
      | String _ s' =>
          if String.prefix substr s
          then S (count_go fuel' (string_drop (String.length substr) s) substr)
          else count_go fuel' s' substr
      end
  end.

Definition strings_Count (s substr : string) : nat :=
  match substr with
  | EmptyString => S (String.length s)
  | _ => count_go (String.length s) s substr
  end.

(** The scan of [strings.ReplaceAll] for a non-empty [old]: the leftmost
    occurrence is replaced, and the scan goes on after it. *)
Fixpoint replace_go (fuel : nat) (s old new : string) : string :=
  match fuel with
  | O => s
  | S fuel' =>
      match s with
      | EmptyString => EmptyString
      | String c s' =>
          if String.prefix old s
          then new +:+ replace_go fuel' (string_drop (String.length old) s) old new
          else String c (replace_go fuel' s' old new)
      end
  end.

(** With an empty [old], Go inserts [new] in front of every character and
    at the end (characters are bytes here). *)
Fixpoint intersperse_go (s new : string) : string :=
  match s with
  | EmptyString => new
  | String c s' => new +:+ String c (intersperse_go s' new)
  end.

(** [strings.ReplaceAll] *)
Definition strings_ReplaceAll (s old new : string) : string :=
  match old with
  | EmptyString => intersperse_go s new
  | _ => replace_go (String.length s) s old new
  end.

(** [fmt.Sprintf(format, arg)] with one string operand, for the verbs the
    source uses: [%s] prints the operand (a second [%s] finds none left),
    [%%] prints a percent sign; any other verb and a trailing percent sign
    are reported the way package fmt reports them. *)
Definition sprintf_extra (arg : string) (used : bool) : string :=
  if used then EmptyString else "%!(EXTRA string=" +:+ arg +:+ ")".

Fixpoint sprintf_go (format arg : string) (used : bool) : string :=
  match format with
  | EmptyString => sprintf_extra arg used
  | String c rest =>
      if Ascii.eqb c "%"%char then
        match rest with
        | EmptyString => "%!(NOVERB)" +:+ sprintf_extra arg used
        | String v rest' =>
            if Ascii.eqb v "s"%char then
              (if used then "%!s(MISSING)" else arg) +:+ sprintf_go rest' arg true
            else if Ascii.eqb v "%"%char then
              String v (sprintf_go rest' arg used)
            else
              (if used then "%!" +:+ String v "(MISSING)"
               else "%!" +:+ String v "(string=" +:+ arg +:+ ")")
              +:+ sprintf_go rest' arg true
        end
      else String c (sprintf_go rest arg used)
  end.

Definition fmt_Sprintf (format arg : string) : string := sprintf_go format arg false.

(* ================================================================= *)
(** ** Errors and results *)

(** The errors that the modelled functions can return.  The first two are
    the two [fmt.Errorf] values of [validateChartName]; [ErrNoSuchDirectory]
    and [ErrNotADirectory] are the two [errors.Errorf] values of [Create];
    the others are the failures of the operating system calls and of the
    chart loader and saver. *)
Inductive error : Type :=
| ErrChartNameLength
| ErrChartNameRegexp
| ErrNoSuchDirectory (path : string)
| ErrNotADirectory (path : string)
| ENOENT (name : string)
| ENOTDIR (name : string)
| EISDIR (name : string)
| EACCES (name : string)
| ErrInvalid
| ErrArgs (n : nat)
| ErrExternal (msg : string)
| ErrWrap (msg : string) (cause : error).

Inductive result (A : Type) : Type :=
| Ok (a : A)
| Err (e : error).
Arguments Ok {A} a.
Arguments Err {A} e.

#[global] Instance error_eq_dec : EqDecision error.
Proof. solve_decision. Defined.

(* ================================================================= *)
(** ** Name validator *)

Definition maxChartNameLength : nat := 250.

(** The character class [[a-zA-Z0-9._-]] of the regular expression
    [chartName]. *)
Definition chartName_class (c : ascii) : bool :=
  let n := nat_of_ascii c in
  ((97 <=? n) && (n <=? 122)) || ((65 <=? n) && (n <=? 90)) ||
  ((48 <=? n) && (n <=? 57)) ||
  (n =? 46) || (n =? 95) || (n =? 45).

(** [chartName.MatchString]: the expression is [^[a-zA-Z0-9._-]+$]; in Go
    [$] matches at the end of the text only, so a string matches when it is
    not empty and all its bytes are in the class (a byte above 127 belongs
    to a character outside the class). *)
Definition chartName_MatchString (s : string) : bool :=
  match s with
  | EmptyString => false
  | _ => string_forallb chartName_class s
  end.

Definition validateChartName (name : string) : option error :=
  if String.eqb name EmptyString || (maxChartNameLength <? String.length name)
  then Some ErrChartNameLength
  else if negb (chartName_MatchString name)
  then Some ErrChartNameRegexp
  else None.

(* ================================================================= *)
(** ** Template registry *)

(** [defaultChartfile] of create.go, line by line. *)
Definition defaultChartfile : string := unlines [
  "apiVersion: v2";
  "name: %s";
  "description: A Helm chart for Kubernetes";
  EmptyString;
  "# A chart can be either an 'application' or a 'library' chart.";
  "#";
  "# Application charts are a collection of templates that can be packaged into versioned archives";
  "# to be deployed.";
  "#";
  "# Library charts provide useful utilities or functions for the chart developer. They're included as";
  "# a dependency of application charts to inject those utilities and functions into the rendering";
  "# pipeline. Library charts do not define any templates and therefore cannot be deployed.";
  "type: application";
  EmptyString;
  "# This is the chart version. This version number should be incremented each time you make changes";
  "# to the chart and its templates, including the app version.";
  "# Versions are expected to follow Semantic Versioning (https://semver.org/)";
  "version: 0.1.0";
  EmptyString;
  "# This is the version number of the application being deployed. This version number should be";
  "# incremented each time you make changes to the application. Versions are not expected to";
  "# follow Semantic Versioning. They should reflect the version the application is using.";
  "# It is recommended to use it with quotes.";
  "appVersion: " +:+ qq "1.16.0"
].

(** [defaultValues] of create.go, line by line. *)
Definition defaultValues : string := unlines [
  "# Default values for %s.";
  "# This is a YAML-formatted file.";
  "# Declare variables to be passed into your templates.";
  EmptyString;
  "<MODULE_NAME>:";
  "  replicaCount: 1";
  EmptyString;
  "  image:";
  "    repository: nginx";
  "    pullPolicy: IfNotPresent";
  "    # Overrides the image tag whose default is the chart appVersion.";
  "    tag: " +:+ dq +:+ dq;
  EmptyString;
  "  imagePullSecrets: []";
  "  nameOverride: " +:+ dq +:+ dq;
  "  fullnameOverride: " +:+ dq +:+ dq;
  EmptyString;
  "  serviceAccount:";
  "    # Specifies whether a service account should be created";
  "    create: true";
  "    # Annotations to add to the service account";
  "    annotations: {}";
  "    # The name of the service account to use.";
  "    # If not set and create is true, a name is generated using the fullname template";
  "    name: " +:+ dq +:+ dq;
  EmptyString;
  "  podAnnotations: {}";
  EmptyString;
  "  podSecurityContext: {}";
  "    # fsGroup: 2000";
  EmptyString;
  "  securityContext: {}";
  "    # capabilities:";
  "    #   drop:";
  "    #   - ALL";
  "    # readOnlyRootFilesystem: true";
  "    # runAsNonRoot: true";
  "    # runAsUser: 1000";
  EmptyString;
  "  service:";
  "    type: ClusterIP";
  "    port: 80";
  EmptyString;
  "  ingress:";
  "    enabled: false";
  "    className: " +:+ dq +:+ dq;
  "    annotations: {}";
  "      # kubernetes.io/ingress.class: nginx";
  "      # kubernetes.io/tls-acme: " +:+ qq "true";
  "    hosts:";
  "      - host: chart-example.local";
  "        paths:";
  "          - path: /";
  "            pathType: ImplementationSpecific";
  "    tls: []";
  "    #  - secretName: chart-example-tls";
  "    #    hosts:";
  "    #      - chart-example.local";
  EmptyString;
  "  resources: {}";
  "    # We usually recommend not to specify default resources and to leave this as a conscious";
  "    # choice for the user. This also increases chances charts run on environments with little";
  "    # resources, such as Minikube. If you do want to specify resources, uncomment the following";
  "    # lines, adjust them as necessary, and remove the curly braces after 'resources:'.";
  "    # limits:";
  "    #   cpu: 100m";
  "    #   memory: 128Mi";
  "    # requests:";
  "    #   cpu: 100m";
  "    #   memory: 128Mi";
  EmptyString;
  "  autoscaling:";
  "    enabled: false";
  "    minReplicas: 1";
  "    maxReplicas: 100";
  "    targetCPUUtilizationPercentage: 80";
  "    # targetMemoryUtilizationPercentage: 80";
  EmptyString;
  "  nodeSelector: {}";
  EmptyString;
  "  tolerations: []";
  EmptyString;
  "  affinity: {}"
].

(** [defaultIgnore] of create.go, line by line. *)
Definition defaultIgnore : string := unlines [
  "# Patterns to ignore when building packages.";
  "# This supports shell glob matching, relative path matching, and";
  "# negation (prefixed with !). Only one pattern per line.";
  ".DS_Store";
  "# Common VCS dirs";
  ".git/";
  ".gitignore";
  ".bzr/";
  ".bzrignore";
  ".hg/";
  ".hgignore";
  ".svn/";
  "# Common backup files";
  "*.swp";
  "*.bak";
  "*.tmp";
  "*.orig";
  "*~";
  "# Various IDEs";
  ".project";
  ".idea/";
  "*.tmproj";
  ".vscode/"
].

(** [defaultIngress] of create.go, line by line. *)
Definition defaultIngress : string := unlines [
  "{{- if .Values.<MODULE_NAME>.ingress.enabled -}}";
  "{{- $fullName := include " +:+ qq "<MODULE_NAME>.fullname" +:+ " . -}}";
  "{{- $svcPort := .Values.<MODULE_NAME>.service.port -}}";
  "{{- if and .Values.<MODULE_NAME>.ingress.className (not (semverCompare " +:+ qq ">=1.18-0" +:+ " .Capabilities.KubeVersion.GitVersion)) }}";
  "  {{- if not (hasKey .Values.<MODULE_NAME>.ingress.annotations " +:+ qq "kubernetes.io/ingress.class" +:+ ") }}";
  "  {{- $_ := set .Values.<MODULE_NAME>.ingress.annotations " +:+ qq "kubernetes.io/ingress.class" +:+ " .Values.<MODULE_NAME>.ingress.className}}";
  "  {{- end }}";
  "{{- end }}";
  "{{- if semverCompare " +:+ qq ">=1.19-0" +:+ " .Capabilities.KubeVersion.GitVersion -}}";
  "apiVersion: networking.k8s.io/v1";
  "{{- else if semverCompare " +:+ qq ">=1.14-0" +:+ " .Capabilities.KubeVersion.GitVersion -}}";
  "apiVersion: networking.k8s.io/v1beta1";
  "{{- else -}}";
  "apiVersion: extensions/v1beta1";
  "{{- end }}";
  "kind: Ingress";
  "metadata:";
  "  name: {{ $fullName }}";
  "  labels:";
  "    {{- include " +:+ qq "<MODULE_NAME>.labels" +:+ " . | nindent 4 }}";
  "  {{- with .Values.<MODULE_NAME>.ingress.annotations }}";
  "  annotations:";
  "    {{- toYaml . | nindent 4 }}";
  "  {{- end }}";
  "spec:";
  "  {{- if and .Values.<MODULE_NAME>.ingress.className (semverCompare " +:+ qq ">=1.18-0" +:+ " .Capabilities.KubeVersion.GitVersion) }}";
  "  ingressClassName: {{ .Values.<MODULE_NAME>.ingress.className }}";
  "  {{- end }}";
  "  {{- if .Values.<MODULE_NAME>.ingress.tls }}";
  "  tls:";
  "    {{- range .Values.<MODULE_NAME>.ingress.tls }}";
  "    - hosts:";
  "        {{- range .hosts }}";
  "        - {{ . | quote }}";
  "        {{- end }}";
  "      secretName: {{ .secretName }}";
  "    {{- end }}";
  "  {{- end }}";
  "  rules:";
  "    {{- range .Values.<MODULE_NAME>.ingress.hosts }}";
  "    - host: {{ .host | quote }}";
  "      http:";
  "        paths:";
  "          {{- range .paths }}";
  "          - path: {{ .path }}";
  "            {{- if and .pathType (semverCompare " +:+ qq ">=1.18-0" +:+ " $.Capabilities.KubeVersion.GitVersion) }}";
  "            pathType: {{ .pathType }}";
  "            {{- end }}";
  "            backend:";
  "              {{- if semverCompare " +:+ qq ">=1.19-0" +:+ " $.Capabilities.KubeVersion.GitVersion }}";
  "              service:";
  "                name: {{ $fullName }}";
  "                port:";
  "                  number: {{ $svcPort }}";
  "              {{- else }}";
  "              serviceName: {{ $fullName }}";
  "              servicePort: {{ $svcPort }}";
  "              {{- end }}";
  "          {{- end }}";
  "    {{- end }}";
  "{{- end }}"
].

(** [defaultDeployment] of create.go, line by line. *)
Definition defaultDeployment : string := unlines [
  "apiVersion: apps/v1";
  "kind: Deployment";
  "metadata:";
  "  name: {{ include " +:+ qq "<MODULE_NAME>.fullname" +:+ " . }}";
  "  labels:";
  "    {{- include " +:+ qq "<MODULE_NAME>.labels" +:+ " . | nindent 4 }}";
  "spec:";
  "  {{- if not .Values.<MODULE_NAME>.autoscaling.enabled }}";
  "  replicas: {{ .Values.<MODULE_NAME>.replicaCount }}";
  "  {{- end }}";
  "  selector:";
  "    matchLabels:";
  "      app.kubernetes.io/name: {{ include " +:+ qq "<MODULE_NAME>.name" +:+ " . }}";
  "      app.kubernetes.io/instance: {{ .Release.Name }}";
  "  template:";
  "    metadata:";
  "      {{- with .Values.<MODULE_NAME>.podAnnotations }}";
  "      annotations:";
  "        {{- toYaml . | nindent 8 }}";
  "      {{- end }}";
  "      labels:";
  "        app.kubernetes.io/name: {{ include " +:+ qq "<MODULE_NAME>.name" +:+ " . }}";
  "        app.kubernetes.io/instance: {{ .Release.Name }}";
  "    spec:";
  "      {{- with .Values.<MODULE_NAME>.imagePullSecrets }}";
  "      imagePullSecrets:";
  "        {{- toYaml . | nindent 8 }}";
  "      {{- end }}";
  "      serviceAccountName: {{ include " +:+ qq "<MODULE_NAME>.serviceAccountName" +:+ " . }}";
  "      securityContext:";
  "        {{- toYaml .Values.<MODULE_NAME>.podSecurityContext | nindent 8 }}";
  "      containers:";
  "        - name: {{ .Chart.Name }}";
  "          securityContext:";
  "            {{- toYaml .Values.<MODULE_NAME>.securityContext | nindent 12 }}";
  "          image: " +:+ qq "{{ .Values.<MODULE_NAME>.image.repository }}:{{ .Values.<MODULE_NAME>.image.tag | default .Chart.AppVersion }}";
  "          imagePullPolicy: {{ .Values.<MODULE_NAME>.image.pullPolicy }}";
  "          ports:";
  "            - name: http";
  "              containerPort: 80";
  "              protocol: TCP";
  "          livenessProbe:";
  "            httpGet:";
  "              path: /";
  "              port: http";
  "          readinessProbe:";
  "            httpGet:";
  "              path: /";
  "              port: http";
  "          resources:";
  "            {{- toYaml .Values.<MODULE_NAME>.resources | nindent 12 }}";
  "      {{- with .Values.<MODULE_NAME>.nodeSelector }}";
  "      nodeSelector:";
  "        {{- toYaml . | nindent 8 }}";
  "      {{- end }}";
  "      {{- with .Values.<MODULE_NAME>.affinity }}";
  "      affinity:";
  "        {{- toYaml . | nindent 8 }}";
  "      {{- end }}";
  "      {{- with .Values.<MODULE_NAME>.tolerations }}";
  "      tolerations:";
  "        {{- toYaml . | nindent 8 }}";
  "      {{- end }}"
].

(** [defaultService] of create.go, line by line. *)
Definition defaultService : string := unlines [
  "apiVersion: v1";
  "kind: Service";
  "metadata:";
  "  name: {{ include " +:+ qq "<MODULE_NAME>.fullname" +:+ " . }}";
  "  labels:";
  "    {{- include " +:+ qq "<MODULE_NAME>.labels" +:+ " . | nindent 4 }}";
  "spec:";
  "  type: {{ .Values.<MODULE_NAME>.service.type }}";
  "  ports:";
  "    - port: {{ .Values.<MODULE_NAME>.service.port }}";
  "      targetPort: http";
  "      protocol: TCP";
  "      name: http";
  "  selector:";
  "    app.kubernetes.io/name: {{ include " +:+ qq "<MODULE_NAME>.name" +:+ " . }}";
  "    app.kubernetes.io/instance: {{ .Release.Name }}"
].

(** [defaultServiceAccount] of create.go, line by line. *)
Definition defaultServiceAccount : string := unlines [
  "{{- if .Values.<MODULE_NAME>.serviceAccount.create -}}";
  "apiVersion: v1";
  "kind: ServiceAccount";
  "metadata:";
  "  name: {{ include " +:+ qq "<MODULE_NAME>.serviceAccountName" +:+ " . }}";
  "  labels:";
  "    {{- include " +:+ qq "<MODULE_NAME>.labels" +:+ " . | nindent 4 }}";
  "  {{- with .Values.<MODULE_NAME>.serviceAccount.annotations }}";
  "  annotations:";
  "    {{- toYaml . | nindent 4 }}";
  "  {{- end }}";
  "{{- end }}"
].

(** [defaultHorizontalPodAutoscaler] of create.go, line by line. *)
Definition defaultHorizontalPodAutoscaler : string := unlines [
  "{{- if .Values.<MODULE_NAME>.autoscaling.enabled }}";
  "apiVersion: autoscaling/v2beta1";
  "kind: HorizontalPodAutoscaler";
  "metadata:";
  "  name: {{ include " +:+ qq "<MODULE_NAME>.fullname" +:+ " . }}";
  "  labels:";
  "    {{- include " +:+ qq "<MODULE_NAME>.labels" +:+ " . | nindent 4 }}";
  "spec:";
  "  scaleTargetRef:";
  "    apiVersion: apps/v1";
  "    kind: Deployment";
  "    name: {{ include " +:+ qq "<MODULE_NAME>.fullname" +:+ " . }}";
  "  minReplicas: {{ .Values.<MODULE_NAME>.autoscaling.minReplicas }}";
  "  maxReplicas: {{ .Values.<MODULE_NAME>.autoscaling.maxReplicas }}";
  "  metrics:";
  "    {{- if .Values.<MODULE_NAME>.autoscaling.targetCPUUtilizationPercentage }}";
  "    - type: Resource";
  "      resource:";
  "        name: cpu";
  "        targetAverageUtilization: {{ .Values.<MODULE_NAME>.autoscaling.targetCPUUtilizationPercentage }}";
  "    {{- end }}";
  "    {{- if .Values.<MODULE_NAME>.autoscaling.targetMemoryUtilizationPercentage }}";
  "    - type: Resource";
  "      resource:";
  "        name: memory";
  "        targetAverageUtilization: {{ .Values.<MODULE_NAME>.autoscaling.targetMemoryUtilizationPercentage }}";
  "    {{- end }}";
  "{{- end }}"
].

(** [defaultNotes] of create.go, line by line. *)
Definition defaultNotes : string := unlines [
  "1. Get the application URL by running these commands:";
  "{{- if .Values.<MODULE_NAME>.ingress.enabled }}";
  "{{- range $host := .Values.<MODULE_NAME>.ingress.hosts }}";
  "  {{- range .paths }}";
  "  http{{ if $.Values.<MODULE_NAME>.ingress.tls }}s{{ end }}://{{ $host.host }}{{ .path }}";
  "  {{- end }}";
  "{{- end }}";
  "{{- else if contains " +:+ qq "NodePort" +:+ " .Values.<MODULE_NAME>.service.type }}";
  "  export NODE_PORT=$(kubectl get --namespace {{ .Release.Namespace }} -o jsonpath=" +:+ qq "{.spec.ports[0].nodePort}" +:+ " services {{ include " +:+ qq "<MODULE_NAME>.fullname" +:+ " . }})";
  "  export NODE_IP=$(kubectl get nodes --namespace {{ .Release.Namespace }} -o jsonpath=" +:+ qq "{.items[0].status.addresses[0].address}" +:+ ")";
  "  echo http://$NODE_IP:$NODE_PORT";
  "{{- else if contains " +:+ qq "LoadBalancer" +:+ " .Values.<MODULE_NAME>.service.type }}";
  "     NOTE: It may take a few minutes for the LoadBalancer IP to be available.";
  "           You can watch the status of by running 'kubectl get --namespace {{ .Release.Namespace }} svc -w {{ include " +:+ qq "<MODULE_NAME>.fullname" +:+ " . }}'";
  "  export SERVICE_IP=$(kubectl get svc --namespace {{ .Release.Namespace }} {{ include " +:+ qq "<MODULE_NAME>.fullname" +:+ " . }} --template " +:+ qq "{{" +:+ "{{ range (index .status.loadBalancer.ingress 0) }}{{.}}{{ end }}" +:+ qq "}}" +:+ ")";
  "  echo http://$SERVICE_IP:{{ .Values.<MODULE_NAME>.service.port }}";
  "{{- else if contains " +:+ qq "ClusterIP" +:+ " .Values.<MODULE_NAME>.service.type }}";
  "  export POD_NAME=$(kubectl get pods --namespace {{ .Release.Namespace }} -l " +:+ qq "app.kubernetes.io/name={{ include " +:+ "<MODULE_NAME>.name" +:+ qq " . }},app.kubernetes.io/instance={{ .Release.Name }}" +:+ " -o jsonpath=" +:+ qq "{.items[0].metadata.name}" +:+ ")";
  "  export CONTAINER_PORT=$(kubectl get pod --namespace {{ .Release.Namespace }} $POD_NAME -o jsonpath=" +:+ qq "{.spec.containers[0].ports[0].containerPort}" +:+ ")";
  "  echo " +:+ qq "Visit http://127.0.0.1:8080 to use your application";
  "  kubectl --namespace {{ .Release.Namespace }} port-forward $POD_NAME 8080:$CONTAINER_PORT";
  "{{- end }}"
].

(** [defaultHelpers] of create.go, line by line. *)
Definition defaultHelpers : string := unlines [
  "{{/*";
  "Expand the name of the chart.";
  "*/}}";
  "{{- define " +:+ qq "<MODULE_NAME>.name" +:+ " -}}";
  "{{- default .Chart.Name .Values.<MODULE_NAME>.nameOverride | trunc 63 | trimSuffix " +:+ qq "-" +:+ " }}";
  "{{- end }}";
  EmptyString;
  "{{/*";
  "Create a default fully qualified app name.";
  "We truncate at 63 chars because some Kubernetes name fields are limited to this (by the DNS naming spec).";
  "If release name contains chart name it will be used as a full name.";
  "*/}}";
  "{{- define " +:+ qq "<MODULE_NAME>.fullname" +:+ " -}}";
  "{{- if .Values.<MODULE_NAME>.fullnameOverride }}";
  "{{- .Values.<MODULE_NAME>.fullnameOverride | trunc 63 | trimSuffix " +:+ qq "-" +:+ " }}";
  "{{- else }}";
  "{{- $name := default .Chart.Name .Values.<MODULE_NAME>.nameOverride }}";
  "{{- if contains $name .Release.Name }}";
  "{{- .Release.Name | trunc 63 | trimSuffix " +:+ qq "-" +:+ " }}";
  "{{- else }}";
  "{{- printf " +:+ qq "%s-%s-%s" +:+ " .Release.Name $name " +:+ qq "<MODULE_NAME>" +:+ " | trunc 63 | trimSuffix " +:+ qq "-" +:+ " }}";
  "{{- end }}";
  "{{- end }}";
  "{{- end }}";
  EmptyString;
  "{{/*";
  "Create chart name and version as used by the chart label.";
  "*/}}";
  "{{- define " +:+ qq "<MODULE_NAME>.chart" +:+ " -}}";
  "{{- printf " +:+ qq "%s-%s" +:+ " .Chart.Name .Chart.Version | replace " +:+ qq "+" +:+ " " +:+ qq "_" +:+ " | trunc 63 | trimSuffix " +:+ qq "-" +:+ " }}";
  "{{- end }}";
  EmptyString;
  "{{/*";
  "Common labels";
  "*/}}";
  "{{- define " +:+ qq "<MODULE_NAME>.labels" +:+ " -}}";
  "helm.sh/chart: {{ include " +:+ qq "<MODULE_NAME>.chart" +:+ " . }}";
  "{{ include " +:+ qq "<MODULE_NAME>.selectorLabels" +:+ " . }}";
  "{{- if .Chart.AppVersion }}";
  "app.kubernetes.io/version: {{ .Chart.AppVersion | quote }}";
  "{{- end }}";
  "app.kubernetes.io/managed-by: {{ .Release.Service }}";
  "{{- end }}";
  EmptyString;
  "{{/*";
  "Selector labels";
  "*/}}";
  "{{- define " +:+ qq "<MODULE_NAME>.selectorLabels" +:+ " -}}";
  "app.kubernetes.io/name: {{ include " +:+ qq "<MODULE_NAME>.name" +:+ " . }}-<MODULE_NAME>";
  "app.kubernetes.io/instance: {{ .Release.Name }}";
  "{{- end }}";
  EmptyString;
  "{{/*";
  "Create the name of the service account to use";
  "*/}}";
  "{{- define " +:+ qq "<MODULE_NAME>.serviceAccountName" +:+ " -}}";
  "{{- if .Values.<MODULE_NAME>.serviceAccount.create }}";
  "{{- default (include " +:+ qq "<MODULE_NAME>.fullname" +:+ " .) .Values.<MODULE_NAME>.serviceAccount.name }}";
  "{{- else }}";
  "{{- default " +:+ qq "default" +:+ " .Values.<MODULE_NAME>.serviceAccount.name }}";
  "{{- end }}";
  "{{- end }}"
].

(** [defaultTestConnection] of create.go, line by line. *)
Definition defaultTestConnection : string := unlines [
  "apiVersion: v1";
  "kind: Pod";
  "metadata:";
  "  name: " +:+ qq "{{ include " +:+ "<MODULE_NAME>.fullname" +:+ qq " . }}-test-connection";
  "  labels:";
  "    {{- include " +:+ qq "<MODULE_NAME>.labels" +:+ " . | nindent 4 }}";
  "  annotations:";
  "    " +:+ qq "helm.sh/hook" +:+ ": test";
  "spec:";
  "  containers:";
  "    - name: wget";
  "      image: busybox";
  "      command: ['wget']";
  "      args: ['{{ include " +:+ qq "<MODULE_NAME>.fullname" +:+ " . }}:{{ .Values.<MODULE_NAME>.service.port }}']";
  "  restartPolicy: Never"
].

(** [ingressValues] of the manifest generator, line by line. *)
Definition ingressValues : string := unlines [
  EmptyString;
  "<MANIFEST_NAME>_ingress:";
  "  enabled: false";
  "  className: " +:+ dq +:+ dq;
  "  annotations: {}";
  "    # kubernetes.io/ingress.class: nginx";
  "    # kubernetes.io/tls-acme: " +:+ qq "true";
  "  hosts:";
  "    - host: chart-example.local";
  "      paths:";
  "        - path: /";
  "          pathType: ImplementationSpecific";
  "  tls: []";
  "  #  - secretName: chart-example-tls";
  "  #    hosts:";
  "  #      - chart-example.local"
].

(** [ingress] of the manifest generator, line by line. *)
Definition ingress : string := unlines [
  "{{- if .Values.<MANIFEST_NAME>_ingress.enabled -}}";
  "{{- $fullName := include " +:+ qq "<CHARTNAME>.fullname" +:+ " . -}}";
  "{{- $svcPort := .Values.<MANIFEST_NAME>_service.port -}}";
  "{{- if and .Values.<MANIFEST_NAME>_ingress.className (not (semverCompare " +:+ qq ">=1.18-0" +:+ " .Capabilities.KubeVersion.GitVersion)) }}";
  "  {{- if not (hasKey .Values.<MANIFEST_NAME>_ingress.annotations " +:+ qq "kubernetes.io/ingress.class" +:+ ") }}";
  "  {{- $_ := set .Values.<MANIFEST_NAME>_ingress.annotations " +:+ qq "kubernetes.io/ingress.class" +:+ " .Values.<MANIFEST_NAME>_ingress.className}}";
  "  {{- end }}";
  "{{- end }}";
  "{{- if semverCompare " +:+ qq ">=1.19-0" +:+ " .Capabilities.KubeVersion.GitVersion -}}";
  "apiVersion: networking.k8s.io/v1";
  "{{- else if semverCompare " +:+ qq ">=1.14-0" +:+ " .Capabilities.KubeVersion.GitVersion -}}";
  "apiVersion: networking.k8s.io/v1beta1";
  "{{- else -}}";
  "apiVersion: extensions/v1beta1";
  "{{- end }}";
  "kind: Ingress";
  "metadata:";
  "  name: {{ $fullName }}";
  "  labels:";
  "    {{- include " +:+ qq "<CHARTNAME>.labels" +:+ " . | nindent 4 }}";
  "  {{- with .Values.<MANIFEST_NAME>_ingress.annotations }}";
  "  annotations:";
  "    {{- toYaml . | nindent 4 }}";
  "  {{- end }}";
  "spec:";
  "  {{- if and .Values.<MANIFEST_NAME>_ingress.className (semverCompare " +:+ qq ">=1.18-0" +:+ " .Capabilities.KubeVersion.GitVersion) }}";
  "  ingressClassName: {{ .Values.<MANIFEST_NAME>_ingress.className }}";
  "  {{- end }}";
  "  {{- if .Values.<MANIFEST_NAME>_ingress.tls }}";
  "  tls:";
  "    {{- range .Values.<MANIFEST_NAME>_ingress.tls }}";
  "    - hosts:";
  "        {{- range .hosts }}";
  "        - {{ . | quote }}";
  "        {{- end }}";
  "      secretName: {{ .secretName }}";
  "    {{- end }}";
  "  {{- end }}";
  "  rules:";
  "    {{- range .Values.<MANIFEST_NAME>_ingress.hosts }}";
  "    - host: {{ .host | quote }}";
  "      http:";
  "        paths:";
  "          {{- range .paths }}";
  "          - path: {{ .path }}";
  "            {{- if and .pathType (semverCompare " +:+ qq ">=1.18-0" +:+ " $.Capabilities.KubeVersion.GitVersion) }}";
  "            pathType: {{ .pathType }}";
  "            {{- end }}";
  "            backend:";
  "              {{- if semverCompare " +:+ qq ">=1.19-0" +:+ " $.Capabilities.KubeVersion.GitVersion }}";
  "              service:";
  "                name: {{ $fullName }}-<MANIFEST_NAME>";
  "                port:";
  "                  number: {{ $svcPort }}";
  "              {{- else }}";
  "              serviceName: {{ $fullName }}-<MANIFEST_NAME>";
  "              servicePort: {{ $svcPort }}";
  "              {{- end }}";
  "          {{- end }}";
  "    {{- end }}";
  "{{- end }}"
].

(** [serviceValues] of the manifest generator, line by line. *)
Definition serviceValues : string := unlines [
  EmptyString;
  "<MANIFEST_NAME>_service:";
  "  type: ClusterIP";
  "  port: 80"
].

(** [service] of the manifest generator, line by line. *)
Definition service : string := unlines [
  "apiVersion: v1";
  "kind: Service";
  "metadata:";
  "  name: {{ include " +:+ qq "<CHARTNAME>.fullname" +:+ " . }}-<MANIFEST_NAME>";
  "  labels:";
  "    {{- include " +:+ qq "<CHARTNAME>.labels" +:+ " . | nindent 4 }}";
  "spec:";
  "  type: {{ .Values.service.type }}";
  "  ports:";
  "    - port: {{ .Values.service.port }}";
  "      targetPort: http";
  "      protocol: TCP";
  "      name: http";
  "  selector:";
  "    app.kubernetes.io/name: {{ include " +:+ qq "<CHARTNAME>.name" +:+ " . }}-<MANIFEST_NAME>";
  "    app.kubernetes.io/instance: {{ .Release.Name }}"
].

(** [deploymentValues] of the manifest generator, line by line. *)
Definition deploymentValues : string := unlines [
  EmptyString;
  "<MANIFEST_NAME>_deployment:";
  "  replicaCount: 1";
  EmptyString;
  "  image:";
  "    repository: nginx";
  "    pullPolicy: IfNotPresent";
  "    # Overrides the image tag whose default is the chart appVersion.";
  "    tag: " +:+ dq +:+ dq;
  EmptyString;
  "  imagePullSecrets: []";
  "  nameOverride: " +:+ dq +:+ dq;
  "  fullnameOverride: " +:+ dq +:+ dq;
  EmptyString;
  "  serviceAccount:";
  "    # Specifies whether a service account should be created";
  "    create: true";
  "    # Annotations to add to the service account";
  "    annotations: {}";
  "    # The name of the service account to use.";
  "    # If not set and create is true, a name is generated using the fullname template";
  "    name: " +:+ dq +:+ dq;
  EmptyString;
  "  podAnnotations: {}";
  EmptyString;
  "  podSecurityContext: {}";
  "    # fsGroup: 2000";
  EmptyString;
  "  securityContext: {}";
  "    # capabilities:";
  "    #   drop:";
  "    #   - ALL";
  "    # readOnlyRootFilesystem: true";
  "    # runAsNonRoot: true";
  "    # runAsUser: 1000";
  "  resources: {}";
  "    # We usually recommend not to specify default resources and to leave this as a conscious";
  "    # choice for the user. This also increases chances charts run on environments with little";
  "    # resources, such as Minikube. If you do want to specify resources, uncomment the following";
  "    # lines, adjust them as necessary, and remove the curly braces after 'resources:'.";
  "    # limits:";
  "    #   cpu: 100m";
  "    #   memory: 128Mi";
  "    # requests:";
  "    #   cpu: 100m";
  "    #   memory: 128Mi";
  EmptyString;
  "  nodeSelector: {}";
  EmptyString;
  "  tolerations: []";
  EmptyString;
  "  affinity: {}"
].

(** [deployment] of the manifest generator, line by line. *)
Definition deployment : string := unlines [
  "apiVersion: apps/v1";
  "kind: Deployment";
  "metadata:";
  "  name: {{ include " +:+ qq "<CHARTNAME>.fullname" +:+ " . }}-<MANIFEST_NAME>";
  "  labels:";
  "    {{- include " +:+ qq "<CHARTNAME>.labels" +:+ " . | nindent 4 }}";
  "spec:";
  "  {{- if not .Values.<MANIFEST_NAME>_deployment.autoscaling.enabled }}";
  "  replicas: {{ .Values.<MANIFEST_NAME>_deployment.replicaCount }}";
  "  {{- end }}";
  "  selector:";
  "    matchLabels:";
  "      app.kubernetes.io/name: {{ include " +:+ qq "<CHARTNAME>.name" +:+ " . }}-<MANIFEST_NAME>";
  "      app.kubernetes.io/instance: {{ .Release.Name }}";
  "  template:";
  "    metadata:";
  "      {{- with .Values.<MANIFEST_NAME>_deployment.podAnnotations }}";
  "      annotations:";
  "        {{- toYaml . | nindent 8 }}";
  "      {{- end }}";
  "      labels:";
  "        app.kubernetes.io/name: {{ include " +:+ qq "<CHARTNAME>.name" +:+ " . }}-<MANIFEST_NAME>";
  "        app.kubernetes.io/instance: {{ .Release.Name }}";
  "    spec:";
  "      {{- with .Values.<MANIFEST_NAME>_deployment.imagePullSecrets }}";
  "      imagePullSecrets:";
  "        {{- toYaml . | nindent 8 }}";
  "      {{- end }}";
  "      serviceAccountName: {{ include " +:+ qq "<CHARTNAME>.serviceAccountName" +:+ " . }}";
  "      securityContext:";
  "        {{- toYaml .Values.<MANIFEST_NAME>_deployment.podSecurityContext | nindent 8 }}";
  "      containers:";
  "        - name: {{ .Chart.Name }}";
  "          securityContext:";
  "            {{- toYaml .Values.<MANIFEST_NAME>_deployment.securityContext | nindent 12 }}";
  "          image: " +:+ qq "{{ .Values.<MANIFEST_NAME>_deployment.image.repository }}:{{ .Values.<MANIFEST_NAME>_deployment.image.tag | default .Chart.AppVersion }}";
  "          imagePullPolicy: {{ .Values.<MANIFEST_NAME>_deployment.image.pullPolicy }}";
  "          ports:";
  "            - name: http";
  "              containerPort: 80";
  "              protocol: TCP";
  "          livenessProbe:";
  "            httpGet:";
  "              path: /";
  "              port: http";
  "          readinessProbe:";
  "            httpGet:";
  "              path: /";
  "              port: http";
  "          resources:";
  "            {{- toYaml .Values.<MANIFEST_NAME>_deployment.resources | nindent 12 }}";
  "      {{- with .Values.<MANIFEST_NAME>_deployment.nodeSelector }}";
  "      nodeSelector:";
  "        {{- toYaml . | nindent 8 }}";
  "      {{- end }}";
  "      {{- with .Values.<MANIFEST_NAME>_deployment.affinity }}";
  "      affinity:";
  "        {{- toYaml . | nindent 8 }}";
  "      {{- end }}";
  "      {{- with .Values.<MANIFEST_NAME>_deployment.tolerations }}";
  "      tolerations:";
  "        {{- toYaml . | nindent 8 }}";
  "      {{- end }}"
].


(* ================================================================= *)
(** ** Paths (package path/filepath, separator [/]) *)

Definition sep : string := "/".

Definition is_sep (c : ascii) : bool := Ascii.eqb c "/"%char.

(** [strings.Split(s, sep)]: the elements between separators. *)
Fixpoint path_elems (s : string) : list string :=
  match s with
  | EmptyString => [EmptyString]
  | String c s' =>
      if is_sep c then EmptyString :: path_elems s'
      else match path_elems s' with
           | h :: t => String c h :: t
           | [] => [String c EmptyString]
           end
  end.

Definition filepath_IsAbs (p : string) : bool :=
  match p with
  | String c _ => is_sep c
  | EmptyString => false
  end.

(** One element of the lexical processing of [filepath.Clean]; [stack] holds
    the elements kept so far, the last one first.  An empty element and [.]
    are dropped; [..] removes the element before it, is dropped at the root,
    and is kept at the front of a relative path. *)
Definition clean_step (rooted : bool) (stack : list string) (c : string) : list string :=
  if String.eqb c EmptyString || String.eqb c "." then stack
  else if String.eqb c ".." then
    match stack with
    | top :: below => if String.eqb top ".." then c :: stack else below
    | [] => if rooted then [] else [c]
    end
  else c :: stack.

Definition clean_elems (rooted : bool) (cs : list string) : list string :=
  rev (fold_left (clean_step rooted) cs []).

(** [strings.Join(cs, sep)] *)
Fixpoint path_concat (cs : list string) : string :=
  match cs with
  | [] => EmptyString
  | [c] => c
  | c :: cs' => c +:+ sep +:+ path_concat cs'
  end.

(** [filepath.Clean] *)
Definition filepath_Clean (p : string) : string :=
  let rooted := filepath_IsAbs p in
  let cs := clean_elems rooted (path_elems p) in
  if rooted then sep +:+ path_concat cs
  else match cs with
       | [] => "."
       | _ => path_concat cs
       end.

(** [filepath.Join(a, b)]: the elements from the first non-empty one on are
    joined with the separator and cleaned; no non-empty element gives the
    empty string. *)
Definition filepath_Join (a b : string) : string :=
  match a, b with
  | EmptyString, EmptyString => EmptyString
  | EmptyString, _ => filepath_Clean b
  | _, _ => filepath_Clean (a +:+ sep +:+ b)
  end.

(** [filepath.Join(a)] *)
Definition filepath_Join1 (a : string) : string :=
  match a with
  | EmptyString => EmptyString
  | _ => filepath_Clean a
  end.

Fixpoint has_sep (s : string) : bool :=
  match s with
  | EmptyString => false
  | String c s' => is_sep c || has_sep s'
  end.

(** [path[:i+1]] for the index [i] of the last separator of [path]. *)
Fixpoint dir_prefix (s : string) : string :=
  match s with
  | EmptyString => EmptyString
  | String c s' => if has_sep s then String c (dir_prefix s') else EmptyString
  end.

(** [filepath.Dir] *)
Definition filepath_Dir (p : string) : string := filepath_Clean (dir_prefix p).

(** [filepath.Abs] for the working directory [wd]. *)
Definition abs_from (wd p : string) : string :=
  if filepath_IsAbs p then filepath_Clean p else filepath_Join wd p.

(* ================================================================= *)
(** ** The operating system *)

(** A regular file (with its write permission and its bytes) or a
    directory. *)
Inductive node : Type :=
| File (writable : bool) (data : string)
| Dir.

(** What the program prints: the lines sent to [Stderr] by [fmt.Fprintf],
    the errors printed by [log.Println], and the line the manifest command
    prints first. *)
Inductive diag : Type :=
| WarnOverwrite (name : string)   (* WARNING: File %q already exists. Overwriting. *)
| ErrOpening (name : string)      (* ERROR: Opening to %q. *)
| ErrWriting (name : string)      (* ERROR: Writing to %q. *)
| LogPrintln (e : error)
| OutCreatingManifest (name : string).

(** The calls made to the file system. *)
Inductive call : Type :=
| CallStat (name : string)
| CallMkdirAll (name : string)
| CallWriteFile (name : string)
| CallOpenFile (name : string)
| CallWrite (target : list string).

(** The state of the world: the file tree, keyed by the elements of the
    absolute cleaned path (the root, [[]], is always a directory); the
    elements of the working directory; the lines printed so far and the file
    system calls made so far, the oldest first. *)
Record World : Type := mkWorld {
  fs : gmap (list string) node;
  cwd : list string;
  Stderr : list diag;
  calls : list call
}.

Definition node_at (m : gmap (list string) node) (p : list string) : option node :=
  match p with
  | [] => Some Dir
  | _ => m !! p
  end.

Definition with_fs (m : gmap (list string) node) (w : World) : World :=
  mkWorld m (cwd w) (Stderr w) (calls w).

Definition with_call (c : call) (w : World) : World :=
  mkWorld (fs w) (cwd w) (Stderr w) (calls w ++ [c]).

Definition with_diag (d : diag) (w : World) : World :=
  mkWorld (fs w) (cwd w) (Stderr w ++ [d]) (calls w).

(** [os.Getwd] *)
Definition getwd (w : World) : string := sep +:+ path_concat (cwd w).

(** The file tree key that the name [name] denotes in [w]: the elements of
    its absolute path.  The key is found from the text of the name alone, as
    [filepath.Clean] does; this is what the kernel finds for a cleaned name,
    and [Create] and [CreateManifest] pass cleaned names only (a name that
    goes through [..] below a missing directory, or the empty name, is not
    looked up the way the kernel does). *)
Definition resolve (w : World) (name : string) : list string :=
  clean_elems true (path_elems (abs_from (getwd w) name)).

Definition parent (p : list string) : list string := take (length p - 1) p.

(** State transformers over the world. *)
Definition M (A : Type) : Type := World -> A * World.

Definition ret {A : Type} (a : A) : M A := fun w => (a, w).

Definition bind {A B : Type} (m : M A) (k : A -> M B) : M B :=
  fun w => let (a, w') := m w in k a w'.

Notation "x <- m ;; k" := (bind m (fun x => k))
  (at level 100, m at next level, right associativity).
Notation "m ;;; k" := (bind m (fun _ => k))
  (at level 100, right associativity).

Definition os_Getwd : M string := fun w => (getwd w, w).

(** [filepath.Abs]; the working directory is always known here, so it
    never fails. *)
Definition filepath_Abs (p : string) : M (string * option error) :=
  fun w => ((abs_from (getwd w) p, None), w).

Record FileInfo : Type := { IsDir : bool }.

(** The error of a lookup that fails.  The kernel walks the elements of
    the path from the root: [pre] holds the elements walked so far, [rest]
    those still to come.  A regular file met before the last element gives
    [ENOTDIR]; an element that is missing gives [ENOENT]. *)
Fixpoint walk_error (m : gmap (list string) node) (name : string)
    (pre rest : list string) : error :=
  match rest with
  | [] => ENOENT name
  | c :: rest' =>
      match node_at m pre with
      | Some (File _ _) => ENOTDIR name
      | Some Dir => walk_error m name (pre ++ [c]) rest'
      | None => ENOENT name
      end
  end.

(** [os.Stat]; a name that is not there gives the error of the walk.
    Directories have no permissions here, so no call fails for want of a
    permission on a directory. *)
Definition os_Stat (name : string) : M (result FileInfo) := fun w =>
  let w' := with_call (CallStat name) w in
  match node_at (fs w) (resolve w name) with
  | Some Dir => (Ok {| IsDir := true |}, w')
  | Some (File _ _) => (Ok {| IsDir := false |}, w')
  | None => (Err (walk_error (fs w) name [] (resolve w name)), w')
  end.

(** [path] without its trailing separators. *)
Fixpoint strip_seps (s : string) : string :=
  match s with
  | EmptyString => EmptyString
  | String c s' =>
      match strip_seps s' with
      | EmptyString => if is_sep c then EmptyString else String c EmptyString
      | r => String c r
      end
  end.

(** The path that [os.MkdirAll] makes before [path]: [path[:j-1]], where
    [j] is the index at which the last element of [path] starts.  When
    [j] is at most 1 there is none, and [os.Mkdir] is called on [path]
    itself: the path is returned as it is. *)
Definition mkdir_parent (path : string) : string :=
  let d := dir_prefix (strip_seps path) in
  if 1 <? String.length d then substring 0 (String.length d - 1) d else path.

(** [os.MkdirAll] of the path [name], whose reversed key is [rp]: an
    existing directory is success, an existing file is the error [ENOTDIR]
    with the path at hand; otherwise the parent is made first, under its own
    path [mkdir_parent name], so that the error names the ancestor that is a
    regular file, and the directory itself is made after it. *)
Fixpoint mkdirAll_go (name : string) (rp : list string) (m : gmap (list string) node)
  : gmap (list string) node * option error :=
  match rp with
  | [] => (m, None)
  | _ :: rparent =>
      match m !! rev rp with
      | Some Dir => (m, None)
      | Some (File _ _) => (m, Some (ENOTDIR name))
      | None =>
          match mkdirAll_go (mkdir_parent name) rparent m with
          | (m', Some err) => (m', Some err)
          | (m', None) => (<[rev rp := Dir]> m', None)
          end
      end
  end.

Definition os_MkdirAll (name : string) : M (option error) := fun w =>
  let w' := with_call (CallMkdirAll name) w in
  let (m', e) := mkdirAll_go name (rev (resolve w name)) (fs w) in
  (e, with_fs m' w').

(** [ioutil.WriteFile]: creates the file or truncates it, then writes;
    without a directory to create it in, the error is that of the walk. *)
Definition ioutil_WriteFile (name data : string) : M (option error) := fun w =>
  let w' := with_call (CallWriteFile name) w in
  let p := resolve w name in
  match node_at (fs w) p with
  | Some Dir => (Some (EISDIR name), w')
  | Some (File false _) => (Some (EACCES name), w')
  | Some (File true _) => (None, with_fs (<[p := File true data]> (fs w)) w')
  | None =>
      match node_at (fs w) (parent p) with
      | Some Dir => (None, with_fs (<[p := File true data]> (fs w)) w')
      | _ => (Some (walk_error (fs w) name [] p), w')
      end
  end.

(** [os.OpenFile(name, os.O_APPEND|os.O_CREATE|os.O_WRONLY, 0644)]: the open
    file is the key it was opened at; on an error Go returns the nil file. *)
Definition os_OpenFile_append (name : string) : M (option (list string) * option error) :=
  fun w =>
  let w' := with_call (CallOpenFile name) w in
  let p := resolve w name in
  match node_at (fs w) p with
  | Some Dir => ((None, Some (EISDIR name)), w')
  | Some (File false _) => ((None, Some (EACCES name)), w')
  | Some (File true _) => ((Some p, None), w')
  | None =>
      match node_at (fs w) (parent p) with
      | Some Dir => ((Some p, None), with_fs (<[p := File true EmptyString]> (fs w)) w')
      | _ => ((None, Some (walk_error (fs w) name [] p)), w')
      end
  end.

(** The method [Write] of [os.File] on a file opened for appending; a nil file is
    [os.ErrInvalid]. *)
Definition File_Write (f : option (list string)) (b : string) : M (option error) := fun w =>
  match f with
  | None => (Some ErrInvalid, w)
  | Some p =>
      let w' := with_call (CallWrite p) w in
      match fs w !! p with
      | Some (File wr d) => (None, with_fs (<[p := File wr (d +:+ b)]> (fs w)) w')
      | _ => (Some ErrInvalid, w')
      end
  end.

(** [fmt.Fprintf(Stderr, ...)] and [log.Println] *)
Definition Fprintf_Stderr (d : diag) : M unit := fun w => (tt, with_diag d w).

(* ================================================================= *)
(** ** Constants of the package *)

Definition moduleNameTemplate : string := "<MODULE>_".

Definition ChartfileName : string := "Chart.yaml".
Definition ValuesfileName : string := "values.yaml".
Definition TemplatesDir : string := "templates".
Definition ChartsDir : string := "charts".
Definition TemplatesTestsDir : string := TemplatesDir +:+ sep +:+ "tests".
Definition IgnorefileName : string := ".helmignore".
Definition IngressFileName : string :=
  TemplatesDir +:+ sep +:+ moduleNameTemplate +:+ "_ingress.yaml".
Definition DeploymentName : string :=
  TemplatesDir +:+ sep +:+ moduleNameTemplate +:+ "_deployment.yaml".
Definition ServiceName : string :=
  TemplatesDir +:+ sep +:+ moduleNameTemplate +:+ "_service.yaml".
Definition ServiceAccountName : string :=
  TemplatesDir +:+ sep +:+ moduleNameTemplate +:+ "_serviceaccount.yaml".
Definition HorizontalPodAutoscalerName : string :=
  TemplatesDir +:+ sep +:+ moduleNameTemplate +:+ "_hpa.yaml".
Definition NotesName : string := TemplatesDir +:+ sep +:+ "NOTES.txt".
Definition HelpersName : string :=
  TemplatesDir +:+ sep +:+ "_" +:+ moduleNameTemplate +:+ "_helpers.tpl".
Definition TestConnectionName : string :=
  TemplatesTestsDir +:+ sep +:+ moduleNameTemplate +:+ "_test-connection.yaml".

(* ================================================================= *)
(** ** Placeholder transformer, file planner, file writer *)

Record ManifestFile : Type := {
  path : string;
  content : string
}.

Definition transform (src module : string) : string :=
  strings_ReplaceAll src "<MODULE_NAME>" module.

Definition transformModuleName (src moduleName : string) : string :=
  strings_ReplaceAll src moduleNameTemplate (moduleName +:+ "_").

Definition getFiles (cdir module : string) : list ManifestFile :=
  [ {| path := filepath_Join cdir (transformModuleName IngressFileName module);
       content := transform defaultIngress module |};
    {| path := filepath_Join cdir (transformModuleName DeploymentName module);
       content := transform defaultDeployment module |};
    {| path := filepath_Join cdir (transformModuleName ServiceName module);
       content := transform defaultService module |};
    {| path := filepath_Join cdir (transformModuleName ServiceAccountName module);
       content := transform defaultServiceAccount module |};
    {| path := filepath_Join cdir (transformModuleName HorizontalPodAutoscalerName module);
       content := transform defaultHorizontalPodAutoscaler module |};
    {| path := filepath_Join cdir (transformModuleName HelpersName module);
       content := transform defaultHelpers module |};
    {| path := filepath_Join cdir (transformModuleName TestConnectionName module);
       content := transform defaultTestConnection module |} ].

Definition getBasefiles (cdir module chartname : string) : list ManifestFile :=
  [ {| path := filepath_Join cdir ValuesfileName;
       content := transform defaultValues module |};
    {| path := filepath_Join cdir ChartfileName;
       content := fmt_Sprintf defaultChartfile chartname |};
    {| path := filepath_Join cdir IgnorefileName;
       content := defaultIgnore |};
    {| path := filepath_Join cdir (transformModuleName NotesName module);
       content := transform defaultNotes module |} ].

Definition writeFile (name content : string) : M (option error) :=
  e <- os_MkdirAll (filepath_Dir name) ;;
  match e with
  | Some err => ret (Some err)
  | None => ioutil_WriteFile name content
  end.

Fixpoint writeFiles (files : list ManifestFile) : M (option error) :=
  match files with
  | [] => ret None
  | file :: rest =>
      st <- os_Stat (path file) ;;
      (match st with
       | Ok _ => Fprintf_Stderr (WarnOverwrite (path file))
       | Err _ => ret tt
       end) ;;;
      e <- writeFile (path file) (content file) ;;
      match e with
      | Some err => ret (Some err)
      | None => writeFiles rest
      end
  end.

Definition appendToValuesFile (module : string) : M unit :=
  r <- os_OpenFile_append ValuesfileName ;;
  let '(f, err) := r in
  (match err with
   | Some _ => Fprintf_Stderr (ErrOpening ValuesfileName)
   | None => ret tt
   end) ;;;
  e <- File_Write f (transform defaultValues module) ;;
  (match e with
   | Some _ => Fprintf_Stderr (ErrWriting ValuesfileName)
   | None => ret tt
   end).

(* ================================================================= *)
(** ** Scaffold orchestrator *)

(** [Create]: the results of the two calls of [writeFiles] in each branch
    are dropped, as in the source. *)
Definition Create (chartname dir : string) : M (string * option error) :=
  match validateChartName chartname with
  | Some err => ret (EmptyString, Some err)
  | None =>
      r <- filepath_Abs dir ;;
      let '(apath, err) := r in
      match err with
      | Some err => ret (apath, Some err)
      | None =>
          st <- os_Stat apath ;;
          match st with
          | Err err => ret (apath, Some err)
          | Ok fi =>
              if negb (IsDir fi) then ret (apath, Some (ErrNoSuchDirectory apath))
              else
                let cdir := filepath_Join apath chartname in
                st2 <- os_Stat cdir ;;
                match st2 with
                | Ok {| IsDir := false |} => ret (cdir, Some (ErrNotADirectory cdir))
                | _ =>
                    st3 <- os_Stat ValuesfileName ;;
                    match st3 with
                    | Ok _ =>
                        let module := chartname in
                        writeFiles (getFiles EmptyString module) ;;;
                        appendToValuesFile module ;;;
                        ret (cdir, None)
                    | Err _ =>
                        let module := "main" in
                        writeFiles (getBasefiles cdir module chartname) ;;;
                        writeFiles (getFiles cdir module) ;;;
                        e <- os_MkdirAll (filepath_Join cdir ChartsDir) ;;
                        match e with
                        | Some err => ret (cdir, Some err)
                        | None => ret (cdir, None)
                        end
                    end
                end
          end
      end
  end.

(* ================================================================= *)
(** ** Charts, the chart loader and the chart saver *)

(** [chart.File] *)
Record ChartFile : Type := {
  Name : string;
  Data : string
}.

(** [chart.Metadata]: only the name is read here. *)
Record Metadata : Type := {
  MetadataName : string
}.

(** [chart.Chart], for values of type [V]. *)
Record Chart (V : Type) : Type := mkChart {
  ChartMetadata : option Metadata;
  Templates : list ChartFile;
  Raw : list ChartFile;
  Values : V
}.
Arguments mkChart {V} _ _ _ _.
Arguments ChartMetadata {V} _.
Arguments Templates {V} _.
Arguments Raw {V} _.
Arguments Values {V} _.

(** The method [Name] of a chart: the empty string without metadata. *)
Definition Chart_Name {V : Type} (ch : Chart V) : string :=
  match ChartMetadata ch with
  | Some md => MetadataName md
  | None => EmptyString
  end.

(** [Manifest] and the registry [manifests] of the manifest generator. *)
Record Manifest : Type := {
  manifest_content : string;
  manifest_values : string
}.

Definition manifests : gmap string Manifest :=
  <["ingress" := {| manifest_content := ingress; manifest_values := ingressValues |}]>
  (<["service" := {| manifest_content := service; manifest_values := serviceValues |}]>
  (<["deployment" := {| manifest_content := deployment; manifest_values := deploymentValues |}]>
   ∅)).

(** [manifests[kind]]: a Go map gives the zero value for a missing key. *)
Definition manifests_index (kind : string) : Manifest :=
  default {| manifest_content := EmptyString; manifest_values := EmptyString |}
          (manifests !! kind).

Definition transformManifestName (src chartname manifestName : string) : string :=
  strings_ReplaceAll (strings_ReplaceAll src "<MANIFEST_NAME>" manifestName)
                     "<CHARTNAME>" chartname.

Section Collaborators.
(** The external collaborators: the chart loader [loader.Load], the chart
    saver [SaveDir] and the YAML encoder and decoder, over the type [V] of
    the values of a chart. *)
Context {V : Type}.
Variable loader_Load : string -> M (result (Chart V)).
Variable SaveDir : Chart V -> string -> M (option error).
Variable yaml_Marshal : V -> result string.
Variable yaml_Unmarshal : string -> result V.

(** [CreateFrom]: the files of [Raw] are pointers, so the assignment to
    [f.Data] in the last loop changes the chart that is saved. *)
Definition CreateFrom (chartfile : Metadata) (dest src : string) : M (option error) :=
  r <- loader_Load src ;;
  match r with
  | Err err => ret (Some (ErrWrap ("could not load " +:+ src) err))
  | Ok schart =>
      let updatedTemplates :=
        map (fun template =>
               {| Name := Name template; Data := transform (Data template) "main" |})
            (Templates schart) in
      match yaml_Marshal (Values schart) with
      | Err err => ret (Some (ErrWrap "reading values file" err))
      | Ok b =>
          match yaml_Unmarshal (transform b "main") with
          | Err err => ret (Some (ErrWrap "transforming values file" err))
          | Ok m =>
              let raw :=
                map (fun f =>
                       if String.eqb (Name f) ValuesfileName
                       then {| Name := Name f; Data := transform (Data f) "main" |}
                       else f)
                    (Raw schart) in
              SaveDir (mkChart (Some chartfile) updatedTemplates raw m) dest
          end
      end
  end.

(** [CreateManifest] of the manifest generator. *)
Definition CreateManifest (manifest name : string) : M (string * option error) :=
  apath <- os_Getwd ;;
  r <- loader_Load apath ;;
  match r with
  | Err err => ret (EmptyString, Some (ErrWrap ("could not load " +:+ apath) err))
  | Ok schart =>
      let chartName := Chart_Name schart in
      match validateChartName chartName with
      | Some err => ret (EmptyString, Some err)
      | None =>
          st <- os_Stat apath ;;
          match st with
          | Err err => ret (apath, Some err)
          | Ok fi =>
              if negb (IsDir fi) then ret (apath, Some (ErrNoSuchDirectory apath))
              else
                let cdir := filepath_Join1 apath in
                st2 <- os_Stat cdir ;;
                match st2 with
                | Ok {| IsDir := false |} => ret (cdir, Some (ErrNotADirectory cdir))
                | _ =>
                    let file :=
                      {| path := filepath_Join cdir
                                   (TemplatesDir +:+ sep +:+ name +:+ "_" +:+ manifest +:+ ".yaml");
                         content := transformManifestName
                                      (manifest_content (manifests_index manifest))
                                      chartName name |} in
                    st3 <- os_Stat (path file) ;;
                    (match st3 with
                     | Ok _ => Fprintf_Stderr (WarnOverwrite (path file))
                     | Err _ => ret tt
                     end) ;;;
                    e <- writeFile (path file) (content file) ;;
                    match e with
                    | Some err => ret (cdir, Some err)
                    | None =>
                        r <- os_OpenFile_append (filepath_Join cdir ValuesfileName) ;;
                        let '(f, err) := r in
                        (match err with
                         | Some err => Fprintf_Stderr (LogPrintln err)
                         | None => ret tt
                         end) ;;;
                        e <- File_Write f (transformManifestName
                                             (manifest_values (manifests_index manifest))
                                             chartName name) ;;
                        (match e with
                         | Some err => Fprintf_Stderr (LogPrintln err)
                         | None => ret tt
                         end) ;;;
                        ret (cdir, None)
                    end
                end
          end
      end
  end.

(** The command [manifest TYPE NAME]: [require.ExactArgs(2)], then
    [RunE] copies the two arguments into the options and [run] calls
    [CreateManifest] with them. *)
Definition manifestCmd (args : list string) : M (option error) :=
  match args with
  | [manifest; name] =>
      Fprintf_Stderr (OutCreatingManifest name) ;;;
      r <- CreateManifest manifest name ;;
      ret (snd r)
  | _ => ret (Some (ErrArgs (length args)))
  end.
End Collaborators.

(* ================================================================= *)
(** * Properties *)

(* ----------------------------------------------------------------- *)
(** ** Vocabulary of the statements *)


(** What is at the name [name] in the world [w]. *)
Definition node_of (w : World) (name : string) : option node :=
  node_at (fs w) (resolve w name).

(** The characters that a chart name may contain, spelled out. *)
Definition allowed_chars : string :=
  "abcdefghijklmnopqrstuvwxyzABCDEFGHIJKLMNOPQRSTUVWXYZ0123456789._-".

Definition chars (s : string) : list ascii := list_ascii_of_string s.

Definition allowed (c : ascii) : Prop := c ∈ chars allowed_chars.

(** The placeholder of [transform]. *)
Definition marker : string := "<MODULE_NAME>".

(** The templates that [getFiles], [getBasefiles] and [appendToValuesFile]
    pass through [transform]. *)
Definition registry : list string :=
  [ defaultValues; defaultIngress; defaultDeployment; defaultService;
    defaultServiceAccount; defaultHorizontalPodAutoscaler; defaultNotes;
    defaultHelpers; defaultTestConnection ].

(** No byte of [s] is the opening angle bracket, the first byte of every
    placeholder. *)
Definition is_lt (c : ascii) : bool := Ascii.eqb c "<"%char.
Definition no_lt (s : string) : bool := string_forallb (fun c => negb (is_lt c)) s.

(** [s] holds no byte [c]. *)
Definition free_of (c : ascii) (s : string) : bool :=
  string_forallb (fun x => negb (Ascii.eqb x c)) s.


(** An element of a cleaned path: not empty, not [.], not [..], without
    separator. *)
Definition plain (c : string) : bool :=
  negb (String.eqb c EmptyString) && negb (String.eqb c ".") &&
  negb (String.eqb c "..") && negb (has_sep c).

(** The absolute path with the elements [K]. *)
Definition render (K : list string) : string := sep +:+ path_concat K.

(** The elements [K] followed, lexically, by the relative path [rel]. *)
Definition extend (K : list string) (rel : string) : list string :=
  rev (fold_left (clean_step true) (path_elems rel) (rev K)).

(** The key of a name, from the elements of the working directory. *)
Definition key_from (K : list string) (name : string) : list string :=
  if filepath_IsAbs name then clean_elems true (path_elems name) else extend K name.


Abbreviation plains := (Forall (fun c => plain c = true)).

Definition not_file (o : option node) : bool :=
  match o with
  | Some (File _ _) => false
  | _ => true
  end.

(** No non-empty prefix of the key [k], [k] included, is a file. *)
Definition dirs_free (m : gmap (list string) node) (k : list string) : bool :=
  forallb (fun i => not_file (m !! take i k)) (seq 1 (length k)).

(** Nothing or a writable file. *)
Definition target_ok (o : option node) : bool :=
  match o with
  | None | Some (File true _) => true
  | _ => false
  end.

(** [writeFile] can write at the key [k]. *)
Definition writable_at (m : gmap (list string) node) (k : list string) : bool :=
  match k with
  | [] => false
  | _ => dirs_free m (parent k) && target_ok (m !! k)
  end.

(** The tree after a successful [os.MkdirAll] at the key [k]. *)
Definition mkdirs (k : list string) (m : gmap (list string) node) : gmap (list string) node :=
  fst (mkdirAll_go EmptyString (rev k) m).

(** The tree after a successful [writeFile] of [c] at the key [k]. *)
Definition write_at (m : gmap (list string) node) (kc : list string * string)
  : gmap (list string) node :=
  <[kc.1 := File true kc.2]> (mkdirs (parent kc.1) m).


(** The key of [name] when the working directory has the elements [K]. *)
Definition rkey (K : list string) (name : string) : list string :=
  clean_elems true (path_elems (abs_from (sep +:+ path_concat K) name)).

(** The keys and contents of a plan. *)
Definition plan_of (K : list string) (files : list ManifestFile)
  : list (list string * string) :=
  map (fun f => (rkey K (path f), content f)) files.

(** The directory of the name of [f] is the parent of its key. *)
Definition regular (K : list string) (f : ManifestFile) : Prop :=
  rkey K (filepath_Dir (path f)) = parent (rkey K (path f)).

(** No key of [ks] is a strict prefix of another one. *)
Definition compat_keys (ks : list (list string)) : Prop :=
  ∀ k q, k ∈ ks → q ∈ ks → k `prefix_of` q → k = q.

(** The warnings of [writeFiles]: one for each file whose name exists when
    its turn comes. *)
Fixpoint warnings_of (K : list string) (m : gmap (list string) node)
    (files : list ManifestFile) : list diag :=
  match files with
  | [] => []
  | f :: rest =>
      match node_at m (rkey K (path f)) with
      | Some _ => [WarnOverwrite (path f)]
      | None => []
      end ++ warnings_of K (write_at m (rkey K (path f), content f)) rest
  end.

(** The calls of [writeFiles]. *)
Definition calls_of (files : list ManifestFile) : list call :=
  flat_map (fun f => [CallStat (path f); CallMkdirAll (filepath_Dir (path f));
                      CallWriteFile (path f)]) files.


(** Every entry of the plan is on disk, and its directory too. *)
Definition settled (m : gmap (list string) node) (l : list (list string * string)) : Prop :=
  ∀ k c, (k, c) ∈ l → m !! k = Some (File true c) ∧ node_at m (parent k) = Some Dir.


(** The elements, below the root of the plan, of the files of [getFiles]
    for the module [m]. *)
Definition file_elems (m : string) : list (list string) :=
  [ ["templates"; m +:+ "__ingress.yaml"];
    ["templates"; m +:+ "__deployment.yaml"];
    ["templates"; m +:+ "__service.yaml"];
    ["templates"; m +:+ "__serviceaccount.yaml"];
    ["templates"; m +:+ "__hpa.yaml"];
    ["templates"; "_" +:+ m +:+ "__helpers.tpl"];
    ["templates"; "tests"; m +:+ "__test-connection.yaml"] ].

(** The same for the files of [getBasefiles]. *)
Definition base_elems : list (list string) :=
  [ ["values.yaml"]; ["Chart.yaml"]; [".helmignore"]; ["templates"; "NOTES.txt"] ].

(** The last [n] bytes of [s]. *)
Definition tail_of (n : nat) (s : string) : string :=
  string_drop (String.length s - n) s.


(** What [Create] does after its three checks, for the chart directory
    [cdir]. *)
Definition Create_body (chartname cdir : string) : M (string * option error) :=
  st3 <- os_Stat ValuesfileName ;;
  match st3 with
  | Ok _ =>
      let module := chartname in
      writeFiles (getFiles EmptyString module) ;;;
      appendToValuesFile module ;;;
      ret (cdir, None)
  | Err _ =>
      let module := "main" in
      writeFiles (getBasefiles cdir module chartname) ;;;
      writeFiles (getFiles cdir module) ;;;
      e <- os_MkdirAll (filepath_Join cdir ChartsDir) ;;
      match e with
      | Some err => ret (cdir, Some err)
      | None => ret (cdir, None)
      end
  end.

(** The key of the directory given to [Create] and the key of the chart
    directory. *)
Definition parent_key (w : World) (dir : string) : list string := rkey (cwd w) dir.
Definition chart_key (w : World) (dir chartname : string) : list string :=
  extend (parent_key w dir) chartname.


(** The root of a plan: the working directory for names relative to it or
    the chart directory for absolute names. *)
Definition root_name (B : option (list string)) : string :=
  match B with
  | Some C => render C
  | None => EmptyString
  end.

Definition root_key (K : list string) (B : option (list string)) : list string :=
  match B with
  | Some C => C
  | None => K
  end.

Definition plains_root (B : option (list string)) : Prop :=
  match B with
  | Some C => plains C
  | None => True
  end.


(** The full plan of new-unit mode for the chart directory [cdir]. *)
Definition new_unit_files (cdir chartname : string) : list ManifestFile :=
  getBasefiles cdir "main" chartname ++ getFiles cdir "main".


(** [writeFile] can write the name [name] in [w]: no directory on its way
    is a file, and the name itself is absent or a writable file. *)
Definition writable_name (w : World) (name : string) : Prop :=
  writable_at (fs w) (resolve w name) = true.

(** [os.MkdirAll] can make the directory [name] in [w]. *)
Definition makable_dir (w : World) (name : string) : Prop :=
  dirs_free (fs w) (resolve w name) = true.

(** The name is written in [w] with the bytes [c]. *)
Definition written (w : World) (name c : string) : Prop :=
  node_of w name = Some (File true c).

(** The chart directory of [Create chartname dir] in [w]. *)
Definition chart_dir (w : World) (dir chartname : string) : string :=
  filepath_Join (abs_from (getwd w) dir) chartname.


(** The world after a run of [Create] in new-unit mode without failure,
    from the tree [m], for the chart directory with the elements [C]. *)
Definition new_unit_tree (K C : list string) (chartname : string)
    (m : gmap (list string) node) : gmap (list string) node :=
  mkdirs (C ++ ["charts"])
    (foldl write_at m (plan_of K (new_unit_files (render C) chartname))).


(** An empty directory [/work], which is the working directory. *)
Definition w_fresh : World := mkWorld (<[ ["work"] := Dir ]> ∅) ["work"] [] [].

(** The directory [/work] of a chart, with its values file; it is the
    working directory. *)
Definition w_chart : World :=
  mkWorld (<[ ["work"; "values.yaml"] := File true "replicas: 1" ]> (<[ ["work"] := Dir ]> ∅))
          ["work"] [] [].


(** The names in the tree of [w], each with [true] for a directory. *)
Definition listing (w : World) : list (string * bool) :=
  map (fun kn => (render kn.1, match kn.2 with Dir => true | File _ _ => false end))
      (map_to_list (fs w)).

(** The directory [/work] with a chart directory [demo] in which the name
    [Chart.yaml] is a directory; [/work] is the working directory. *)
Definition w_blocked : World :=
  mkWorld (<[ ["work"; "demo"; "Chart.yaml"] := Dir ]>
             (<[ ["work"; "demo"] := Dir ]> (<[ ["work"] := Dir ]> ∅)))
          ["work"] [] [].


(** The byte [c], [n] times. *)
Fixpoint string_repeat (c : ascii) (n : nat) : string :=
  match n with
  | O => EmptyString
  | S n' => String c (string_repeat c n')
  end.

(** The first line of [defaultValues], up to its full stop. *)
Definition values_header : string := "# Default values for %s.".

(** The chart-name placeholder of the older versions of the package. *)
Definition chartname_marker : string := "<CHARTNAME>".


(** A source chart whose template and values file hold both placeholders. *)
Definition marked_chart : Chart unit :=
  mkChart (Some {| MetadataName := "starter" |})
          [ {| Name := "templates/app.yaml";
               Data := "name: <CHARTNAME>-<MODULE_NAME>" |} ]
          [ {| Name := "values.yaml"; Data := "<MODULE_NAME>: {chart: <CHARTNAME>}" |} ]
          tt.

(** A loader that finds [marked_chart] everywhere, and an encoder and a
    decoder for its values. *)
Definition marked_Load (src : string) : M (result (Chart unit)) :=
  fun w => (Ok marked_chart, w).
Definition unit_Marshal (v : unit) : result string := Ok "{}".
Definition unit_Unmarshal (b : string) : result unit := Ok tt.


(** A loader that finds a chart named [demo] everywhere. *)
Definition demo_Load (src : string) : M (result (Chart unit)) :=
  fun w => (Ok (mkChart (Some {| MetadataName := "demo" |}) [] [] tt), w).

(** The name of the manifest file of [CreateManifest]. *)
Definition manifest_path (cdir kind name : string) : string :=
  filepath_Join cdir (TemplatesDir +:+ sep +:+ name +:+ "_" +:+ kind +:+ ".yaml").

(** Every node of [w] is in [w'] unchanged, and the working directory is
    the same. *)
Definition keeps (w w' : World) : Prop :=
  cwd w' = cwd w ∧ ∀ k x, fs w !! k = Some x → fs w' !! k = Some x.


(** What may become of a node: a directory stays a directory, a read-only
    file keeps its bytes, a writable file stays a writable file. *)
Definition node_kept (x y : node) : Prop :=
  match x, y with
  | Dir, Dir => True
  | File false d, File false d' => d = d'
  | File true _, File true _ => True
  | _, _ => False
  end.

(** Every name of [m] is a name of [m'], with a node of the same kind. *)
Definition tree_kept (m m' : gmap (list string) node) : Prop :=
  ∀ k x, m !! k = Some x → ∃ y, m' !! k = Some y ∧ node_kept x y.

(** From [w] to [w']: the working directory is the same, the tree is kept,
    and the lines printed and the calls made are only added to. *)
Definition run_kept (w w' : World) : Prop :=
  cwd w' = cwd w ∧ tree_kept (fs w) (fs w') ∧
  Stderr w `prefix_of` Stderr w' ∧ calls w `prefix_of` calls w'.

(** The operation [m] keeps every world it runs in. *)
Definition kept_op {A : Type} (m : M A) : Prop := ∀ w, run_kept w (snd (m w)).


(** A world in which the values file of the working directory [/work] is
    a directory. *)
Definition w_values_dir : World :=
  mkWorld (<[ ["work"; "values.yaml"] := Dir ]> (<[ ["work"] := Dir ]> ∅)) ["work"] [] [].


(** The chart directory [/work] with a read-only values file; it is the
    working directory. *)
Definition w_values_readonly : World :=
  mkWorld (<[ ["work"; "values.yaml"] := File false "replicas: 1" ]> (<[ ["work"] := Dir ]> ∅))
          ["work"] [] [].

(** The directory [/work] with a chart directory [demo] in which the name
    [charts] is a regular file; [/work] is the working directory. *)
Definition w_charts_file : World :=
  mkWorld (<[ ["work"; "demo"; "charts"] := File true "x" ]>
             (<[ ["work"; "demo"] := Dir ]> (<[ ["work"] := Dir ]> ∅)))
          ["work"] [] [].


(** The two parts of [defaultChartfile] around its verb [%s]. *)
Definition chartfile_head : string := "apiVersion: v2" +:+ nl +:+ "name: ".
Definition chartfile_tail : string :=
  string_drop (String.length chartfile_head + 2) defaultChartfile.

(** The directory [/work] with a regular file [notes]; [/work] is the
    working directory. *)
Definition w_notes : World :=
  mkWorld (<[ ["work"; "notes"] := File true "x" ]> (<[ ["work"] := Dir ]> ∅)) ["work"] [] [].


(** The chart directory [/work] in which the name of the manifest file
    of the ingress [web] is a directory; [/work] is the working directory. *)
Definition w_manifest_dir : World :=
  mkWorld (<[ ["work"; "templates"; "web_ingress.yaml"] := Dir ]>
             (<[ ["work"; "templates"] := Dir ]>
                (<[ ["work"; "values.yaml"] := File true "replicas: 1" ]>
                   (<[ ["work"] := Dir ]> ∅))))
          ["work"] [] [].


(** The placeholder of the manifest name. *)
Definition manifest_marker : string := "<MANIFEST_NAME>".

(** Every opening angle bracket of [s] starts one of the two placeholders
    of [transformManifestName]; [fuel] bounds the length of [s]. *)
Fixpoint marks_only (fuel : nat) (s : string) : bool :=
  match fuel with
  | O => match s with EmptyString => true | _ => false end
  | S fuel' =>
      match s with
      | EmptyString => true
      | String c s' =>
          if String.prefix manifest_marker s
          then marks_only fuel' (string_drop (String.length manifest_marker) s)
          else if String.prefix chartname_marker s
          then marks_only fuel' (string_drop (String.length chartname_marker) s)
          else negb (is_lt c) && marks_only fuel' s'
      end
  end.

(** The templates of the registry [manifests]. *)
Definition manifest_templates : list string :=
  [ ingress; ingressValues; service; serviceValues; deployment; deploymentValues ].

(* ----------------------------------------------------------------- *)
(** ** Byte strings *)

Lemma app_nil_r_s (s : string) : s +:+ EmptyString = s.
Proof. induction s as [|c s IH]; simpl; [done|]. unfold String.app in *. simpl. by rewrite IH. Qed.

Lemma app_assoc_s (a b c : string) : (a +:+ b) +:+ c = a +:+ (b +:+ c).
Proof. induction a as [|x a IH]; [done|]. unfold String.app in *. simpl. by rewrite IH. Qed.

Lemma app_cons_s (x : ascii) (a b : string) : String x a +:+ b = String x (a +:+ b).
Proof. done. Qed.

Lemma app_nil_l_s (b : string) : EmptyString +:+ b = b.
Proof. done. Qed.

Lemma length_app_s (a b : string) :
  String.length (a +:+ b) = String.length a + String.length b.
Proof. induction a as [|x a IH]; [done|]. rewrite app_cons_s. simpl. by rewrite IH. Qed.

Lemma chars_app (a b : string) : chars (a +:+ b) = chars a ++ chars b.
Proof. induction a as [|x a IH]; [done|]. rewrite app_cons_s. unfold chars in *. simpl. by rewrite IH. Qed.

Lemma chars_inj (a b : string) : chars a = chars b → a = b.
Proof.
  intros H. rewrite <- (string_of_list_ascii_of_string a), <- (string_of_list_ascii_of_string b).
  unfold chars in H. by rewrite H.
Qed.

Lemma chars_length (s : string) : length (chars s) = String.length s.
Proof. induction s as [|c s IH]; [done|]. unfold chars in *. simpl. by rewrite IH. Qed.

Lemma string_forallb_app (p : ascii → bool) (a b : string) :
  string_forallb p (a +:+ b) = string_forallb p a && string_forallb p b.
Proof.
  induction a as [|x a IH]; [done|]. rewrite app_cons_s. simpl. rewrite IH.
  by rewrite andb_assoc.
Qed.

Lemma string_forallb_chars (p : ascii → bool) (s : string) :
  string_forallb p s = true ↔ ∀ c, c ∈ chars s → p c = true.
Proof.
  induction s as [|x s IH]; simpl.
  - split; [|done]. intros _ c Hc. unfold chars in Hc. simpl in Hc. by apply elem_of_nil in Hc.
  - rewrite andb_true_iff, IH. unfold chars. simpl. split.
    + intros [Hx Hs] c Hc. apply elem_of_cons in Hc as [->|Hc]; auto.
    + intros H. split; [apply H; left|intros c Hc; apply H; by right].
Qed.

Lemma length_string_drop (n : nat) (s : string) :
  String.length (string_drop n s) ≤ String.length s.
Proof.
  revert s. induction n as [|n IH]; intros [|c s]; simpl; try lia.
  specialize (IH s). lia.
Qed.

Lemma prefix_cons_s (a c : ascii) (u s : string) :
  String.prefix (String a u) (String c s) = bool_decide (a = c) && String.prefix u s.
Proof.
  simpl. destruct (ascii_dec a c) as [->|Hne].
  - by rewrite bool_decide_eq_true_2.
  - by rewrite bool_decide_eq_false_2.
Qed.

Lemma prefix_nil_s (s : string) : String.prefix EmptyString s = true.
Proof. by destruct s. Qed.

(* ----------------------------------------------------------------- *)
(** ** The name validator *)

Lemma chartName_class_allowed (c : ascii) : chartName_class c = true ↔ allowed c.
Proof.
  unfold allowed. rewrite <- (bool_decide_spec (c ∈ chars allowed_chars)).
  destruct c as [[] [] [] [] [] [] [] []]; vm_compute; intuition congruence.
Qed.

Lemma validateChartName_too_long (name : string) :
  name = EmptyString ∨ maxChartNameLength < String.length name →
  validateChartName name = Some ErrChartNameLength.
Proof.
  intros [->|Hlen]; [done|]. unfold validateChartName.
  apply Nat.ltb_lt in Hlen. rewrite Hlen. by rewrite orb_true_r.
Qed.

Lemma validateChartName_in_range (name : string) :
  1 ≤ String.length name ≤ maxChartNameLength →
  validateChartName name =
    if string_forallb chartName_class name then None else Some ErrChartNameRegexp.
Proof.
  intros [Hlo Hhi]. unfold validateChartName.
  destruct name as [|c name]; [simpl in Hlo; lia|].
  replace (String.eqb (String c name) EmptyString) with false by done.
  assert ((maxChartNameLength <? String.length (String c name)) = false) as ->
    by (apply Nat.ltb_ge; lia).
  unfold chartName_MatchString. simpl orb.
  by destruct (string_forallb chartName_class (String c name)).
Qed.

Lemma validateChartName_None (name : string) :
  validateChartName name = None →
  1 ≤ String.length name ≤ maxChartNameLength ∧ string_forallb chartName_class name = true.
Proof.
  unfold validateChartName. intros H.
  destruct name as [|c name]; [done|].
  replace (String.eqb (String c name) EmptyString) with false in H by done.
  destruct (maxChartNameLength <? String.length (String c name)) eqn:Hlen; [done|].
  apply Nat.ltb_ge in Hlen. simpl orb in H. unfold chartName_MatchString in H.
  destruct (string_forallb chartName_class (String c name)); [|done].
  split; [simpl in *; lia|done].
Qed.

(* ----------------------------------------------------------------- *)
(** ** The placeholder transformer *)

Lemma prefix_app_s (pre s : string) : String.prefix pre (pre +:+ s) = true.
Proof.
  induction pre as [|c pre IH]; [apply prefix_nil_s|].
  rewrite app_cons_s, prefix_cons_s, IH. by rewrite bool_decide_eq_true_2.
Qed.

Lemma free_of_cons (c x : ascii) (s : string) :
  free_of c (String x s) = true ↔ x ≠ c ∧ free_of c s = true.
Proof.
  unfold free_of. simpl. rewrite andb_true_iff, negb_true_iff.
  by rewrite Ascii.eqb_neq.
Qed.

Lemma free_of_app (c : ascii) (a b : string) :
  free_of c (a +:+ b) = free_of c a && free_of c b.
Proof. apply string_forallb_app. Qed.

Lemma no_lt_free_of (s : string) : no_lt s = free_of "<"%char s.
Proof. done. Qed.

Lemma prefix_first_ne (c x : ascii) (u s : string) :
  x ≠ c → String.prefix (String c u) (String x s) = false.
Proof. intros H. rewrite prefix_cons_s. by rewrite bool_decide_eq_false_2. Qed.

Lemma Contains_cons (x : ascii) (s sub : string) :
  strings_Contains (String x s) sub
  = String.prefix sub (String x s) || strings_Contains s sub.
Proof. done. Qed.

Lemma count_go_cons (n : nat) (x : ascii) (s sub : string) :
  count_go (S n) (String x s) sub
  = if String.prefix sub (String x s)
    then S (count_go n (string_drop (String.length sub) (String x s)) sub)
    else count_go n s sub.
Proof. done. Qed.

Lemma replace_go_cons (n : nat) (x : ascii) (s old new : string) :
  replace_go (S n) (String x s) old new
  = if String.prefix old (String x s)
    then new +:+ replace_go n (string_drop (String.length old) (String x s)) old new
    else String x (replace_go n s old new).
Proof. done. Qed.

Section Replace.
Variable o : ascii.
Variable old' : string.
Let old : string := String o old'.

Lemma free_of_Contains (s : string) :
  free_of o s = true → strings_Contains s old = false.
Proof.
  induction s as [|x s IH]; [done|]. intros [Hx H]%free_of_cons.
  rewrite Contains_cons. unfold old at 1. rewrite prefix_first_ne by done. by apply IH.
Qed.

Lemma free_of_count (n : nat) (s : string) :
  free_of o s = true → count_go n s old = 0.
Proof.
  revert s. induction n as [|n IH]; [done|]. intros [|x s]; [done|].
  intros [Hx H]%free_of_cons. rewrite count_go_cons. unfold old at 1.
  rewrite prefix_first_ne by done. by apply IH.
Qed.

(** A text without the first byte of [old], in front of the rest of the
    scan, is copied. *)
Lemma replace_go_copy (new pre rest : string) :
  free_of o pre = true →
  replace_go (String.length (pre +:+ rest)) (pre +:+ rest) old new
  = pre +:+ replace_go (String.length rest) rest old new.
Proof.
  induction pre as [|x pre IH]; [done|]. intros [Hx H]%free_of_cons.
  rewrite app_cons_s. simpl String.length. rewrite replace_go_cons. unfold old at 1.
  rewrite prefix_first_ne by done. by rewrite IH.
Qed.

(** When taking the occurrences of [old] out of [s] leaves no byte [o], the
    result of replacing them by a text without [o] holds no [o] either. *)
Lemma replace_go_free (new : string) (n : nat) (s : string) :
  free_of o (replace_go n s old EmptyString) = true →
  free_of o new = true →
  free_of o (replace_go n s old new) = true.
Proof.
  intros H Hnew. revert s H. induction n as [|n IH]; [done|].
  intros [|x s]; [done|]. rewrite !replace_go_cons.
  destruct (String.prefix old (String x s)).
  - rewrite app_nil_l_s. intros H. rewrite free_of_app, Hnew. by apply IH.
  - intros [Hx H]%free_of_cons. apply free_of_cons. split; [done|]. by apply IH.
Qed.

(** The replacement [new] of this part starts with a byte that [old] does
    not hold, and holds no byte [o]. *)
Variable n0 : ascii.
Variable new' : string.
Let new : string := String n0 new'.
Hypothesis old_free : free_of n0 old = true.
Hypothesis new_free : free_of o new = true.

Lemma replace_go_prefix (n : nat) (s u : string) :
  free_of n0 u = true →
  String.prefix u (replace_go n s old new) = true →
  String.prefix u s = true.
Proof using Type.
  revert s u. induction n as [|n IH]; [done|].
  intros [|x s] [|a u]; try done.
  intros [Ha Hu]%free_of_cons. rewrite replace_go_cons.
  destruct (String.prefix old (String x s)).
  - unfold new. rewrite app_cons_s, prefix_first_ne; [done|]. congruence.
  - rewrite !prefix_cons_s. intros [-> Hp]%andb_true_iff. apply IH in Hp; [|done].
    by rewrite Hp.
Qed.

Lemma Contains_app_free (a b : string) :
  free_of o a = true → strings_Contains (a +:+ b) old = strings_Contains b old.
Proof.
  induction a as [|x a IH]; [done|]. intros [Hx H]%free_of_cons.
  rewrite app_cons_s, Contains_cons. unfold old at 1.
  rewrite prefix_first_ne by done. by apply IH.
Qed.

(** No occurrence of [old] is left by the replacement. *)
Lemma replace_go_Contains (n : nat) (s : string) :
  String.length s ≤ n →
  strings_Contains (replace_go n s old new) old = false.
Proof using old_free new_free.
  revert s. induction n as [|n IH].
  - intros [|x s] Hlen; [done|simpl in Hlen; lia].
  - intros [|x s] Hlen; [done|]. simpl in Hlen. rewrite replace_go_cons.
    destruct (String.prefix old (String x s)) eqn:Hp.
    + rewrite Contains_app_free by done. apply IH.
      pose proof (length_string_drop (String.length old') s). unfold old.
      simpl string_drop. lia.
    + rewrite Contains_cons. rewrite IH by lia. rewrite orb_false_r.
      apply not_true_is_false. intros Hq. unfold old in Hq at 1, Hp.
      rewrite prefix_cons_s in Hq. apply andb_true_iff in Hq as [Hox Hq].
      apply replace_go_prefix in Hq.
      * rewrite prefix_cons_s, Hox, Hq in Hp. done.
      * pose proof old_free as Hf. unfold old in Hf. by apply free_of_cons in Hf as [_ Hf].
Qed.
End Replace.

Lemma transform_main_resolved (src : string) :
  strings_Contains (transform src "main") marker = false.
Proof.
  unfold transform, strings_ReplaceAll.
  apply (replace_go_Contains "<"%char "MODULE_NAME>" "m"%char "ain"); [done..|lia].
Qed.

Lemma transform_no_lt (src module : string) :
  no_lt (transform src EmptyString) = true →
  no_lt module = true →
  no_lt (transform src module) = true.
Proof.
  unfold transform, strings_ReplaceAll. rewrite !no_lt_free_of.
  apply replace_go_free.
Qed.

Lemma no_lt_Contains (s : string) :
  no_lt s = true → strings_Contains s marker = false.
Proof. rewrite no_lt_free_of. apply free_of_Contains. Qed.

Lemma no_lt_Count (s : string) :
  no_lt s = true → strings_Count s marker = 0.
Proof. rewrite no_lt_free_of. apply free_of_count. Qed.

Lemma class_not_lt (c : ascii) : chartName_class c = true → negb (is_lt c) = true.
Proof. destruct c as [[] [] [] [] [] [] [] []]; vm_compute; congruence. Qed.

Lemma class_not_sep (c : ascii) : chartName_class c = true → is_sep c = false.
Proof. destruct c as [[] [] [] [] [] [] [] []]; vm_compute; congruence. Qed.

Lemma string_forallb_impl (p q : ascii → bool) (s : string) :
  (∀ c, p c = true → q c = true) →
  string_forallb p s = true → string_forallb q s = true.
Proof.
  intros Hpq. induction s as [|c s IH]; [done|]. simpl.
  rewrite !andb_true_iff. intros [??]. split; auto.
Qed.

Lemma valid_no_lt (module : string) :
  string_forallb chartName_class module = true → no_lt module = true.
Proof. apply string_forallb_impl, class_not_lt. Qed.

Lemma registry_markers_only :
  Forall (fun t => no_lt (transform t EmptyString) = true) registry.
Proof. repeat constructor; by vm_compute. Qed.

Lemma no_lt_app (a b : string) : no_lt (a +:+ b) = no_lt a && no_lt b.
Proof. apply string_forallb_app. Qed.

Lemma no_lt_cons (c : ascii) (s : string) :
  no_lt (String c s) = negb (is_lt c) && no_lt s.
Proof. done. Qed.

Lemma sprintf_extra_no_lt (arg : string) (used : bool) :
  no_lt arg = true → no_lt (sprintf_extra arg used) = true.
Proof.
  intros Harg. destruct used; [done|]. unfold sprintf_extra.
  by rewrite !no_lt_app, Harg.
Qed.

Lemma sprintf_go_no_lt (arg : string) :
  no_lt arg = true →
  ∀ format used, no_lt format = true → no_lt (sprintf_go format arg used) = true.
Proof.
  intros Harg.
  assert (H : ∀ format,
    (∀ used, no_lt format = true → no_lt (sprintf_go format arg used) = true) ∧
    (∀ c used, no_lt (String c format) = true →
               no_lt (sprintf_go (String c format) arg used) = true)).
  { induction format as [|v rest [IH1 IH2]].
    - split; [intros; by apply sprintf_extra_no_lt|]. intros c used Hc.
      cbn [sprintf_go]. destruct (Ascii.eqb c "%").
      + by rewrite no_lt_app, sprintf_extra_no_lt.
      + rewrite no_lt_cons in *. apply andb_true_iff in Hc as [-> _].
        by rewrite sprintf_extra_no_lt.
    - split; [intros used Hf; by apply IH2|].
      intros c used Hc. rewrite !no_lt_cons in Hc.
      apply andb_true_iff in Hc as [Hc [Hv Hrest]%andb_true_iff].
      cbn [sprintf_go]. destruct (Ascii.eqb c "%").
      + destruct (Ascii.eqb v "s").
        { rewrite no_lt_app, IH1 by done. by destruct used; rewrite ?Harg. }
        destruct (Ascii.eqb v "%").
        { by rewrite no_lt_cons, Hv, IH1. }
        rewrite no_lt_app, IH1 by done. rewrite andb_true_r.
        destruct used.
        * by rewrite no_lt_app, (no_lt_cons v), Hv.
        * by rewrite !no_lt_app, (no_lt_cons v), Hv, Harg.
      + rewrite no_lt_cons, Hc. apply IH2. by rewrite no_lt_cons, Hv. }
  intros format. apply H.
Qed.


(* ----------------------------------------------------------------- *)
(** ** Paths *)

Lemma has_sep_app (a b : string) : has_sep (a +:+ b) = has_sep a || has_sep b.
Proof.
  induction a as [|x a IH]; [done|]. rewrite app_cons_s. simpl. rewrite IH.
  by rewrite orb_assoc.
Qed.

Lemma path_elems_nonempty (s : string) : path_elems s ≠ [].
Proof. induction s as [|x s IH]; [done|]. simpl. destruct (is_sep x); [done|]. by destruct (path_elems s). Qed.

Lemma path_elems_nosep (s : string) : has_sep s = false → path_elems s = [s].
Proof.
  induction s as [|x s IH]; [done|]. simpl. intros [Hx Hs]%orb_false_iff.
  rewrite Hx, IH by done. done.
Qed.

Lemma path_elems_app_sep (a b : string) :
  path_elems (a +:+ sep +:+ b) = path_elems a ++ path_elems b.
Proof.
  induction a as [|x a IH]; [done|]. rewrite app_cons_s. simpl.
  destruct (is_sep x); rewrite IH; [done|].
  pose proof (path_elems_nonempty a). by destruct (path_elems a).
Qed.

Lemma path_elems_sep_free (s : string) :
  Forall (fun c => has_sep c = false) (path_elems s).
Proof.
  induction s as [|x s IH]; [by repeat constructor|]. simpl.
  destruct (is_sep x) eqn:Hx; [by constructor|].
  pose proof (path_elems_nonempty s). destruct (path_elems s) as [|h t]; [done|].
  inversion IH; subst. constructor; [|done]. simpl. by rewrite Hx.
Qed.

Lemma plain_spec (c : string) :
  plain c = true ↔ c ≠ EmptyString ∧ c ≠ "." ∧ c ≠ ".." ∧ has_sep c = false.
Proof.
  unfold plain. rewrite !andb_true_iff, !negb_true_iff, !String.eqb_neq. tauto.
Qed.

Lemma plain_long (c : string) :
  has_sep c = false → 3 ≤ String.length c → plain c = true.
Proof.
  intros Hs Hl. apply plain_spec. repeat split; try done; intros ->; simpl in Hl; lia.
Qed.

Lemma clean_step_plain (r : bool) (stack : list string) (c : string) :
  plain c = true → clean_step r stack c = c :: stack.
Proof.
  intros (H1 & H2 & H3 & _)%plain_spec. unfold clean_step.
  apply String.eqb_neq in H1, H2, H3. by rewrite H1, H2, H3.
Qed.

Lemma clean_fold_plain (r : bool) (cs stack : list string) :
  Forall (fun c => plain c = true) cs →
  fold_left (clean_step r) cs stack = rev cs ++ stack.
Proof.
  intros H. revert stack. induction H as [|c cs Hc _ IH]; [done|]. intros stack. simpl.
  rewrite clean_step_plain by done. rewrite IH. by rewrite <- app_assoc.
Qed.

Lemma clean_step_rooted (stack : list string) (c : string) :
  Forall (fun c => plain c = true) stack → has_sep c = false →
  Forall (fun c => plain c = true) (clean_step true stack c).
Proof.
  intros Hst Hc. unfold clean_step.
  destruct (String.eqb c EmptyString) eqn:E1; [done|].
  destruct (String.eqb c ".") eqn:E2; [done|]. simpl.
  destruct (String.eqb c "..") eqn:E3.
  - destruct stack as [|top below]; [done|]. inversion Hst as [|?? Htop Hbelow]; subst.
    apply plain_spec in Htop as (_ & _ & Htop & _). apply String.eqb_neq in Htop.
    by rewrite Htop.
  - constructor; [|done]. apply plain_spec. by rewrite <- !String.eqb_neq.
Qed.

Lemma clean_fold_rooted (cs stack : list string) :
  Forall (fun c => plain c = true) stack →
  Forall (fun c => has_sep c = false) cs →
  Forall (fun c => plain c = true) (fold_left (clean_step true) cs stack).
Proof.
  intros Hst Hcs. revert stack Hst. induction Hcs as [|c cs Hc _ IH]; [done|].
  intros stack Hst. simpl. apply IH. by apply clean_step_rooted.
Qed.

Lemma extend_plain (K : list string) (rel : string) :
  Forall (fun c => plain c = true) K → Forall (fun c => plain c = true) (extend K rel).
Proof.
  intros HK. unfold extend. apply Forall_rev, clean_fold_rooted.
  - by apply Forall_rev.
  - apply path_elems_sep_free.
Qed.

Lemma extend_simple (K cs : list string) (rel : string) :
  path_elems rel = cs → Forall (fun c => plain c = true) cs → extend K rel = K ++ cs.
Proof.
  intros <- Hcs. unfold extend. rewrite clean_fold_plain by done.
  by rewrite rev_app_distr, !rev_involutive.
Qed.

Lemma path_elems_concat (K : list string) :
  Forall (fun c => plain c = true) K → K ≠ [] → path_elems (path_concat K) = K.
Proof.
  induction 1 as [|c K Hc HK IH]; [done|]. intros _.
  apply plain_spec in Hc as (_ & _ & _ & Hc).
  destruct K as [|c' K'].
  - simpl. by apply path_elems_nosep.
  - change (path_concat (c :: c' :: K')) with (c +:+ sep +:+ path_concat (c' :: K')).
    rewrite path_elems_app_sep, IH by done. by rewrite path_elems_nosep.
Qed.

Lemma path_elems_sep_cons (s : string) :
  path_elems (sep +:+ s) = EmptyString :: path_elems s.
Proof. done. Qed.

Lemma path_elems_render (K : list string) :
  Forall (fun c => plain c = true) K →
  fold_left (clean_step true) (path_elems (render K)) [] = rev K.
Proof.
  intros HK. unfold render. rewrite path_elems_sep_cons.
  destruct K as [|c K']; [done|].
  rewrite path_elems_concat by done.
  change (EmptyString :: c :: K') with ([EmptyString] ++ c :: K').
  rewrite fold_left_app. change (fold_left _ [EmptyString] []) with (@nil string).
  rewrite clean_fold_plain by done. by rewrite app_nil_r.
Qed.

Lemma clean_render (K : list string) :
  Forall (fun c => plain c = true) K → clean_elems true (path_elems (render K)) = K.
Proof. intros HK. unfold clean_elems. rewrite path_elems_render by done. apply rev_involutive. Qed.

Lemma IsAbs_render (K : list string) : filepath_IsAbs (render K) = true.
Proof. done. Qed.

Lemma Clean_abs (p : string) :
  filepath_IsAbs p = true → filepath_Clean p = render (clean_elems true (path_elems p)).
Proof. unfold filepath_Clean. by intros ->. Qed.

Lemma clean_elems_plain (p : string) :
  Forall (fun c => plain c = true) (clean_elems true (path_elems p)).
Proof. apply Forall_rev, clean_fold_rooted; [done|apply path_elems_sep_free]. Qed.

Lemma Join_render (K : list string) (rel : string) :
  Forall (fun c => plain c = true) K →
  filepath_Join (render K) rel = render (extend K rel).
Proof.
  intros HK. unfold filepath_Join. change (render K) with (String "/" (path_concat K)) at 1.
  cbv iota beta. change (String "/" (path_concat K)) with (render K).
  rewrite Clean_abs by done. f_equal. unfold clean_elems, extend.
  rewrite path_elems_app_sep, fold_left_app, path_elems_render by done. done.
Qed.

Lemma key_from_plain (K : list string) (name : string) :
  Forall (fun c => plain c = true) K → Forall (fun c => plain c = true) (key_from K name).
Proof.
  intros HK. unfold key_from. destruct (filepath_IsAbs name).
  - apply clean_elems_plain.
  - by apply extend_plain.
Qed.

Lemma abs_from_render (K : list string) (name : string) :
  Forall (fun c => plain c = true) K →
  abs_from (render K) name = render (key_from K name).
Proof.
  intros HK. unfold abs_from, key_from. destruct (filepath_IsAbs name) eqn:E.
  - by apply Clean_abs.
  - by apply Join_render.
Qed.

Lemma resolve_key (w : World) (name : string) :
  Forall (fun c => plain c = true) (cwd w) → resolve w name = key_from (cwd w) name.
Proof.
  intros HK. unfold resolve, getwd. fold (render (cwd w)).
  rewrite abs_from_render by done. apply clean_render. by apply key_from_plain.
Qed.

Lemma key_from_render (K K' : list string) :
  Forall (fun c => plain c = true) K' → key_from K (render K') = K'.
Proof. intros H. unfold key_from. rewrite IsAbs_render. by apply clean_render. Qed.


(* paths: directories of names *)

Lemma dir_prefix_nosep (c : string) : has_sep c = false → dir_prefix c = EmptyString.
Proof. destruct c as [|x c]; [done|]. intros H. unfold dir_prefix. by rewrite H. Qed.

Lemma dir_prefix_app_sep (a c : string) :
  has_sep c = false → dir_prefix (a +:+ sep +:+ c) = a +:+ sep.
Proof.
  intros Hc. induction a as [|x a IH].
  - rewrite !app_nil_l_s. change (sep +:+ c) with (String "/" c).
    cbn [dir_prefix has_sep]. change (is_sep "/") with true. cbn [orb].
    by rewrite dir_prefix_nosep.
  - rewrite !app_cons_s. cbn [dir_prefix]. 
    assert (has_sep (String x (a +:+ sep +:+ c)) = true) as ->.
    { cbn [has_sep]. rewrite has_sep_app. change (has_sep (sep +:+ c)) with true.
      by rewrite !orb_true_r. }
    by rewrite IH.
Qed.

Lemma path_concat_snoc (K : list string) (c : string) :
  K ≠ [] → path_concat (K ++ [c]) = path_concat K +:+ sep +:+ c.
Proof.
  induction K as [|x K IH]; [done|]. intros _. destruct K as [|y K'].
  - done.
  - change (path_concat ((x :: y :: K') ++ [c]))
      with (x +:+ sep +:+ path_concat ((y :: K') ++ [c])).
    rewrite IH by done.
    change (path_concat (x :: y :: K')) with (x +:+ sep +:+ path_concat (y :: K')).
    by rewrite !app_assoc_s.
Qed.

Lemma plains_snoc (K : list string) (c : string) :
  plains (K ++ [c]) ↔ plains K ∧ plain c = true.
Proof. rewrite Forall_app, Forall_singleton. done. Qed.

Lemma plain_nosep (c : string) : plain c = true → has_sep c = false.
Proof. by intros (_&_&_&H)%plain_spec. Qed.

Lemma Dir_render (K : list string) (c : string) :
  plains (K ++ [c]) → filepath_Dir (render (K ++ [c])) = render K.
Proof.
  intros [HK Hc%plain_nosep]%plains_snoc. unfold filepath_Dir.
  assert (dir_prefix (render (K ++ [c])) = render K +:+ sep +:+ EmptyString
          ∨ (K = [] ∧ dir_prefix (render (K ++ [c])) = sep)) as [->|[-> ->]].
  { destruct K as [|x K'].
    - right. split; [done|]. change (render ([] ++ [c])) with (EmptyString +:+ sep +:+ c).
      by rewrite dir_prefix_app_sep.
    - left. unfold render. rewrite path_concat_snoc by done.
      rewrite <- app_assoc_s. rewrite dir_prefix_app_sep by done.
      by rewrite app_nil_r_s. }
  - rewrite Clean_abs by done. f_equal. unfold clean_elems.
    rewrite path_elems_app_sep, fold_left_app, path_elems_render by done.
    apply rev_involutive.
  - done.
Qed.

Lemma IsAbs_concat (cs : list string) :
  plains cs → filepath_IsAbs (path_concat cs) = false.
Proof.
  destruct 1 as [|c cs Hc Hcs]; [done|].
  apply plain_spec in Hc as (Hne & _ & _ & Hs).
  destruct c as [|x c]; [done|]. simpl in Hs. apply orb_false_iff in Hs as [Hx _].
  destruct cs; simpl; done.
Qed.

Lemma Clean_concat (cs : list string) :
  plains cs → cs ≠ [] → filepath_Clean (path_concat cs) = path_concat cs.
Proof.
  intros Hcs Hne. unfold filepath_Clean. rewrite IsAbs_concat by done.
  unfold clean_elems. rewrite path_elems_concat, clean_fold_plain by done.
  rewrite app_nil_r, rev_involutive. by destruct cs.
Qed.

Lemma key_from_concat (K cs : list string) :
  plains cs → cs ≠ [] → key_from K (path_concat cs) = K ++ cs.
Proof.
  intros Hcs Hne. unfold key_from. rewrite IsAbs_concat by done.
  apply extend_simple; [by apply path_elems_concat|done].
Qed.

Lemma Dir_concat (cs : list string) (c : string) :
  plains (cs ++ [c]) →
  filepath_Dir (path_concat (cs ++ [c])) = match cs with [] => "." | _ => path_concat cs end.
Proof.
  intros [Hcs Hc%plain_nosep]%plains_snoc. unfold filepath_Dir.
  destruct cs as [|x cs'].
  - simpl path_concat. by rewrite dir_prefix_nosep.
  - rewrite path_concat_snoc, dir_prefix_app_sep by done.
    rewrite <- (app_nil_r_s (_ +:+ sep)), app_assoc_s.
    unfold filepath_Clean.
    assert (filepath_IsAbs (path_concat (x :: cs') +:+ sep +:+ EmptyString) = false) as ->.
    { pose proof (IsAbs_concat (x :: cs') Hcs) as H.
      destruct (path_concat (x :: cs')) eqn:E; [|done].
      exfalso. inversion Hcs as [|?? Hx _]; subst.
      apply plain_spec in Hx as (Hx&_). destruct cs'; simpl in E; [done|].
      destruct x; done. }
    unfold clean_elems. rewrite path_elems_app_sep, fold_left_app.
    rewrite (path_elems_concat (x :: cs')) by done.
    rewrite (clean_fold_plain false (x :: cs')) by done.
    change (fold_left _ (path_elems EmptyString) ?s) with s.
    by rewrite app_nil_r, rev_involutive.
Qed.

Lemma key_from_Dir_concat (K cs : list string) (c : string) :
  plains K → plains (cs ++ [c]) →
  key_from K (filepath_Dir (path_concat (cs ++ [c]))) = K ++ cs.
Proof.
  intros HK Hcs. rewrite Dir_concat by done. destruct cs as [|x cs'].
  - unfold key_from. simpl. unfold extend. simpl.
    change (clean_step true (rev K) ".") with (rev K).
    by rewrite rev_involutive, app_nil_r.
  - apply key_from_concat; [|done]. by apply plains_snoc in Hcs as [? _].
Qed.

(* ----------------------------------------------------------------- *)
(** ** The file tree *)

Lemma parent_snoc (K : list string) (c : string) : parent (K ++ [c]) = K.
Proof.
  unfold parent. rewrite length_app. simpl.
  replace (length K + 1 - 1) with (length K) by lia. by rewrite take_app_length.
Qed.

(* the file tree *)

Lemma mkdirAll_go_snoc (name : string) (k : list string) (c : string)
    (m : gmap (list string) node) :
  mkdirAll_go name (rev (k ++ [c])) m =
    match m !! (k ++ [c]) with
    | Some Dir => (m, None)
    | Some (File _ _) => (m, Some (ENOTDIR name))
    | None =>
        match mkdirAll_go (mkdir_parent name) (rev k) m with
        | (m', Some err) => (m', Some err)
        | (m', None) => (<[k ++ [c] := Dir]> m', None)
        end
    end.
Proof.
  rewrite rev_app_distr. simpl rev at 1. cbn [mkdirAll_go app].
  replace (rev (c :: rev k)) with (k ++ [c]); [done|].
  simpl. by rewrite rev_involutive.
Qed.

Lemma dirs_free_spec (m : gmap (list string) node) (k : list string) :
  dirs_free m k = true ↔ ∀ i, 1 ≤ i ≤ length k → not_file (m !! take i k) = true.
Proof.
  unfold dirs_free. rewrite forallb_forall. split.
  - intros H i Hi. apply H, in_seq. lia.
  - intros H i Hi%in_seq. apply H. lia.
Qed.

Lemma dirs_free_snoc (m : gmap (list string) node) (k : list string) (c : string) :
  dirs_free m (k ++ [c]) = true ↔ dirs_free m k = true ∧ not_file (m !! (k ++ [c])) = true.
Proof.
  rewrite !dirs_free_spec. rewrite length_app. simpl. split.
  - intros H. split.
    + intros i Hi. specialize (H i). rewrite take_app_le in H by lia. apply H. lia.
    + specialize (H (length k + 1)). rewrite firstn_all2 in H by (rewrite length_app; simpl; lia).
      apply H. lia.
  - intros [H1 H2] i Hi. destruct (decide (i = length k + 1)) as [->|Hne].
    + rewrite firstn_all2 by (rewrite length_app; simpl; lia). done.
    + rewrite take_app_le by lia. apply H1. lia.
Qed.

Lemma mkdirAll_go_ok (k : list string) (m : gmap (list string) node) :
  dirs_free m k = true → ∀ name, mkdirAll_go name (rev k) m = (mkdirs k m, None).
Proof.
  unfold mkdirs. induction k as [|c k IH] using rev_ind; [done|].
  intros [Hk Hc]%dirs_free_snoc name. rewrite !mkdirAll_go_snoc.
  change (mkdir_parent EmptyString) with EmptyString.
  destruct (m !! (k ++ [c])) as [[]|]; [done|done|].
  pose proof (IH Hk (mkdir_parent name)) as H1. pose proof (IH Hk EmptyString) as H2.
  destruct (mkdirAll_go EmptyString (rev k) m) as [m' e]. simpl in *.
  rewrite H1. by injection H2 as ->.
Qed.

Lemma mkdirs_snoc (k : list string) (c : string) (m : gmap (list string) node) :
  dirs_free m k = true →
  mkdirs (k ++ [c]) m =
    match m !! (k ++ [c]) with
    | Some _ => m
    | None => <[k ++ [c] := Dir]> (mkdirs k m)
    end.
Proof.
  intros Hk. unfold mkdirs at 1. rewrite mkdirAll_go_snoc.
  change (mkdir_parent EmptyString) with EmptyString.
  destruct (m !! (k ++ [c])) as [[]|]; [done|done|].
  by rewrite mkdirAll_go_ok.
Qed.

Lemma mkdirs_nil (m : gmap (list string) node) : mkdirs [] m = m.
Proof. done. Qed.

(** Existing nodes stay. *)
Lemma mkdirs_keeps (k q : list string) (m : gmap (list string) node) (x : node) :
  dirs_free m k = true → m !! q = Some x → mkdirs k m !! q = Some x.
Proof.
  induction k as [|c k IH] using rev_ind; [done|].
  intros [Hk Hc]%dirs_free_snoc Hq. rewrite mkdirs_snoc by done.
  destruct (m !! (k ++ [c])) eqn:E; [done|].
  rewrite lookup_insert_ne; [by apply IH|]. intros <-. congruence.
Qed.

(** A new node is a directory at a prefix of the key. *)
Lemma mkdirs_new (k q : list string) (m : gmap (list string) node) (x : node) :
  dirs_free m k = true → mkdirs k m !! q = Some x →
  m !! q = Some x ∨ (x = Dir ∧ m !! q = None ∧ ∃ i, 1 ≤ i ≤ length k ∧ q = take i k).
Proof.
  induction k as [|c k IH] using rev_ind; [by left|].
  intros [Hk Hc]%dirs_free_snoc. rewrite mkdirs_snoc by done.
  destruct (m !! (k ++ [c])) eqn:E; [by left|].
  destruct (decide (q = k ++ [c])) as [->|Hne].
  - rewrite lookup_insert_eq. intros [= <-]. right. split; [done|]. split; [done|].
    exists (length (k ++ [c])). rewrite firstn_all. rewrite length_app. simpl. split; [lia|done].
  - rewrite lookup_insert_ne by done. intros [H|(-> & Hn & i & Hi & ->)]%IH; [by left| |done].
    right. split; [done|]. split; [done|]. exists i. rewrite length_app. simpl.
    split; [lia|]. by rewrite take_app_le by lia.
Qed.

Lemma mkdirs_dir (k : list string) (m : gmap (list string) node) :
  dirs_free m k = true → node_at (mkdirs k m) k = Some Dir.
Proof.
  destruct k as [|c k] using rev_ind; [done|].
  intros [Hk Hc]%dirs_free_snoc. rewrite mkdirs_snoc by done.
  assert (node_at (match m !! (k ++ [c]) with Some _ => m | None => <[k ++ [c] := Dir]> (mkdirs k m) end) (k ++ [c])
          = (match m !! (k ++ [c]) with Some _ => m | None => <[k ++ [c] := Dir]> (mkdirs k m) end) !! (k ++ [c])) as ->
    by (by destruct k).
  destruct (m !! (k ++ [c])) as [[]|] eqn:E; [done|done|].
  by rewrite lookup_insert_eq.
Qed.

Lemma mkdirs_id (k : list string) (m : gmap (list string) node) :
  node_at m k = Some Dir → mkdirs k m = m.
Proof.
  destruct k as [|c k] using rev_ind; [done|]. intros H.
  assert (m !! (k ++ [c]) = Some Dir) as E by (by destruct k).
  unfold mkdirs. rewrite mkdirAll_go_snoc. by rewrite E.
Qed.


Lemma resolve_rkey (w : World) (name : string) : resolve w name = rkey (cwd w) name.
Proof. done. Qed.

Lemma rkey_key (K : list string) (name : string) :
  plains K → rkey K name = key_from K name.
Proof. intros HK. apply (resolve_key (mkWorld ∅ K [] [])). done. Qed.

Lemma node_at_lookup (m : gmap (list string) node) (k : list string) :
  k ≠ [] → node_at m k = m !! k.
Proof. by destruct k. Qed.

Lemma take_parent_prefix (i : nat) (q : list string) :
  take i (parent q) `prefix_of` q.
Proof.
  unfold parent. etrans; [apply prefix_take|]. apply prefix_take.
Qed.

Lemma take_parent_ne (i : nat) (q : list string) : q ≠ [] → take i (parent q) ≠ q.
Proof.
  intros Hq E. apply (f_equal length) in E. unfold parent in E.
  rewrite !length_take in E. destruct q; [done|]. simpl in E. lia.
Qed.

Lemma not_file_mkdirs (k p : list string) (m : gmap (list string) node) :
  dirs_free m k = true → not_file (m !! p) = true → not_file (mkdirs k m !! p) = true.
Proof.
  intros Hk Hp. destruct (mkdirs k m !! p) as [x|] eqn:E; [|done].
  apply mkdirs_new in E as [E|(-> & _)]; [|done..]. by rewrite E in Hp.
Qed.

Lemma writable_at_spec (m : gmap (list string) node) (k : list string) :
  writable_at m k = true ↔
  k ≠ [] ∧ dirs_free m (parent k) = true ∧ target_ok (m !! k) = true.
Proof.
  unfold writable_at. destruct k as [|c k]; [by split; [|intros [? _]]|].
  rewrite andb_true_iff. by split; [intros [??]|intros (_&?&?)].
Qed.

Lemma write_at_lookup_ne (m : gmap (list string) node) (k q : list string) (c : string) :
  q ≠ k → write_at m (k, c) !! q = mkdirs (parent k) m !! q.
Proof. intros H. unfold write_at. simpl. by rewrite lookup_insert_ne. Qed.

Lemma write_at_lookup_eq (m : gmap (list string) node) (k : list string) (c : string) :
  write_at m (k, c) !! k = Some (File true c).
Proof. unfold write_at. simpl. by rewrite lookup_insert_eq. Qed.

(** Writing at [k] leaves [q] writable when neither key is a strict prefix
    of the other. *)
Lemma write_at_writable (m : gmap (list string) node) (k q : list string) (c : string) :
  writable_at m k = true → writable_at m q = true →
  (k `prefix_of` q → k = q) → (q `prefix_of` k → q = k) →
  writable_at (write_at m (k, c)) q = true.
Proof.
  intros (Hk & Hkd & Hkt)%writable_at_spec (Hq & Hqd & Hqt)%writable_at_spec Hkq Hqk.
  apply writable_at_spec. split; [done|]. split.
  - apply dirs_free_spec. intros i Hi.
    destruct (decide (take i (parent q) = k)) as [E|E].
    + exfalso. apply (take_parent_ne i q Hq). rewrite E. apply Hkq. rewrite <- E.
      apply take_parent_prefix.
    + rewrite write_at_lookup_ne by done. apply not_file_mkdirs; [done|].
      by apply (proj1 (dirs_free_spec _ _) Hqd).
  - destruct (decide (q = k)) as [->|E]; [by rewrite write_at_lookup_eq|].
    rewrite write_at_lookup_ne by done.
    destruct (mkdirs (parent k) m !! q) as [x|] eqn:Ex; [|done].
    apply mkdirs_new in Ex as [Ex|(-> & _ & i & _ & ->)]; [by rewrite Ex in Hqt|..|done].
    exfalso. apply E, Hqk, take_parent_prefix.
Qed.

Lemma os_Stat_eq (name : string) (w : World) :
  os_Stat name w =
    (match node_at (fs w) (rkey (cwd w) name) with
     | Some Dir => Ok {| IsDir := true |}
     | Some (File _ _) => Ok {| IsDir := false |}
     | None => Err (walk_error (fs w) name [] (rkey (cwd w) name))
     end, with_call (CallStat name) w).
Proof. unfold os_Stat. rewrite resolve_rkey. by destruct (node_at _ _) as [[]|]. Qed.

Lemma os_MkdirAll_ok (name : string) (w : World) :
  dirs_free (fs w) (rkey (cwd w) name) = true →
  os_MkdirAll name w =
    (None, with_fs (mkdirs (rkey (cwd w) name) (fs w)) (with_call (CallMkdirAll name) w)).
Proof. intros H. unfold os_MkdirAll. rewrite resolve_rkey. by rewrite mkdirAll_go_ok. Qed.

(* ----------------------------------------------------------------- *)
(** ** The file writer on a plan *)

Lemma writeFile_ok (name c : string) (w : World) :
  rkey (cwd w) (filepath_Dir name) = parent (rkey (cwd w) name) →
  writable_at (fs w) (rkey (cwd w) name) = true →
  writeFile name c w =
    (None, mkWorld (write_at (fs w) (rkey (cwd w) name, c)) (cwd w) (Stderr w)
                   (calls w ++ [CallMkdirAll (filepath_Dir name); CallWriteFile name])).
Proof.
  intros Hdir (Hk & Hd & Ht)%writable_at_spec. unfold writeFile, bind.
  rewrite os_MkdirAll_ok by (by rewrite Hdir). rewrite Hdir.
  unfold ioutil_WriteFile. rewrite resolve_rkey. cbn [with_fs with_call fs cwd Stderr calls].
  set (k := rkey (cwd w) name) in *. rewrite node_at_lookup by done.
  assert (mkdirs (parent k) (fs w) !! k = fs w !! k) as Hsame.
  { destruct (mkdirs (parent k) (fs w) !! k) as [x|] eqn:E.
    - apply mkdirs_new in E as [E|(_ & _ & i & _ & E)]; [done| |done].
      symmetry in E. by apply take_parent_ne in E.
    - destruct (fs w !! k) as [x|] eqn:E'; [|done].
      apply (mkdirs_keeps (parent k)) in E'; [|done]. congruence. }
  rewrite Hsame. unfold write_at. cbn [fst snd].
  destruct (fs w !! k) as [[[] d|]|] eqn:E; try done.
  - unfold with_fs, with_call. simpl. by rewrite <- app_assoc.
  - rewrite mkdirs_dir by done. unfold with_fs, with_call. simpl. by rewrite <- app_assoc.
Qed.

Lemma compat_keys_cons (k : list string) (ks : list (list string)) :
  compat_keys (k :: ks) →
  compat_keys ks ∧ ∀ q, q ∈ ks → (k `prefix_of` q → k = q) ∧ (q `prefix_of` k → q = k).
Proof.
  intros H. split.
  - intros a b Ha Hb. apply H; by right.
  - intros q Hq. split; apply H; (by left) || by right.
Qed.

Lemma writeFiles_ok (files : list ManifestFile) (w : World) :
  Forall (regular (cwd w)) files →
  compat_keys (map (fun f => rkey (cwd w) (path f)) files) →
  Forall (fun f => writable_at (fs w) (rkey (cwd w) (path f)) = true) files →
  writeFiles files w =
    (None, mkWorld (foldl write_at (fs w) (plan_of (cwd w) files)) (cwd w)
                   (Stderr w ++ warnings_of (cwd w) (fs w) files)
                   (calls w ++ calls_of files)).
Proof.
  revert w. induction files as [|f rest IH]; intros w Hreg Hcompat Hwr.
  - destruct w. simpl. unfold ret. by rewrite !app_nil_r.
  - inversion Hreg as [|?? Hf Hrest]; subst. inversion Hwr as [|?? Hwf Hwrest]; subst.
    simpl in Hcompat. apply compat_keys_cons in Hcompat as [Hcr Hcf].
    assert (Hrest' : Forall (fun g => writable_at (write_at (fs w) (rkey (cwd w) (path f), content f)) (rkey (cwd w) (path g)) = true) rest).
    { rewrite Forall_forall in Hwrest |- *. intros g Hg.
      apply write_at_writable; [done|by apply Hwrest|..];
        apply Hcf, list_elem_of_fmap; by exists g. }
    cbn [writeFiles]. unfold bind at 1. rewrite os_Stat_eq.
    cbn [plan_of map foldl warnings_of calls_of flat_map].
    destruct (node_at (fs w) (rkey (cwd w) (path f))) as [[]|] eqn:E;
      unfold bind, Fprintf_Stderr, ret;
      (rewrite writeFile_ok by done);
      (rewrite IH by done);
      unfold with_diag, with_call; cbn [fs cwd Stderr calls];
      by rewrite <- !app_assoc.
Qed.


Lemma writable_compat_step (m : gmap (list string) node) (k : list string) (c : string)
    (l : list (list string * string)) :
  compat_keys (k :: l.*1) →
  writable_at m k = true →
  Forall (fun q => writable_at m q = true) l.*1 →
  Forall (fun q => writable_at (write_at m (k, c)) q = true) l.*1.
Proof.
  intros [_ Hc]%compat_keys_cons Hk Hl. rewrite Forall_forall in Hl |- *.
  intros q Hq. apply write_at_writable; [done|by apply Hl|apply Hc, Hq..].
Qed.

Lemma compat_keys_tail (k : list string) (ks : list (list string)) :
  compat_keys (k :: ks) → compat_keys ks.
Proof. by intros [? _]%compat_keys_cons. Qed.

(** Nodes away from the keys of the plan stay. *)
Lemma foldl_write_keeps (l : list (list string * string)) (m : gmap (list string) node)
    (q : list string) (x : node) :
  compat_keys l.*1 → Forall (fun k => writable_at m k = true) l.*1 →
  m !! q = Some x → q ∉ l.*1 → foldl write_at m l !! q = Some x.
Proof.
  revert m. induction l as [|[k c] l IH]; intros m Hc Hw Hq Hnin; [done|].
  simpl in *. inversion Hw as [|?? Hk Hl]; subst.
  apply not_elem_of_cons in Hnin as [Hqk Hnin].
  apply IH; [by eapply compat_keys_tail|by apply writable_compat_step| |done].
  rewrite write_at_lookup_ne by done. apply mkdirs_keeps; [|done].
  by apply writable_at_spec in Hk as (_ & ? & _).
Qed.

Lemma mkdirs_frame (k q : list string) (m : gmap (list string) node) :
  dirs_free m k = true → ¬ q `prefix_of` k → mkdirs k m !! q = m !! q.
Proof.
  intros Hk Hq. destruct (m !! q) as [x|] eqn:E; [by apply mkdirs_keeps|].
  destruct (mkdirs k m !! q) as [x|] eqn:E'; [|done].
  apply mkdirs_new in E' as [E'|(_ & _ & i & _ & ->)]; [congruence| |done].
  exfalso. apply Hq, prefix_take.
Qed.

(** Only the keys of the plan and their prefixes change. *)
Lemma foldl_write_frame (l : list (list string * string)) (m : gmap (list string) node)
    (q : list string) :
  compat_keys l.*1 → Forall (fun k => writable_at m k = true) l.*1 →
  (∀ k, k ∈ l.*1 → ¬ q `prefix_of` k) → foldl write_at m l !! q = m !! q.
Proof.
  revert m. induction l as [|[k c] l IH]; intros m Hc Hw Hq; [done|].
  simpl in *. inversion Hw as [|?? Hk Hl]; subst.
  rewrite IH; [|by eapply compat_keys_tail|by apply writable_compat_step|].
  - assert (¬ q `prefix_of` k) as Hqk by (apply Hq; by left).
    rewrite write_at_lookup_ne by (by intros ->).
    apply mkdirs_frame; [by apply writable_at_spec in Hk as (_ & ? & _)|].
    intros Hp. apply Hqk. etrans; [done|]. apply prefix_take.
  - intros k' Hk'. apply Hq. by right.
Qed.

Lemma parent_prefix (k : list string) : parent k `prefix_of` k.
Proof. apply prefix_take. Qed.

Lemma parent_ne (k : list string) : k ≠ [] → parent k ≠ k.
Proof.
  intros Hk E. apply (f_equal length) in E. unfold parent in E. rewrite length_take in E.
  destruct k; [done|]. simpl in E. lia.
Qed.

Lemma write_at_parent (m : gmap (list string) node) (k : list string) (c : string) :
  writable_at m k = true → node_at (write_at m (k, c)) (parent k) = Some Dir.
Proof.
  intros (Hk & Hd & _)%writable_at_spec.
  pose proof (mkdirs_dir (parent k) m Hd) as H.
  pose proof (parent_ne k Hk) as Hne.
  unfold write_at. cbn [fst snd].
  destruct (parent k) as [|a p]; [done|].
  rewrite node_at_lookup in * by done. by rewrite lookup_insert_ne.
Qed.

(** After a plan without repeated keys has been written, it is settled. *)
Lemma foldl_write_settled (l : list (list string * string)) (m : gmap (list string) node) :
  NoDup l.*1 → compat_keys l.*1 → Forall (fun k => writable_at m k = true) l.*1 →
  settled (foldl write_at m l) l.
Proof.
  revert m. induction l as [|[k c] l IH]; intros m Hnd Hc Hw; [by intros ?? ?%elem_of_nil|].
  simpl in *. inversion Hw as [|?? Hk Hl]; subst. apply NoDup_cons in Hnd as [Hkl Hnd].
  pose proof (writable_compat_step m k c l Hc Hk Hl) as Hw'.
  pose proof (compat_keys_tail _ _ Hc) as Hc'.
  intros k' c' [[= -> ->]|Hin]%elem_of_cons; [|by apply IH].
  split.
  - apply foldl_write_keeps; [done..|by apply write_at_lookup_eq|done].
  - pose proof (write_at_parent m k c Hk) as Hp.
    destruct (parent k) as [|a p] eqn:E; [done|]. rewrite <- E in *.
    rewrite node_at_lookup in * by (by rewrite E).
    apply foldl_write_keeps; [done..|].
    intros Hin. apply compat_keys_cons in Hc as [_ Hc].
    apply Hc in Hin as [_ Hin]. apply writable_at_spec in Hk as (Hk & _).
    apply (parent_ne k Hk). apply Hin, parent_prefix.
Qed.

Lemma settled_write (m : gmap (list string) node) (l : list (list string * string))
    (k : list string) (c : string) :
  settled m l → (k, c) ∈ l → write_at m (k, c) = m.
Proof.
  intros Hs Hin. apply Hs in Hin as [Hk Hp]. unfold write_at. simpl.
  rewrite mkdirs_id by done. by apply insert_id.
Qed.

Lemma settled_foldl (m : gmap (list string) node) (l l' : list (list string * string)) :
  settled m l → l' ⊆ l → foldl write_at m l' = m.
Proof.
  intros Hs. induction l' as [|[k c] l' IH]; intros Hsub; [done|]. simpl.
  rewrite (settled_write m l) by (done || apply Hsub; by left).
  apply IH. intros x Hx. apply Hsub. by right.
Qed.

Lemma settled_mkdirs (m : gmap (list string) node) (l : list (list string * string))
    (k : list string) :
  dirs_free m k = true → settled m l → settled (mkdirs k m) l.
Proof.
  intros Hk Hs k' c' [Hf Hp]%Hs. split; [by apply mkdirs_keeps|].
  destruct (parent k'); [done|]. by apply mkdirs_keeps.
Qed.

Lemma settled_writable (m : gmap (list string) node) (l : list (list string * string)) :
  settled m l → Forall (fun k => dirs_free m (parent k) = true ∧ k ≠ []) l.*1 →
  Forall (fun k => writable_at m k = true) l.*1.
Proof.
  intros Hs H. rewrite Forall_forall in H |- *. intros k Hk.
  destruct (H k Hk) as [Hd Hne]. apply list_elem_of_fmap in Hk as [[k' c] [-> Hin]].
  apply Hs in Hin as [Hf _]. apply writable_at_spec. simpl in *. by rewrite Hf.
Qed.

(** On a settled plan, every file gets its warning. *)
Lemma settled_warnings (K : list string) (m : gmap (list string) node)
    (files : list ManifestFile) :
  settled m (plan_of K files) →
  Forall (fun f => rkey K (path f) ≠ []) files →
  warnings_of K m files = map (fun f => WarnOverwrite (path f)) files.
Proof.
  intros Hs. induction files as [|f rest IH]; intros Hne; [done|].
  inversion Hne as [|?? Hf Hrest]; subst. simpl.
  assert ((rkey K (path f), content f) ∈ plan_of K (f :: rest)) as Hin by (by left).
  rewrite (settled_write m _ _ _ Hs Hin). apply Hs in Hin as [Hin _].
  rewrite node_at_lookup, Hin by done. simpl. f_equal. apply IH; [|done].
  intros k c Hkc. apply Hs. by right.
Qed.


Lemma string_drop_app (a s : string) (k : nat) :
  string_drop (String.length a + k) (a +:+ s) = string_drop k s.
Proof. induction a as [|x a IH]; [done|]. rewrite app_cons_s. simpl. apply IH. Qed.

Lemma tail_of_app (n : nat) (a s : string) :
  n ≤ String.length s → tail_of n (a +:+ s) = tail_of n s.
Proof.
  intros H. unfold tail_of. rewrite length_app_s.
  replace (String.length a + String.length s - n)
    with (String.length a + (String.length s - n)) by lia.
  apply string_drop_app.
Qed.

Lemma has_sep_forallb (s : string) :
  string_forallb (fun c => negb (is_sep c)) s = true → has_sep s = false.
Proof.
  induction s as [|x s IH]; [done|]. simpl. intros [Hx Hs]%andb_true_iff.
  apply negb_true_iff in Hx. by rewrite Hx, IH.
Qed.

Lemma valid_no_sep (m : string) :
  string_forallb chartName_class m = true → has_sep m = false.
Proof.
  intros H. apply has_sep_forallb. revert H. apply string_forallb_impl.
  intros c Hc. by rewrite class_not_sep.
Qed.

Lemma plain_file_elem (a m s : string) :
  has_sep a = false → has_sep m = false → has_sep s = false → 3 ≤ String.length s →
  plain (a +:+ m +:+ s) = true.
Proof.
  intros Ha Hm Hs Hl. apply plain_long.
  - by rewrite !has_sep_app, Ha, Hm, Hs.
  - rewrite !length_app_s. lia.
Qed.

Lemma file_elems_plain (m : string) :
  has_sep m = false → Forall (fun e => plains e) (file_elems m).
Proof.
  intros Hm. unfold file_elems.
  repeat (apply Forall_cons; split);
    repeat (apply Forall_cons; split); try apply Forall_nil; try done;
    try (by apply (plain_file_elem EmptyString); [done..|simpl; lia]).
  by apply plain_file_elem; [done..|simpl; lia].
Qed.

Lemma base_elems_plain : Forall (fun e => plains e) base_elems.
Proof. unfold base_elems. repeat (apply Forall_cons; split); by repeat constructor. Qed.

(** The names of the plans. *)
Lemma replace_IngressFileName (new : string) :
  strings_ReplaceAll IngressFileName moduleNameTemplate new
  = "templates" +:+ sep +:+ (new +:+ "_ingress.yaml").
Proof. by vm_compute. Qed.

Lemma replace_DeploymentName (new : string) :
  strings_ReplaceAll DeploymentName moduleNameTemplate new
  = "templates" +:+ sep +:+ (new +:+ "_deployment.yaml").
Proof. by vm_compute. Qed.

Lemma replace_ServiceName (new : string) :
  strings_ReplaceAll ServiceName moduleNameTemplate new
  = "templates" +:+ sep +:+ (new +:+ "_service.yaml").
Proof. by vm_compute. Qed.

Lemma replace_ServiceAccountName (new : string) :
  strings_ReplaceAll ServiceAccountName moduleNameTemplate new
  = "templates" +:+ sep +:+ (new +:+ "_serviceaccount.yaml").
Proof. by vm_compute. Qed.

Lemma replace_HorizontalPodAutoscalerName (new : string) :
  strings_ReplaceAll HorizontalPodAutoscalerName moduleNameTemplate new
  = "templates" +:+ sep +:+ (new +:+ "_hpa.yaml").
Proof. by vm_compute. Qed.

Lemma replace_HelpersName (new : string) :
  strings_ReplaceAll HelpersName moduleNameTemplate new
  = "templates" +:+ sep +:+ ("_" +:+ new +:+ "_helpers.tpl").
Proof. by vm_compute. Qed.

Lemma replace_TestConnectionName (new : string) :
  strings_ReplaceAll TestConnectionName moduleNameTemplate new
  = "templates" +:+ sep +:+ "tests" +:+ sep +:+ (new +:+ "_test-connection.yaml").
Proof. by vm_compute. Qed.

Lemma replace_NotesName (new : string) :
  strings_ReplaceAll NotesName moduleNameTemplate new = "templates" +:+ sep +:+ "NOTES.txt".
Proof. by vm_compute. Qed.

Lemma getFiles_paths (cdir m : string) :
  map path (getFiles cdir m)
  = map (fun e => filepath_Join cdir (path_concat e)) (file_elems m).
Proof.
  unfold getFiles, file_elems, transformModuleName. cbn [map path].
  rewrite replace_IngressFileName, replace_DeploymentName, replace_ServiceName,
    replace_ServiceAccountName, replace_HorizontalPodAutoscalerName,
    replace_HelpersName, replace_TestConnectionName.
  by rewrite !(app_assoc_s m "_").
Qed.

Lemma getBasefiles_paths (cdir m chartname : string) :
  map path (getBasefiles cdir m chartname)
  = map (fun e => filepath_Join cdir (path_concat e)) base_elems.
Proof.
  unfold getBasefiles, base_elems, transformModuleName. cbn [map path].
  by rewrite replace_NotesName.
Qed.

Lemma Join_rel (cs : list string) :
  plains cs → cs ≠ [] → filepath_Join EmptyString (path_concat cs) = path_concat cs.
Proof.
  intros Hcs Hne. unfold filepath_Join.
  rewrite Clean_concat by done.
  destruct (path_concat cs) eqn:E; [|done].
  destruct cs as [|c cs]; [done|]. inversion Hcs as [|?? Hc _]; subst.
  apply plain_spec in Hc as [Hc _]. destruct cs; simpl in E; [done|]. by destruct c.
Qed.

Lemma Join_abs (C cs : list string) :
  plains C → plains cs → cs ≠ [] →
  filepath_Join (render C) (path_concat cs) = render (C ++ cs).
Proof.
  intros HC Hcs Hne. rewrite Join_render by done. f_equal.
  apply extend_simple; [by apply path_elems_concat|done].
Qed.

(** Key and directory of a name below the absolute root [C]. *)
Lemma rkey_abs (K C : list string) : plains K → plains C → rkey K (render C) = C.
Proof. intros HK HC. rewrite rkey_key by done. by apply key_from_render. Qed.

Lemma rkey_rel (K cs : list string) :
  plains K → plains cs → cs ≠ [] → rkey K (path_concat cs) = K ++ cs.
Proof. intros HK Hcs Hne. rewrite rkey_key by done. by apply key_from_concat. Qed.

Lemma snoc_cases {A : Type} (l : list A) : l ≠ [] → ∃ l' x, l = l' ++ [x].
Proof. destruct l as [|x l] using rev_ind; [done|]. eauto. Qed.

Lemma rkey_Dir_abs (K C cs : list string) :
  plains K → plains C → plains cs → cs ≠ [] →
  rkey K (filepath_Dir (render (C ++ cs))) = parent (C ++ cs).
Proof.
  intros HK HC Hcs [cs' [c ->]]%snoc_cases. rewrite app_assoc.
  rewrite Dir_render by (rewrite <- app_assoc; by apply Forall_app).
  rewrite parent_snoc. apply rkey_abs; [done|].
  apply Forall_app. split; [done|]. by apply plains_snoc in Hcs as [? _].
Qed.

Lemma rkey_Dir_rel (K cs : list string) :
  plains K → plains cs → cs ≠ [] →
  rkey K (filepath_Dir (path_concat cs)) = parent (K ++ cs).
Proof.
  intros HK Hcs [cs' [c ->]]%snoc_cases. rewrite rkey_key by done.
  rewrite key_from_Dir_concat by done. by rewrite app_assoc, parent_snoc.
Qed.

(* keys with a common root *)

Lemma compat_keys_app (B : list string) (es : list (list string)) :
  compat_keys es → compat_keys (map (app B) es).
Proof.
  intros H k q [k' [-> Hk]]%list_elem_of_fmap [q' [-> Hq]]%list_elem_of_fmap Hp.
  f_equal. apply H; [done..|]. by apply prefix_app_inv in Hp.
Qed.

Lemma NoDup_app_keys (B : list string) (es : list (list string)) :
  NoDup es → NoDup (map (app B) es).
Proof. intros H. apply NoDup_fmap_2; [|done]. intros ???. by simplify_list_eq. Qed.

Lemma neq_by_length (a b : string) : String.length a ≠ String.length b → a ≠ b.
Proof. by intros H ->. Qed.

Lemma neq_by_tail (n : nat) (a b : string) : tail_of n a ≠ tail_of n b → a ≠ b.
Proof. by intros H ->. Qed.

Lemma prefix_same_length {A : Type} (k q : list A) :
  length k = length q → k `prefix_of` q → k = q.
Proof. intros Hl Hp. apply prefix_length_eq; [done|lia]. Qed.

Lemma file_elems_compat (m : string) : compat_keys (file_elems m).
Proof.
  intros k q Hk Hq Hp. unfold file_elems in *.
  repeat (apply elem_of_cons in Hk as [->|Hk]); try (by apply elem_of_nil in Hk);
  repeat (apply elem_of_cons in Hq as [->|Hq]); try (by apply elem_of_nil in Hq);
  try (by apply prefix_same_length);
  try (by apply prefix_length in Hp; simpl in Hp; lia);
  exfalso; apply prefix_cons_inv_2, prefix_cons_inv_1 in Hp;
  apply (f_equal String.length) in Hp; rewrite !length_app_s in Hp; simpl in Hp; lia.
Qed.

Lemma string_app_neq (m s t : string) : s ≠ t → m +:+ s ≠ m +:+ t.
Proof. intros H E. by apply (inj (String.app m)) in E. Qed.

Lemma file_elems_NoDup (m : string) : NoDup (file_elems m).
Proof.
  unfold file_elems.
  repeat (apply NoDup_cons; split; [rewrite ?not_elem_of_cons; repeat split;
    try apply not_elem_of_nil|]); try apply NoDup_nil; try done.
  all: intros E; injection E as E; revert E.
  all: try (by apply string_app_neq).
  all: apply (neq_by_tail 4); rewrite <- ?(app_assoc_s "_" m);
    by rewrite !tail_of_app by (simpl; lia).
Qed.


Lemma foldl_write_writable (l : list (list string * string)) (ks : list (list string))
    (m : gmap (list string) node) :
  compat_keys (l.*1 ++ ks) →
  Forall (fun k => writable_at m k = true) l.*1 →
  Forall (fun k => writable_at m k = true) ks →
  Forall (fun k => writable_at (foldl write_at m l) k = true) ks.
Proof.
  revert m. induction l as [|[k c] l IH]; intros m Hc Hl Hks; [done|].
  simpl in *. inversion Hl as [|?? Hk Hl']; subst.
  pose proof (compat_keys_cons _ _ Hc) as [Hc' Hck].
  apply IH; [done| |].
  - rewrite Forall_forall in Hl' |- *. intros q Hq.
    apply write_at_writable; [done|by apply Hl'|apply Hck, elem_of_app; by left..].
  - rewrite Forall_forall in Hks |- *. intros q Hq.
    apply write_at_writable; [done|by apply Hks|apply Hck, elem_of_app; by right..].
Qed.

Lemma write_at_dirs_free (m : gmap (list string) node) (k d : list string) (c : string) :
  writable_at m k = true → dirs_free m d = true → ¬ k `prefix_of` d →
  dirs_free (write_at m (k, c)) d = true.
Proof.
  intros (Hk & Hkd & _)%writable_at_spec Hd Hp. apply dirs_free_spec. intros i Hi.
  rewrite write_at_lookup_ne.
  - apply not_file_mkdirs; [done|]. by apply (proj1 (dirs_free_spec _ _) Hd).
  - intros E. apply Hp. rewrite <- E. apply prefix_take.
Qed.

Lemma foldl_write_dirs_free (l : list (list string * string)) (d : list string)
    (m : gmap (list string) node) :
  compat_keys l.*1 → Forall (fun k => writable_at m k = true) l.*1 →
  dirs_free m d = true → (∀ k, k ∈ l.*1 → ¬ k `prefix_of` d) →
  dirs_free (foldl write_at m l) d = true.
Proof.
  revert m. induction l as [|[k c] l IH]; intros m Hc Hl Hd Hp; [done|].
  simpl in *. inversion Hl as [|?? Hk Hl']; subst.
  apply IH; [by eapply compat_keys_tail|by apply writable_compat_step| |].
  - apply write_at_dirs_free; [done..|]. apply Hp. by left.
  - intros q Hq. apply Hp. by right.
Qed.

Lemma dirs_free_mkdirs (m : gmap (list string) node) (d k : list string) :
  dirs_free m d = true → dirs_free m k = true → dirs_free (mkdirs d m) k = true.
Proof.
  intros Hd Hk. apply dirs_free_spec. intros i Hi. apply not_file_mkdirs; [done|].
  by apply (proj1 (dirs_free_spec _ _) Hk).
Qed.

Lemma mkdirs_writable (m : gmap (list string) node) (d k : list string) :
  dirs_free m d = true → writable_at m k = true → ¬ k `prefix_of` d →
  writable_at (mkdirs d m) k = true.
Proof.
  intros Hd (Hk & Hkd & Hkt)%writable_at_spec Hp. apply writable_at_spec.
  split; [done|]. split; [by apply dirs_free_mkdirs|].
  by rewrite mkdirs_frame.
Qed.

Lemma getwd_render (w : World) : getwd w = render (cwd w).
Proof. done. Qed.

Lemma not_file_cases (o : option node) :
  not_file o = true → o = None ∨ o = Some Dir.
Proof. destruct o as [[]|]; naive_solver. Qed.

(** The checks of [Create] pass when the directory exists and the chart
    directory is not a file. *)
Lemma Create_checks (chartname dir : string) (w : World) :
  validateChartName chartname = None →
  plains (cwd w) →
  node_at (fs w) (parent_key w dir) = Some Dir →
  not_file (node_at (fs w) (chart_key w dir chartname)) = true →
  Create chartname dir w =
    Create_body chartname (render (chart_key w dir chartname))
      (with_call (CallStat (render (chart_key w dir chartname)))
         (with_call (CallStat (render (parent_key w dir))) w)).
Proof.
  intros Hv HK HA HC. unfold Create. rewrite Hv.
  unfold bind at 1. unfold filepath_Abs. rewrite getwd_render.
  rewrite abs_from_render by done.
  assert (HAp : plains (key_from (cwd w) dir)) by (by apply key_from_plain).
  assert (HAk : parent_key w dir = key_from (cwd w) dir) by (by apply rkey_key).
  rewrite <- HAk in *.
  unfold bind at 1. rewrite os_Stat_eq. rewrite rkey_abs by done. rewrite HA.
  cbn [IsDir negb]. rewrite Join_render by done. fold (chart_key w dir chartname).
  unfold bind at 1. rewrite os_Stat_eq. cbn [fs cwd with_call].
  rewrite rkey_abs by (done || by apply extend_plain).
  by apply not_file_cases in HC as [-> | ->].
Qed.


Lemma rooted_name (K : list string) (B : option (list string)) (e : list string) :
  plains K → plains_root B → plains e → e ≠ [] →
  rkey K (filepath_Join (root_name B) (path_concat e)) = root_key K B ++ e ∧
  rkey K (filepath_Dir (filepath_Join (root_name B) (path_concat e)))
  = parent (root_key K B ++ e).
Proof.
  intros HK HB He Hne. destruct B as [C|]; cbn [root_name root_key plains_root] in *.
  - rewrite Join_abs by done. split.
    + apply rkey_abs; [done|]. by apply Forall_app.
    + by apply rkey_Dir_abs.
  - rewrite Join_rel by done. split.
    + by apply rkey_rel.
    + by apply rkey_Dir_rel.
Qed.

Lemma plan_of_keys (K : list string) (files : list ManifestFile) :
  (plan_of K files).*1 = map (fun f => rkey K (path f)) files.
Proof. unfold plan_of. rewrite <- list_fmap_compose. done. Qed.

(** The keys of a plan whose names are the element lists [es] below the
    root [B]. *)
Lemma rooted_keys (K : list string) (B : option (list string)) (es : list (list string))
    (files : list ManifestFile) :
  plains K → plains_root B → Forall (fun e => plains e) es → Forall (fun e => e ≠ []) es →
  map path files = map (fun e => filepath_Join (root_name B) (path_concat e)) es →
  map (fun f => rkey K (path f)) files = map (app (root_key K B)) es ∧
  Forall (regular K) files.
Proof.
  intros HK HB Hes Hne. revert files.
  induction es as [|e es IH]; intros [|f files] Hp; try done.
  inversion Hes as [|?? He Hes']; inversion Hne as [|?? Hne1 Hne']; subst.
  simpl in Hp. injection Hp as Hf Hp.
  destruct (IH Hes' Hne' files Hp) as [IH1 IH2].
  destruct (rooted_name K B e HK HB He Hne1) as [H1 H2].
  split.
  - simpl. rewrite Hf, H1. by f_equal.
  - constructor; [|done]. unfold regular. by rewrite Hf, H1, H2.
Qed.

Lemma writeFiles_rooted (B : option (list string)) (es : list (list string))
    (files : list ManifestFile) (w : World) :
  plains (cwd w) → plains_root B → Forall (fun e => plains e) es → Forall (fun e => e ≠ []) es →
  map path files = map (fun e => filepath_Join (root_name B) (path_concat e)) es →
  compat_keys es →
  Forall (fun k => writable_at (fs w) k = true) (map (app (root_key (cwd w) B)) es) →
  writeFiles files w =
    (None, mkWorld (foldl write_at (fs w) (plan_of (cwd w) files)) (cwd w)
                   (Stderr w ++ warnings_of (cwd w) (fs w) files)
                   (calls w ++ calls_of files)).
Proof.
  intros HK HB Hes Hne Hp Hc Hw.
  destruct (rooted_keys (cwd w) B es files HK HB Hes Hne Hp) as [Hkeys Hreg].
  apply writeFiles_ok; [done|..].
  - rewrite Hkeys. by apply compat_keys_app.
  - rewrite <- Hkeys in Hw. by apply Forall_fmap in Hw.
Qed.

Lemma file_elems_nonempty (m : string) : Forall (fun e => e ≠ []) (file_elems m).
Proof. unfold file_elems. by repeat constructor. Qed.

Lemma base_elems_nonempty : Forall (fun e => e ≠ []) base_elems.
Proof. unfold base_elems. by repeat constructor. Qed.

Lemma rkey_values (K : list string) : plains K → rkey K ValuesfileName = K ++ ["values.yaml"].
Proof. intros HK. by apply (rkey_rel K ["values.yaml"]); [|repeat constructor|]. Qed.

(** [appendToValuesFile] on a writable values file. *)
Lemma appendToValuesFile_ok (module d : string) (w : World) :
  plains (cwd w) →
  fs w !! (cwd w ++ ["values.yaml"]) = Some (File true d) →
  appendToValuesFile module w =
    (tt, mkWorld (<[cwd w ++ ["values.yaml"] := File true (d +:+ transform defaultValues module)]> (fs w))
                 (cwd w) (Stderr w)
                 (calls w ++ [CallOpenFile ValuesfileName; CallWrite (cwd w ++ ["values.yaml"])])).
Proof.
  intros HK Hv. unfold appendToValuesFile, bind, os_OpenFile_append.
  rewrite resolve_rkey, rkey_values by done.
  rewrite node_at_lookup by (by destruct (cwd w)). rewrite Hv.
  unfold ret, File_Write. cbn [fs with_call]. rewrite Hv.
  unfold with_fs, with_call. cbn. by rewrite <- app_assoc.
Qed.

(** [appendToValuesFile] on a values file that cannot be opened for
    writing: two lines on the diagnostic stream, nothing written. *)
Lemma appendToValuesFile_fails (module : string) (w : World) (x : node) :
  plains (cwd w) →
  fs w !! (cwd w ++ ["values.yaml"]) = Some x →
  (x = Dir ∨ ∃ d, x = File false d) →
  appendToValuesFile module w =
    (tt, mkWorld (fs w) (cwd w)
                 (Stderr w ++ [ErrOpening ValuesfileName; ErrWriting ValuesfileName])
                 (calls w ++ [CallOpenFile ValuesfileName])).
Proof.
  intros HK Hv Hx. unfold appendToValuesFile, bind, os_OpenFile_append.
  rewrite resolve_rkey, rkey_values by done.
  rewrite node_at_lookup by (by destruct (cwd w)). rewrite Hv.
  destruct Hx as [->|[d ->]]; unfold Fprintf_Stderr, File_Write, with_diag, with_call;
    cbn; by rewrite <- app_assoc.
Qed.



Lemma all_elems_compat (m : string) : compat_keys (base_elems ++ file_elems m).
Proof.
  intros k q Hk Hq Hp. unfold base_elems, file_elems in *. cbn [app] in *.
  repeat (apply elem_of_cons in Hk as [->|Hk]); try (by apply elem_of_nil in Hk);
  repeat (apply elem_of_cons in Hq as [->|Hq]); try (by apply elem_of_nil in Hq);
  try (by apply prefix_same_length);
  try (by apply prefix_length in Hp; simpl in Hp; lia);
  exfalso;
  first [ by apply prefix_cons_inv_1 in Hp
        | apply prefix_cons_inv_2, prefix_cons_inv_1 in Hp;
          first [ done
                | apply (f_equal String.length) in Hp; rewrite !length_app_s in Hp;
                  simpl in Hp; lia ] ].
Qed.

Lemma all_elems_NoDup (m : string) : NoDup (base_elems ++ file_elems m).
Proof.
  apply NoDup_app. split.
  { unfold base_elems.
    repeat (apply NoDup_cons; split; [rewrite ?not_elem_of_cons; repeat split;
      try apply not_elem_of_nil; done|]). apply NoDup_nil_2. }
  split; [|apply file_elems_NoDup].
  intros e He Hf. unfold base_elems, file_elems in *.
  repeat (apply elem_of_cons in He as [->|He]); try (by apply elem_of_nil in He);
  repeat (apply elem_of_cons in Hf as [Hf|Hf]); try (by apply elem_of_nil in Hf);
  try done; injection Hf as Hf; revert Hf;
  apply (neq_by_tail 4); rewrite <- ?(app_assoc_s "_" m);
  by rewrite !tail_of_app by (simpl; lia).
Qed.

Lemma all_elems_plain (m : string) :
  has_sep m = false → Forall (fun e => plains e) (base_elems ++ file_elems m).
Proof. intros Hm. apply Forall_app. split; [apply base_elems_plain|by apply file_elems_plain]. Qed.

Lemma all_elems_not_charts (m : string) (e : list string) :
  e ∈ base_elems ++ file_elems m → ¬ e `prefix_of` ["charts"].
Proof.
  intros He Hp. unfold base_elems, file_elems in *. cbn [app] in *.
  repeat (apply elem_of_cons in He as [->|He]); try (by apply elem_of_nil in He);
  try (by apply prefix_length in Hp; simpl in Hp; lia);
  by apply prefix_cons_inv_1 in Hp.
Qed.

Lemma all_elems_not_values (m : string) (e : list string) :
  e ∈ file_elems m → ¬ ["values.yaml"] `prefix_of` e.
Proof.
  intros He Hp. unfold file_elems in *.
  repeat (apply elem_of_cons in He as [->|He]); try (by apply elem_of_nil in He);
  by apply prefix_cons_inv_1 in Hp.
Qed.

Lemma compat_keys_sub (ks ks' : list (list string)) :
  ks' ⊆ ks → compat_keys ks → compat_keys ks'.
Proof. intros Hs H k q Hk Hq. apply H; by apply Hs. Qed.

(** The world after [Create] in add-module mode, without input or output
    failure. *)
Lemma Create_body_add_module (chartname cdir d : string) (w : World) :
  has_sep chartname = false → plains (cwd w) →
  fs w !! (cwd w ++ ["values.yaml"]) = Some (File true d) →
  Forall (fun e => writable_at (fs w) (cwd w ++ e) = true) (file_elems chartname) →
  Create_body chartname cdir w =
    ((cdir, None),
     mkWorld (<[cwd w ++ ["values.yaml"] := File true (d +:+ transform defaultValues chartname)]>
                (foldl write_at (fs w) (plan_of (cwd w) (getFiles EmptyString chartname))))
             (cwd w)
             (Stderr w ++ warnings_of (cwd w) (fs w) (getFiles EmptyString chartname))
             (calls w ++ [CallStat ValuesfileName] ++ calls_of (getFiles EmptyString chartname)
                ++ [CallOpenFile ValuesfileName; CallWrite (cwd w ++ ["values.yaml"])])).
Proof.
  intros Hm HK Hv Hw. unfold Create_body. unfold bind at 1. rewrite os_Stat_eq.
  rewrite rkey_values by done. rewrite node_at_lookup by (by destruct (cwd w)). rewrite Hv.
  unfold bind at 1.
  rewrite (writeFiles_rooted None (file_elems chartname));
    [|done|done|by apply file_elems_plain|apply file_elems_nonempty|apply getFiles_paths
     |apply file_elems_compat|by apply Forall_fmap].
  unfold bind at 1. cbn [fs cwd Stderr calls with_call].
  erewrite appendToValuesFile_ok; cbn [fs cwd Stderr calls]; [|done|].
  - unfold ret. by rewrite <- !app_assoc.
  - apply foldl_write_keeps; [| |done|].
    + rewrite plan_of_keys.
      destruct (rooted_keys (cwd w) None (file_elems chartname) (getFiles EmptyString chartname))
        as [-> _]; [done|done|by apply file_elems_plain|apply file_elems_nonempty
                    |apply getFiles_paths|].
      apply compat_keys_app, file_elems_compat.
    + rewrite plan_of_keys.
      destruct (rooted_keys (cwd w) None (file_elems chartname) (getFiles EmptyString chartname))
        as [-> _]; [done|done|by apply file_elems_plain|apply file_elems_nonempty
                    |apply getFiles_paths|].
      by apply Forall_fmap.
    + rewrite plan_of_keys.
      destruct (rooted_keys (cwd w) None (file_elems chartname) (getFiles EmptyString chartname))
        as [-> _]; [done|done|by apply file_elems_plain|apply file_elems_nonempty
                    |apply getFiles_paths|].
      intros [e [He Hin]]%list_elem_of_fmap. cbn [root_key] in He.
      apply app_inv_head in He. subst e.
      by apply all_elems_not_values in Hin.
Qed.


Lemma new_unit_paths (C : list string) (chartname : string) :
  map path (new_unit_files (render C) chartname)
  = map (fun e => filepath_Join (render C) (path_concat e)) (base_elems ++ file_elems "main").
Proof.
  unfold new_unit_files. rewrite !map_app. by rewrite getBasefiles_paths, getFiles_paths.
Qed.

Lemma new_unit_keys (K C : list string) (chartname : string) :
  plains K → plains C →
  (plan_of K (new_unit_files (render C) chartname)).*1
  = map (app C) (base_elems ++ file_elems "main").
Proof.
  intros HK HC. rewrite plan_of_keys.
  by destruct (rooted_keys K (Some C) (base_elems ++ file_elems "main")
              (new_unit_files (render C) chartname))
    as [-> _]; [done|done|by apply all_elems_plain
               |apply Forall_app; split; [apply base_elems_nonempty|apply file_elems_nonempty]
               |apply new_unit_paths|].
Qed.

Lemma plan_of_app (K : list string) (a b : list ManifestFile) :
  plan_of K (a ++ b) = plan_of K a ++ plan_of K b.
Proof. apply map_app. Qed.

Lemma warnings_of_app (K : list string) (m : gmap (list string) node)
    (a b : list ManifestFile) :
  warnings_of K m (a ++ b)
  = warnings_of K m a ++ warnings_of K (foldl write_at m (plan_of K a)) b.
Proof.
  revert m. induction a as [|f a IH]; intros m; [done|]. simpl.
  by rewrite IH, <- app_assoc.
Qed.

Lemma calls_of_app (a b : list ManifestFile) :
  calls_of (a ++ b) = calls_of a ++ calls_of b.
Proof. unfold calls_of. by rewrite flat_map_app. Qed.

(** Two calls of [writeFiles] in a row are one call on the two plans. *)
Lemma writeFiles_app (a b : list ManifestFile) (w : World) :
  fst (writeFiles a w) = None →
  (writeFiles a ;;; writeFiles b) w = writeFiles (a ++ b) w.
Proof.
  revert w. induction a as [|f a IH]; intros w; [done|].
  cbn [writeFiles app]. unfold bind in *.
  destruct (os_Stat (path f) w) as [[fi|err] w1]; unfold Fprintf_Stderr, ret.
  - destruct (writeFile (path f) (content f) _) as [[e|] w3]; [done|]. apply IH.
  - destruct (writeFile (path f) (content f) _) as [[e|] w3]; [done|]. apply IH.
Qed.

(** The world after [Create] in new-unit mode, without input or output
    failure, for the chart directory with the elements [C]. *)
Lemma Create_body_new_unit (chartname : string) (C : list string) (w : World) :
  plains (cwd w) → plains C →
  node_at (fs w) (cwd w ++ ["values.yaml"]) = None →
  Forall (fun e => writable_at (fs w) (C ++ e) = true) (base_elems ++ file_elems "main") →
  dirs_free (fs w) (C ++ ["charts"]) = true →
  Create_body chartname (render C) w =
    ((render C, None),
     mkWorld (mkdirs (C ++ ["charts"])
                (foldl write_at (fs w) (plan_of (cwd w) (new_unit_files (render C) chartname))))
             (cwd w)
             (Stderr w ++ warnings_of (cwd w) (fs w) (new_unit_files (render C) chartname))
             (calls w ++ [CallStat ValuesfileName]
                ++ calls_of (new_unit_files (render C) chartname)
                ++ [CallMkdirAll (render (C ++ ["charts"]))])).
Proof.
  intros HK HC Hv Hw Hd. unfold Create_body. unfold bind at 1. rewrite os_Stat_eq.
  rewrite rkey_values by done. rewrite Hv.
  set (w1 := with_call (CallStat ValuesfileName) w).
  assert (Hall : writeFiles (new_unit_files (render C) chartname) w1 =
    (None, mkWorld (foldl write_at (fs w1) (plan_of (cwd w1) (new_unit_files (render C) chartname)))
                   (cwd w1)
                   (Stderr w1 ++ warnings_of (cwd w1) (fs w1) (new_unit_files (render C) chartname))
                   (calls w1 ++ calls_of (new_unit_files (render C) chartname)))).
  { apply (writeFiles_rooted (Some C) (base_elems ++ file_elems "main"));
      [done|done|by apply all_elems_plain
      |apply Forall_app; split; [apply base_elems_nonempty|apply file_elems_nonempty]
      |apply new_unit_paths|apply all_elems_compat|by apply Forall_fmap]. }
  assert (Hbase : fst (writeFiles (getBasefiles (render C) "main" chartname) w1) = None).
  { erewrite (writeFiles_rooted (Some C) base_elems);
      [done|done|done|apply base_elems_plain|apply base_elems_nonempty
      |apply getBasefiles_paths
      |eapply compat_keys_sub; [|apply (all_elems_compat "main")];
         intros ??; apply elem_of_app; by left
      |].
    apply Forall_fmap. apply Forall_app in Hw as [Hw _]. done. }
  pose proof (writeFiles_app _ (getFiles (render C) "main") w1 Hbase) as Happ.
  fold (new_unit_files (render C) chartname) in Happ. rewrite Hall in Happ.
  unfold bind in Happ |- *.
  destruct (writeFiles (getBasefiles (render C) "main" chartname) w1) as [e1 w2].
  destruct (writeFiles (getFiles (render C) "main") w2) as [e2 w3].
  pose proof (f_equal fst Happ) as He. pose proof (f_equal snd Happ) as Hw3.
  cbn [fst snd] in He, Hw3. clear Happ Hall. subst e2 w3.
  assert (filepath_Join (render C) ChartsDir = render (C ++ ["charts"])) as ->
    by (by apply (Join_abs C ["charts"]); [|repeat constructor|]).
  assert (plains (C ++ ["charts"])) as HCc
    by (apply Forall_app; split; [done|by repeat constructor]).
  rewrite os_MkdirAll_ok; cbn [fs cwd Stderr calls with_call w1].
  - rewrite rkey_abs by done.
    unfold ret, with_fs, with_call. cbn [fs cwd Stderr calls]. by rewrite <- !app_assoc.
  - rewrite rkey_abs by done.
    apply foldl_write_dirs_free; [| |done|].
    + rewrite new_unit_keys by done. apply compat_keys_app, all_elems_compat.
    + rewrite new_unit_keys by done. by apply Forall_fmap.
    + rewrite new_unit_keys by done. intros k [e [-> He]]%list_elem_of_fmap Hp.
      apply prefix_app_inv in Hp. by apply all_elems_not_charts in He.
Qed.

Lemma Forall_map_1 {A B : Type} (f : A → B) (P : B → Prop) (l : list A) :
  Forall (fun x => P (f x)) l → Forall P (map f l).
Proof. induction 1; simpl; by constructor. Qed.

Lemma Forall_map_2 {A B : Type} (f : A → B) (P : B → Prop) (l : list A) :
  Forall P (map f l) → Forall (fun x => P (f x)) l.
Proof.
  induction l as [|x l IH]; simpl; [done|].
  intros H. inversion H; subst. constructor; auto.
Qed.

Lemma parent_key_plain (w : World) (dir : string) :
  plains (cwd w) → plains (parent_key w dir).
Proof. intros HK. unfold parent_key. rewrite rkey_key by done. by apply key_from_plain. Qed.

Lemma chart_key_plain (w : World) (dir chartname : string) :
  plains (cwd w) → plains (chart_key w dir chartname).
Proof. intros HK. apply extend_plain. by apply parent_key_plain. Qed.

Lemma abs_from_parent_key (w : World) (dir : string) :
  plains (cwd w) → abs_from (getwd w) dir = render (parent_key w dir).
Proof.
  intros HK. rewrite getwd_render, abs_from_render by done.
  unfold parent_key. by rewrite rkey_key.
Qed.

Lemma chart_dir_render (w : World) (dir chartname : string) :
  plains (cwd w) → chart_dir w dir chartname = render (chart_key w dir chartname).
Proof.
  intros HK. unfold chart_dir. rewrite abs_from_parent_key by done.
  rewrite Join_render by (by apply parent_key_plain). done.
Qed.

Lemma node_of_render (w : World) (C : list string) :
  plains (cwd w) → plains C → node_of w (render C) = node_at (fs w) C.
Proof. intros HK HC. unfold node_of. by rewrite resolve_rkey, rkey_abs. Qed.

Lemma resolve_values (w : World) :
  plains (cwd w) → resolve w ValuesfileName = cwd w ++ ["values.yaml"].
Proof. intros HK. rewrite resolve_rkey. by apply rkey_values. Qed.

Lemma node_of_values (w : World) :
  plains (cwd w) → node_of w ValuesfileName = fs w !! (cwd w ++ ["values.yaml"]).
Proof.
  intros HK. unfold node_of. rewrite resolve_values by done.
  apply node_at_lookup. by destruct (cwd w).
Qed.

(** Keys of the two plans. *)
Lemma add_module_keys (K : list string) (m : string) :
  plains K → has_sep m = false →
  map (fun f => rkey K (path f)) (getFiles EmptyString m) = map (app K) (file_elems m).
Proof.
  intros HK Hm.
  by destruct (rooted_keys K None (file_elems m) (getFiles EmptyString m))
    as [-> _]; [done|done|by apply file_elems_plain|apply file_elems_nonempty
               |apply getFiles_paths|].
Qed.

Lemma add_module_names (m : string) :
  has_sep m = false →
  map path (getFiles EmptyString m) = map path_concat (file_elems m).
Proof.
  intros Hm. rewrite getFiles_paths. apply Forall_fmap_ext_1.
  pose proof (file_elems_plain m Hm) as Hp. pose proof (file_elems_nonempty m) as Hn.
  rewrite Forall_forall in Hp, Hn |- *. intros e He. apply Join_rel; auto.
Qed.

Lemma in_plan (K : list string) (files : list ManifestFile) (f : ManifestFile) :
  f ∈ files → (rkey K (path f), content f) ∈ plan_of K files.
Proof. intros H. unfold plan_of. apply list_elem_of_fmap. by exists f. Qed.

Lemma plan_key_in (K : list string) (files : list ManifestFile) (f : ManifestFile) :
  f ∈ files → rkey K (path f) ∈ map (fun f => rkey K (path f)) files.
Proof. intros H. apply list_elem_of_fmap. by exists f. Qed.

Lemma writable_ne (m : gmap (list string) node) (k : list string) :
  writable_at m k = true → k ≠ [].
Proof. by intros [? _]%writable_at_spec. Qed.

(* ----------------------------------------------------------------- *)
(** ** The two modes of [Create] *)

(** Add-module mode: the working directory holds a writable values file. *)
Lemma Create_add_module (chartname dir d : string) (w : World) :
  validateChartName chartname = None →
  plains (cwd w) →
  node_of w (abs_from (getwd w) dir) = Some Dir →
  not_file (node_of w (chart_dir w dir chartname)) = true →
  node_of w ValuesfileName = Some (File true d) →
  Forall (fun f => writable_name w (path f)) (getFiles EmptyString chartname) →
  ∃ w',
    Create chartname dir w = ((chart_dir w dir chartname, None), w') ∧
    cwd w' = cwd w ∧
    Forall (fun f => written w' (path f) (content f)) (getFiles EmptyString chartname) ∧
    written w' ValuesfileName (d +:+ transform defaultValues chartname) ∧
    (∀ q, q ≠ resolve w ValuesfileName →
          (∀ f, f ∈ getFiles EmptyString chartname → ¬ q `prefix_of` resolve w (path f)) →
          fs w' !! q = fs w !! q) ∧
    Stderr w' = Stderr w ++ warnings_of (cwd w) (fs w) (getFiles EmptyString chartname).
Proof.
  intros Hv HK Hdir Hcdir Hvals Hw.
  pose proof (validateChartName_None _ Hv) as [_ Hclass].
  pose proof (valid_no_sep _ Hclass) as Hm.
  rewrite abs_from_parent_key, node_of_render in Hdir by (done || by apply parent_key_plain).
  rewrite chart_dir_render, node_of_render in Hcdir by (done || by apply chart_key_plain).
  rewrite node_of_values in Hvals by done.
  pose proof (add_module_keys (cwd w) chartname HK Hm) as Hkeys.
  assert (Hw' : Forall (fun e => writable_at (fs w) (cwd w ++ e) = true) (file_elems chartname)).
  { apply (Forall_map_2 (app (cwd w)) (fun k => writable_at (fs w) k = true)).
    rewrite <- Hkeys.
    by apply (Forall_map_1 (fun f => rkey (cwd w) (path f))
                           (fun k => writable_at (fs w) k = true)). }
  eexists. split.
  { rewrite Create_checks by done. rewrite chart_dir_render by done.
    apply (Create_body_add_module chartname _ d); done. }
  cbn [fs cwd Stderr calls with_call].
  set (plan := plan_of (cwd w) (getFiles EmptyString chartname)).
  assert (Hpk : plan.*1 = map (app (cwd w)) (file_elems chartname))
    by (unfold plan; by rewrite plan_of_keys).
  assert (Hcompat : compat_keys plan.*1)
    by (rewrite Hpk; apply compat_keys_app, file_elems_compat).
  assert (Hwr : Forall (fun k => writable_at (fs w) k = true) plan.*1)
    by (rewrite Hpk; by apply Forall_map_1).
  assert (Hset : settled (foldl write_at (fs w) plan) plan).
  { apply foldl_write_settled; [|done..]. rewrite Hpk. apply NoDup_app_keys, file_elems_NoDup. }
  assert (Hnv : ∀ f, f ∈ getFiles EmptyString chartname →
                 rkey (cwd w) (path f) ≠ cwd w ++ ["values.yaml"]).
  { intros f Hf E. apply (plan_key_in (cwd w)) in Hf. rewrite Hkeys in Hf.
    apply list_elem_of_fmap in Hf as [e [He Hin]]. rewrite E in He.
    apply app_inv_head in He. subst e.
    by apply (all_elems_not_values chartname ["values.yaml"]) in Hin. }
  split; [done|]. split; [|split; [|split; [|done]]].
  - apply Forall_forall. intros f Hf. unfold written, node_of. cbn [fs].
    rewrite resolve_rkey. cbn [cwd].
    assert (rkey (cwd w) (path f) ≠ []) as Hne.
    { rewrite Forall_forall in Hw. by apply (writable_ne (fs w)), Hw. }
    rewrite node_at_lookup by done. rewrite lookup_insert_ne by (intros E; by apply (Hnv f)).
    by apply Hset, in_plan.
  - unfold written, node_of. cbn [fs]. rewrite resolve_rkey. cbn [cwd].
    rewrite rkey_values by done. rewrite node_at_lookup by (by destruct (cwd w)).
    by rewrite lookup_insert_eq.
  - intros q Hq Hpre. rewrite resolve_values in Hq by done.
    rewrite lookup_insert_ne by done. apply foldl_write_frame; [done..|].
    intros k Hk. unfold plan in Hk. rewrite plan_of_keys in Hk.
    apply list_elem_of_fmap in Hk as [f [-> Hf]]. by apply Hpre.
Qed.

Lemma charts_name (C : list string) :
  plains C → filepath_Join (render C) ChartsDir = render (C ++ ["charts"]).
Proof. intros HC. by apply (Join_abs C ["charts"]); [|repeat constructor|]. Qed.

Lemma plains_charts (C : list string) : plains C → plains (C ++ ["charts"]).
Proof. intros HC. apply Forall_app. split; [done|by repeat constructor]. Qed.

Lemma new_unit_keys_map (K C : list string) (chartname : string) :
  plains K → plains C →
  map (fun f => rkey K (path f)) (new_unit_files (render C) chartname)
  = map (app C) (base_elems ++ file_elems "main").
Proof. intros HK HC. rewrite <- plan_of_keys. by apply new_unit_keys. Qed.

(** Hypotheses of new-unit mode, on keys. *)
Lemma new_unit_hyps (chartname dir : string) (w : World) :
  plains (cwd w) →
  Forall (fun f => writable_name w (path f))
         (new_unit_files (chart_dir w dir chartname) chartname) →
  makable_dir w (filepath_Join (chart_dir w dir chartname) ChartsDir) →
  Forall (fun e => writable_at (fs w) (chart_key w dir chartname ++ e) = true)
         (base_elems ++ file_elems "main") ∧
  dirs_free (fs w) (chart_key w dir chartname ++ ["charts"]) = true.
Proof.
  intros HK Hw Hd. pose proof (chart_key_plain w dir chartname HK) as HC.
  rewrite chart_dir_render in Hw, Hd by done. split.
  - apply (Forall_map_2 (app (chart_key w dir chartname))
                        (fun k => writable_at (fs w) k = true)).
    rewrite <- (new_unit_keys_map (cwd w) _ chartname) by done.
    by apply (Forall_map_1 (fun f => rkey (cwd w) (path f))
                           (fun k => writable_at (fs w) k = true)).
  - unfold makable_dir in Hd. rewrite charts_name in Hd by done.
    by rewrite resolve_rkey, rkey_abs in Hd by (done || by apply plains_charts).
Qed.

Lemma Create_new_unit_eq_keys (chartname dir : string) (w : World) :
  validateChartName chartname = None →
  plains (cwd w) →
  node_at (fs w) (parent_key w dir) = Some Dir →
  not_file (node_at (fs w) (chart_key w dir chartname)) = true →
  fs w !! (cwd w ++ ["values.yaml"]) = None →
  Forall (fun e => writable_at (fs w) (chart_key w dir chartname ++ e) = true)
         (base_elems ++ file_elems "main") →
  dirs_free (fs w) (chart_key w dir chartname ++ ["charts"]) = true →
  Create chartname dir w =
    ((chart_dir w dir chartname, None),
     mkWorld (new_unit_tree (cwd w) (chart_key w dir chartname) chartname (fs w))
             (cwd w)
             (Stderr w ++ warnings_of (cwd w) (fs w)
                            (new_unit_files (chart_dir w dir chartname) chartname))
             (calls w ++ [CallStat (abs_from (getwd w) dir);
                          CallStat (chart_dir w dir chartname);
                          CallStat ValuesfileName]
                ++ calls_of (new_unit_files (chart_dir w dir chartname) chartname)
                ++ [CallMkdirAll (filepath_Join (chart_dir w dir chartname) ChartsDir)])).
Proof.
  intros Hv HK Hdir Hcdir Hvals Hw' Hd'.
  pose proof (chart_key_plain w dir chartname HK) as HC.
  rewrite abs_from_parent_key by done.
  rewrite chart_dir_render by done.
  rewrite Create_checks by done.
  rewrite (Create_body_new_unit chartname _ _); cbn [fs cwd Stderr calls with_call];
    [|done|done|by rewrite node_at_lookup by (by destruct (cwd w))|done|done].
  rewrite charts_name by done. unfold new_unit_tree.
  by rewrite <- !app_assoc.
Qed.

Lemma Create_new_unit_eq (chartname dir : string) (w : World) :
  validateChartName chartname = None →
  plains (cwd w) →
  node_of w (abs_from (getwd w) dir) = Some Dir →
  not_file (node_of w (chart_dir w dir chartname)) = true →
  node_of w ValuesfileName = None →
  Forall (fun f => writable_name w (path f))
         (new_unit_files (chart_dir w dir chartname) chartname) →
  makable_dir w (filepath_Join (chart_dir w dir chartname) ChartsDir) →
  Create chartname dir w =
    ((chart_dir w dir chartname, None),
     mkWorld (new_unit_tree (cwd w) (chart_key w dir chartname) chartname (fs w))
             (cwd w)
             (Stderr w ++ warnings_of (cwd w) (fs w)
                            (new_unit_files (chart_dir w dir chartname) chartname))
             (calls w ++ [CallStat (abs_from (getwd w) dir);
                          CallStat (chart_dir w dir chartname);
                          CallStat ValuesfileName]
                ++ calls_of (new_unit_files (chart_dir w dir chartname) chartname)
                ++ [CallMkdirAll (filepath_Join (chart_dir w dir chartname) ChartsDir)])).
Proof.
  intros Hv HK Hdir Hcdir Hvals Hw Hd.
  pose proof (chart_key_plain w dir chartname HK) as HC.
  destruct (new_unit_hyps chartname dir w HK Hw Hd) as [Hw' Hd'].
  apply Create_new_unit_eq_keys; try done.
  - by rewrite abs_from_parent_key, node_of_render in Hdir
      by (done || by apply parent_key_plain).
  - by rewrite chart_dir_render, node_of_render in Hcdir by done.
  - by rewrite node_of_values in Hvals.
Qed.

(** The tree after a run in new-unit mode without failure. *)
Lemma new_unit_tree_settled (K C : list string) (chartname : string)
    (m : gmap (list string) node) :
  plains K → plains C →
  Forall (fun e => writable_at m (C ++ e) = true) (base_elems ++ file_elems "main") →
  dirs_free m (C ++ ["charts"]) = true →
  let m' := new_unit_tree K C chartname m in
  settled m' (plan_of K (new_unit_files (render C) chartname)) ∧
  node_at m' (C ++ ["charts"]) = Some Dir ∧
  Forall (fun e => writable_at m' (C ++ e) = true) (base_elems ++ file_elems "main") ∧
  dirs_free m' (C ++ ["charts"]) = true ∧
  (∀ q x, m !! q = Some x →
          q ∉ map (app C) (base_elems ++ file_elems "main") → m' !! q = Some x) ∧
  (∀ q, (∀ e, e ∈ base_elems ++ file_elems "main" → ¬ q `prefix_of` C ++ e) →
        ¬ q `prefix_of` C ++ ["charts"] → m' !! q = m !! q).
Proof.
  intros HK HC Hw Hd. cbn zeta. unfold new_unit_tree.
  set (plan := plan_of K (new_unit_files (render C) chartname)).
  assert (Hpk : plan.*1 = map (app C) (base_elems ++ file_elems "main"))
    by (by apply new_unit_keys).
  assert (Hcompat : compat_keys plan.*1)
    by (rewrite Hpk; apply compat_keys_app, all_elems_compat).
  assert (Hwr : Forall (fun k => writable_at m k = true) plan.*1)
    by (rewrite Hpk; by apply Forall_map_1).
  assert (Hnc : ∀ k, k ∈ plan.*1 → ¬ k `prefix_of` C ++ ["charts"]).
  { rewrite Hpk. intros k [e [-> He]]%list_elem_of_fmap Hp.
    apply prefix_app_inv in Hp. by apply all_elems_not_charts in He. }
  assert (Hd1 : dirs_free (foldl write_at m plan) (C ++ ["charts"]) = true)
    by (by apply foldl_write_dirs_free).
  assert (Hw1 : Forall (fun k => writable_at (foldl write_at m plan) k = true) plan.*1).
  { apply foldl_write_writable; [|done..].
    intros k q Hk Hq. apply Hcompat; by apply elem_of_app in Hk as [?|?];
      apply elem_of_app in Hq as [?|?]. }
  split; [|split; [|split; [|split; [|split]]]].
  - apply settled_mkdirs; [done|]. apply foldl_write_settled; [|done..].
    rewrite Hpk. apply NoDup_app_keys, all_elems_NoDup.
  - by apply mkdirs_dir.
  - apply (Forall_map_2 (app C) (fun k => writable_at _ k = true)). rewrite <- Hpk.
    rewrite Forall_forall in Hw1 |- *. intros k Hk.
    apply mkdirs_writable; [done|by apply Hw1|by apply Hnc].
  - by apply dirs_free_mkdirs.
  - intros q x Hq Hnin. apply mkdirs_keeps; [done|].
    apply foldl_write_keeps; [done..|by rewrite Hpk].
  - intros q Hpre Hch. rewrite mkdirs_frame by done.
    apply foldl_write_frame; [done..|]. rewrite Hpk.
    intros k [e [-> He]]%list_elem_of_fmap. by apply Hpre.
Qed.

Lemma new_unit_key_of (chartname dir : string) (w : World) (f : ManifestFile) :
  plains (cwd w) →
  f ∈ new_unit_files (chart_dir w dir chartname) chartname →
  ∃ e, e ∈ base_elems ++ file_elems "main" ∧
       rkey (cwd w) (path f) = chart_key w dir chartname ++ e.
Proof.
  intros HK Hf. rewrite chart_dir_render in Hf by done.
  apply (plan_key_in (cwd w)) in Hf.
  rewrite new_unit_keys_map in Hf by (done || by apply chart_key_plain).
  apply list_elem_of_fmap in Hf as [e [He Hin]]. by exists e.
Qed.

(** New-unit mode: the working directory holds no values file. *)
Lemma Create_new_unit (chartname dir : string) (w : World) :
  validateChartName chartname = None →
  plains (cwd w) →
  node_of w (abs_from (getwd w) dir) = Some Dir →
  not_file (node_of w (chart_dir w dir chartname)) = true →
  node_of w ValuesfileName = None →
  Forall (fun f => writable_name w (path f))
         (new_unit_files (chart_dir w dir chartname) chartname) →
  makable_dir w (filepath_Join (chart_dir w dir chartname) ChartsDir) →
  ∃ w',
    Create chartname dir w = ((chart_dir w dir chartname, None), w') ∧
    cwd w' = cwd w ∧
    Forall (fun f => written w' (path f) (content f))
           (new_unit_files (chart_dir w dir chartname) chartname) ∧
    node_of w' (filepath_Join (chart_dir w dir chartname) ChartsDir) = Some Dir ∧
    (∀ q, (∀ f, f ∈ new_unit_files (chart_dir w dir chartname) chartname →
                ¬ q `prefix_of` resolve w (path f)) →
          ¬ q `prefix_of` resolve w (filepath_Join (chart_dir w dir chartname) ChartsDir) →
          fs w' !! q = fs w !! q) ∧
    Stderr w' = Stderr w ++ warnings_of (cwd w) (fs w)
                              (new_unit_files (chart_dir w dir chartname) chartname).
Proof.
  intros Hv HK Hdir Hcdir Hvals Hw Hd.
  pose proof (chart_key_plain w dir chartname HK) as HC.
  destruct (new_unit_hyps chartname dir w HK Hw Hd) as [Hw' Hd'].
  eexists. split; [by apply Create_new_unit_eq|]. cbn [fs cwd Stderr calls].
  destruct (new_unit_tree_settled (cwd w) _ chartname (fs w) HK HC Hw' Hd')
    as (Hset & Hcharts & _ & _ & _ & Hframe).
  split; [done|]. split; [|split; [|split; [|done]]].
  - apply Forall_forall. intros f Hf. unfold written, node_of. cbn [fs].
    rewrite resolve_rkey. cbn [cwd].
    assert (rkey (cwd w) (path f) ≠ []) as Hne.
    { rewrite Forall_forall in Hw. by apply (writable_ne (fs w)), Hw. }
    rewrite node_at_lookup by done.
    rewrite chart_dir_render in Hf by done. by apply Hset, in_plan.
  - unfold node_of. cbn [fs]. rewrite resolve_rkey. cbn [cwd].
    rewrite chart_dir_render, charts_name by done.
    by rewrite rkey_abs by (done || by apply plains_charts).
  - intros q Hpre Hch. apply Hframe.
    + intros e He Hp.
      assert (∃ f, f ∈ new_unit_files (chart_dir w dir chartname) chartname ∧
                   rkey (cwd w) (path f) = chart_key w dir chartname ++ e) as (f & Hf & Hk).
      { rewrite chart_dir_render by done.
        assert (chart_key w dir chartname ++ e
                ∈ map (fun f => rkey (cwd w) (path f))
                      (new_unit_files (render (chart_key w dir chartname)) chartname)) as Hin.
        { rewrite new_unit_keys_map by done. apply list_elem_of_fmap. by exists e. }
        apply list_elem_of_fmap in Hin as [f [? ?]]. by exists f. }
      apply (Hpre f Hf). by rewrite resolve_rkey, Hk.
    + rewrite chart_dir_render, charts_name, resolve_rkey, rkey_abs in Hch
        by (done || by apply plains_charts). done.
Qed.

(** C1.  For a valid chart name, once the two path checks of [Create] have
    passed and no input or output fails: with a (writable) values file in the
    working directory, [Create] works in add-module mode: the files of
    [getFiles] for the module [chartname] are written at their names relative
    to the working directory, the values fragment of that module is appended
    to the values file, and nothing else changes; without a values file,
    [Create] works in new-unit mode: the files of [getBasefiles] and
    [getFiles] for the module [main] are written below the chart directory
    [parentDir/chartname], the directory [charts] is made there, and nothing
    else changes. *)
Theorem Create_mode_decision (chartname dir : string) (w : World) :
  validateChartName chartname = None →
  plains (cwd w) →
  node_of w (abs_from (getwd w) dir) = Some Dir →
  not_file (node_of w (chart_dir w dir chartname)) = true →
  (∀ d,
     node_of w ValuesfileName = Some (File true d) →
     Forall (fun f => writable_name w (path f)) (getFiles EmptyString chartname) →
     ∃ w',
       Create chartname dir w = ((chart_dir w dir chartname, None), w') ∧
       map path (getFiles EmptyString chartname) = map path_concat (file_elems chartname) ∧
       Forall (fun f => written w' (path f) (content f)) (getFiles EmptyString chartname) ∧
       written w' ValuesfileName (d +:+ transform defaultValues chartname) ∧
       (∀ q, q ≠ resolve w ValuesfileName →
             (∀ f, f ∈ getFiles EmptyString chartname → ¬ q `prefix_of` resolve w (path f)) →
             fs w' !! q = fs w !! q))
  ∧
  (node_of w ValuesfileName = None →
   Forall (fun f => writable_name w (path f))
          (getBasefiles (chart_dir w dir chartname) "main" chartname
           ++ getFiles (chart_dir w dir chartname) "main") →
   makable_dir w (filepath_Join (chart_dir w dir chartname) ChartsDir) →
   ∃ w',
     Create chartname dir w = ((chart_dir w dir chartname, None), w') ∧
     map path (getBasefiles (chart_dir w dir chartname) "main" chartname
               ++ getFiles (chart_dir w dir chartname) "main")
     = map (fun e => filepath_Join (chart_dir w dir chartname) (path_concat e))
           (base_elems ++ file_elems "main") ∧
     Forall (fun f => written w' (path f) (content f))
            (getBasefiles (chart_dir w dir chartname) "main" chartname
             ++ getFiles (chart_dir w dir chartname) "main") ∧
     node_of w' (filepath_Join (chart_dir w dir chartname) ChartsDir) = Some Dir ∧
     (∀ q, (∀ f, f ∈ getBasefiles (chart_dir w dir chartname) "main" chartname
                       ++ getFiles (chart_dir w dir chartname) "main" →
                 ¬ q `prefix_of` resolve w (path f)) →
           ¬ q `prefix_of` resolve w (filepath_Join (chart_dir w dir chartname) ChartsDir) →
           fs w' !! q = fs w !! q)).
Proof.
  intros Hv HK Hdir Hcdir. split.
  - intros d Hvals Hw.
    destruct (Create_add_module chartname dir d w Hv HK Hdir Hcdir Hvals Hw)
      as (w' & Hc & _ & Hwr & Hval & Hfr & _).
    exists w'. split; [done|]. split; [|done].
    apply add_module_names, valid_no_sep. by apply validateChartName_None in Hv as [_ ?].
  - intros Hvals Hw Hd.
    destruct (Create_new_unit chartname dir w Hv HK Hdir Hcdir Hvals Hw Hd)
      as (w' & Hc & _ & Hwr & Hch & Hfr & _).
    exists w'. split; [done|]. split; [|done].
    rewrite chart_dir_render by done. apply new_unit_paths.
Qed.


Lemma w_chart_plain : plains (cwd w_chart).
Proof. by repeat constructor. Defined.

Lemma w_fresh_plain : plains (cwd w_fresh).
Proof. by repeat constructor. Defined.

Lemma Create_mode_decision_witness :
  (∃ w', Create "cache" "." w_chart = ((chart_dir w_chart "." "cache", None), w') ∧
         written w' ValuesfileName ("replicas: 1" +:+ transform defaultValues "cache")) ∧
  (∃ w', Create "demo" "." w_fresh = ((chart_dir w_fresh "." "demo", None), w') ∧
         node_of w' (filepath_Join (chart_dir w_fresh "." "demo") ChartsDir) = Some Dir).
Proof.
  split.
  - assert (Hv : validateChartName "cache" = None) by reflexivity.
    assert (Hdir : node_of w_chart (abs_from (getwd w_chart) ".") = Some Dir)
      by (vm_compute; reflexivity).
    assert (Hcdir : not_file (node_of w_chart (chart_dir w_chart "." "cache")) = true)
      by (vm_compute; reflexivity).
    destruct (Create_mode_decision "cache" "." w_chart Hv w_chart_plain Hdir Hcdir) as [Hadd _].
    destruct (Hadd "replicas: 1") as (w' & Hc & _ & _ & Hval & _).
    + vm_compute; reflexivity.
    + repeat constructor; vm_compute; reflexivity.
    + exists w'. split; [exact Hc|exact Hval].
  - assert (Hv : validateChartName "demo" = None) by reflexivity.
    assert (Hdir : node_of w_fresh (abs_from (getwd w_fresh) ".") = Some Dir)
      by (vm_compute; reflexivity).
    assert (Hcdir : not_file (node_of w_fresh (chart_dir w_fresh "." "demo")) = true)
      by (vm_compute; reflexivity).
    destruct (Create_mode_decision "demo" "." w_fresh Hv w_fresh_plain Hdir Hcdir) as [_ Hnew].
    destruct Hnew as (w' & Hc & _ & _ & Hch & _).
    + vm_compute; reflexivity.
    + repeat constructor; vm_compute; reflexivity.
    + vm_compute; reflexivity.
    + exists w'. split; [exact Hc|exact Hch].
Defined.


(* ----------------------------------------------------------------- *)
(** ** C5: two runs in new-unit mode *)

Lemma dirs_free_self (m : gmap (list string) node) (k : list string) :
  dirs_free m k = true → not_file (node_at m k) = true.
Proof.
  intros H. destruct k as [|c k]; [done|]. rewrite node_at_lookup by done.
  pose proof (proj1 (dirs_free_spec _ _) H (length (c :: k))) as Hi.
  rewrite firstn_all in Hi. apply Hi. simpl. lia.
Qed.

Lemma new_unit_paths_NoDup (K C : list string) (chartname : string) :
  plains K → plains C → NoDup (map path (new_unit_files (render C) chartname)).
Proof.
  intros HK HC. apply (NoDup_fmap_1 (rkey K)).
  rewrite <- list_fmap_compose.
  change (rkey K ∘ path <$> new_unit_files (render C) chartname)
    with (map (fun f => rkey K (path f)) (new_unit_files (render C) chartname)).
  rewrite new_unit_keys_map by done. apply NoDup_app_keys, all_elems_NoDup.
Qed.

(** C5.  Two runs of [Create] in new-unit mode with the same chart name and
    the same directory, without input or output failure: both return the
    chart directory and no error; the second run leaves the file tree of the
    first as it is (every planned file is there, with its planned bytes, when
    the second run starts) and prints exactly one overwrite warning for each
    planned file, whose names are pairwise distinct. *)
Theorem Create_new_unit_twice (chartname dir : string) (w w1 w2 : World)
    (r1 r2 : string * option error) :
  validateChartName chartname = None →
  plains (cwd w) →
  node_of w (abs_from (getwd w) dir) = Some Dir →
  not_file (node_of w (chart_dir w dir chartname)) = true →
  node_of w ValuesfileName = None →
  Forall (fun f => writable_name w (path f))
         (new_unit_files (chart_dir w dir chartname) chartname) →
  makable_dir w (filepath_Join (chart_dir w dir chartname) ChartsDir) →
  Create chartname dir w = (r1, w1) →
  node_of w1 ValuesfileName = None →
  Create chartname dir w1 = (r2, w2) →
  r1 = (chart_dir w dir chartname, None) ∧
  r2 = (chart_dir w dir chartname, None) ∧
  fs w2 = fs w1 ∧
  Forall (fun f => written w1 (path f) (content f))
         (new_unit_files (chart_dir w dir chartname) chartname) ∧
  Stderr w2 = Stderr w1 ++ map (fun f => WarnOverwrite (path f))
                               (new_unit_files (chart_dir w dir chartname) chartname) ∧
  NoDup (map path (new_unit_files (chart_dir w dir chartname) chartname)).
Proof.
  intros Hv HK Hdir Hcdir Hvals Hw Hd H1 Hvals1 H2.
  pose proof (chart_key_plain w dir chartname HK) as HC.
  destruct (new_unit_hyps chartname dir w HK Hw Hd) as [Hw' Hd'].
  destruct (new_unit_tree_settled (cwd w) _ chartname (fs w) HK HC Hw' Hd')
    as (Hset & Hcharts & Hw1 & Hd1 & Hkeep & _).
  destruct (Create_new_unit chartname dir w Hv HK Hdir Hcdir Hvals Hw Hd)
    as (w1' & Hc1 & _ & Hwritten & _).
  rewrite Create_new_unit_eq in H1, Hc1 by done.
  pose proof (f_equal fst H1) as Hr1. pose proof (f_equal snd H1) as Hw1eq.
  pose proof (f_equal snd Hc1) as Hw1'. cbn [fst snd] in Hr1, Hw1eq, Hw1'.
  clear H1 Hc1. subst w1'. rewrite Hw1eq in Hwritten.
  set (m1 := new_unit_tree (cwd w) (chart_key w dir chartname) chartname (fs w)) in *.
  assert (Hfs1 : fs w1 = m1) by (by rewrite <- Hw1eq).
  assert (Hcwd1 : cwd w1 = cwd w) by (by rewrite <- Hw1eq).
  assert (Hpk1 : parent_key w1 dir = parent_key w dir)
    by (unfold parent_key; by rewrite Hcwd1).
  assert (Hck1 : chart_key w1 dir chartname = chart_key w dir chartname)
    by (unfold chart_key; by rewrite Hpk1).
  assert (Hwd1 : getwd w1 = getwd w) by (unfold getwd; by rewrite Hcwd1).
  assert (Hcd1 : chart_dir w1 dir chartname = chart_dir w dir chartname)
    by (unfold chart_dir; by rewrite Hwd1).
  assert (HK1 : plains (cwd w1)) by (by rewrite Hcwd1).
  assert (Hdir1 : node_at m1 (parent_key w dir) = Some Dir).
  { rewrite abs_from_parent_key, node_of_render in Hdir
      by (done || by apply parent_key_plain).
    destruct (parent_key w dir) as [|a A] eqn:EA; [done|]. rewrite <- EA in *.
    rewrite node_at_lookup in * by (by rewrite EA).
    apply Hkeep; [done|].
    intros [e [He Hin]]%list_elem_of_fmap.
    rewrite Forall_forall in Hw'. specialize (Hw' e Hin).
    apply writable_at_spec in Hw' as (_ & _ & Ht). by rewrite <- He, Hdir in Ht. }
  assert (Hcdir1 : not_file (node_at m1 (chart_key w dir chartname)) = true).
  { apply dirs_free_self.
    rewrite Forall_forall in Hw1.
    assert (["values.yaml"] ∈ base_elems ++ file_elems "main") as Hin by (by left).
    apply Hw1, writable_at_spec in Hin as (_ & Hin & _). by rewrite parent_snoc in Hin. }
  assert (Hv1 : m1 !! (cwd w ++ ["values.yaml"]) = None).
  { rewrite node_of_values in Hvals1 by done. by rewrite Hfs1, Hcwd1 in Hvals1. }
  rewrite Create_new_unit_eq_keys in H2
    by (rewrite ?Hfs1, ?Hcwd1, ?Hpk1, ?Hck1; done).
  rewrite Hfs1, Hcwd1, Hck1, Hcd1, Hwd1 in H2.
  pose proof (f_equal fst H2) as Hr2. pose proof (f_equal snd H2) as Hw2eq.
  cbn [fst snd] in Hr2, Hw2eq. clear H2.
  assert (Hm1 : new_unit_tree (cwd w) (chart_key w dir chartname) chartname m1 = m1).
  { unfold new_unit_tree at 1.
    rewrite (settled_foldl m1 _ _ Hset) by done. by apply mkdirs_id. }
  split; [done|]. split; [done|]. split; [by rewrite <- Hw2eq, Hm1|].
  split; [done|]. split.
  - rewrite <- Hw2eq. cbn [Stderr]. f_equal.
    rewrite chart_dir_render by done. apply settled_warnings; [done|].
    rewrite chart_dir_render in Hw by done.
    rewrite Forall_forall in Hw |- *. intros f Hf. by apply (writable_ne (fs w)), Hw.
  - rewrite chart_dir_render by done. by apply (new_unit_paths_NoDup (cwd w)).
Qed.

Lemma Create_new_unit_twice_witness :
  let w1 := snd (Create "demo" "." w_fresh) in
  let w2 := snd (Create "demo" "." w1) in
  fs w2 = fs w1 ∧
  Stderr w2 = Stderr w1 ++ map (fun f => WarnOverwrite (path f))
                               (new_unit_files (chart_dir w_fresh "." "demo") "demo").
Proof.
  intros w1 w2.
  assert (Hv : validateChartName "demo" = None) by reflexivity.
  assert (Hdir : node_of w_fresh (abs_from (getwd w_fresh) ".") = Some Dir)
    by (vm_compute; reflexivity).
  assert (Hcdir : not_file (node_of w_fresh (chart_dir w_fresh "." "demo")) = true)
    by (vm_compute; reflexivity).
  assert (Hvals : node_of w_fresh ValuesfileName = None) by (vm_compute; reflexivity).
  assert (Hw : Forall (fun f => writable_name w_fresh (path f))
                      (new_unit_files (chart_dir w_fresh "." "demo") "demo"))
    by (repeat constructor; vm_compute; reflexivity).
  assert (Hd : makable_dir w_fresh (filepath_Join (chart_dir w_fresh "." "demo") ChartsDir))
    by (vm_compute; reflexivity).
  assert (Hvals1 : node_of w1 ValuesfileName = None) by (vm_compute; reflexivity).
  destruct (Create_new_unit_twice "demo" "." w_fresh w1 w2
              (fst (Create "demo" "." w_fresh)) (fst (Create "demo" "." w1))
              Hv w_fresh_plain Hdir Hcdir Hvals Hw Hd
              (surjective_pairing _) Hvals1 (surjective_pairing _))
    as (_ & _ & Hfs & _ & Herr & _).
  split; [exact Hfs|exact Herr].
Defined.


(* ----------------------------------------------------------------- *)
(** ** C8: the path that [Create] returns *)

Lemma IsAbs_Clean (p : string) : filepath_IsAbs p = true → filepath_IsAbs (filepath_Clean p) = true.
Proof. intros H. by rewrite Clean_abs. Qed.

Lemma IsAbs_Join (a b : string) :
  filepath_IsAbs a = true → filepath_IsAbs (filepath_Join a b) = true.
Proof.
  intros H. destruct a as [|c a]; [done|]. unfold filepath_Join.
  apply IsAbs_Clean. by rewrite app_cons_s.
Qed.

Lemma IsAbs_abs_from (w : World) (dir : string) :
  filepath_IsAbs (abs_from (getwd w) dir) = true.
Proof.
  unfold abs_from. destruct (filepath_IsAbs dir) eqn:E.
  - by apply IsAbs_Clean.
  - by apply IsAbs_Join.
Qed.

(** C8, as the code has it.  When [Create] returns no error, in either mode,
    the path it returns is the chart directory [parentDir/chartname], made
    absolute. *)
Theorem Create_returns_chart_dir (chartname dir p : string) (w w' : World) :
  Create chartname dir w = ((p, None), w') →
  p = chart_dir w dir chartname ∧ filepath_IsAbs p = true.
Proof.
  intros H.
  assert (p = chart_dir w dir chartname) as ->; [|split; [done|apply IsAbs_Join, IsAbs_abs_from]].
  revert H. unfold Create, chart_dir.
  destruct (validateChartName chartname); [by intros [=]|].
  unfold bind, filepath_Abs, ret.
  destruct (os_Stat (abs_from (getwd w) dir) w) as [[[[|]]|e] w1]; cbn [IsDir negb];
    [|by intros [=]..].
  destruct (os_Stat (filepath_Join (abs_from (getwd w) dir) chartname) w1)
    as [[[[|]]|e2] w2]; [|by intros [=]|].
  - destruct (os_Stat ValuesfileName w2) as [[fi3|e3] w3].
    + destruct (writeFiles _ w3) as [? w4]. destruct (appendToValuesFile _ w4) as [? w5].
      by intros [= <- _].
    + destruct (writeFiles _ w3) as [? w4]. destruct (writeFiles _ w4) as [? w5].
      destruct (os_MkdirAll _ w5) as [[err|] w6]; by intros [= <- _].
  - destruct (os_Stat ValuesfileName w2) as [[fi3|e3] w3].
    + destruct (writeFiles _ w3) as [? w4]. destruct (appendToValuesFile _ w4) as [? w5].
      by intros [= <- _].
    + destruct (writeFiles _ w3) as [? w4]. destruct (writeFiles _ w4) as [? w5].
      destruct (os_MkdirAll _ w5) as [[err|] w6]; by intros [= <- _].
Qed.

Lemma Create_returns_chart_dir_witness :
  fst (fst (Create "cache" "." w_chart)) = chart_dir w_chart "." "cache".
Proof.
  assert (He : snd (fst (Create "cache" "." w_chart)) = None) by (vm_compute; reflexivity).
  assert (H : Create "cache" "." w_chart
              = ((fst (fst (Create "cache" "." w_chart)), None), snd (Create "cache" "." w_chart))).
  { rewrite <- He. by destruct (Create "cache" "." w_chart) as [[? ?] ?]. }
  exact (proj1 (Create_returns_chart_dir "cache" "." _ w_chart _ H)).
Defined.

(** C8, as the claim states it, fails in add-module mode: from inside the
    chart [/work], [Create "cache" "."] appends to the values file (add-module
    mode), returns no error, and returns the absolute path [/work/cache], not
    the path [templates] of the templates of the chart relative to the working
    directory. *)
Lemma Create_add_module_return :
  node_of w_chart ValuesfileName = Some (File true "replicas: 1") ∧
  fst (Create "cache" "." w_chart) = ("/work/cache", None) ∧
  node_of (snd (Create "cache" "." w_chart)) ValuesfileName
    = Some (File true ("replicas: 1" +:+ transform defaultValues "cache")) ∧
  fst (fst (Create "cache" "." w_chart)) ≠ filepath_Join EmptyString TemplatesDir ∧
  node_of (snd (Create "cache" "." w_chart)) "/work/cache" = None.
Proof.
  repeat split; try (vm_compute; reflexivity).
  vm_compute. discriminate.
Qed.

(* ----------------------------------------------------------------- *)
(** ** C2 and C4: the layout, and the error that is dropped *)

(** C2, on the code: from the empty directory [/work], [Create "demo" "."]
    leaves exactly these names; the files of the module carry the prefix
    [main__], with two underscores, and no name with the prefix [main_] and
    one underscore exists. *)
Lemma Create_demo_layout :
  fst (Create "demo" "." w_fresh) = ("/work/demo", None) ∧
  listing (snd (Create "demo" "." w_fresh)) ≡ₚ
    [ ("/work", true);
      ("/work/demo", true);
      ("/work/demo/Chart.yaml", false);
      ("/work/demo/values.yaml", false);
      ("/work/demo/.helmignore", false);
      ("/work/demo/templates", true);
      ("/work/demo/templates/main__ingress.yaml", false);
      ("/work/demo/templates/main__deployment.yaml", false);
      ("/work/demo/templates/main__service.yaml", false);
      ("/work/demo/templates/main__serviceaccount.yaml", false);
      ("/work/demo/templates/main__hpa.yaml", false);
      ("/work/demo/templates/NOTES.txt", false);
      ("/work/demo/templates/_main__helpers.tpl", false);
      ("/work/demo/templates/tests", true);
      ("/work/demo/templates/tests/main__test-connection.yaml", false);
      ("/work/demo/charts", true) ] ∧
  node_of (snd (Create "demo" "." w_fresh)) "/work/demo/templates/main_ingress.yaml" = None ∧
  node_of (snd (Create "demo" "." w_fresh)) "/work/demo/templates/_main_helpers.tpl" = None.
Proof.
  split; [vm_compute; reflexivity|]. split; [|split; vm_compute; reflexivity].
  match goal with |- ?l ≡ₚ ?k => apply (bool_decide_unpack (l ≡ₚ k)) end.
  vm_compute. exact I.
Qed.

(** C4, on the code: when the name [Chart.yaml] of the chart directory is a
    directory, the call of [writeFiles] on the base files stops at that file
    with an error, but [Create] drops it: the files after it in that plan are
    not written, the files of the second plan are, and [Create] returns no
    error. *)
Lemma Create_drops_write_error :
  fst (writeFiles (getBasefiles "/work/demo" "main" "demo") w_blocked)
    = Some (EISDIR "/work/demo/Chart.yaml") ∧
  fst (Create "demo" "." w_blocked) = ("/work/demo", None) ∧
  node_of (snd (Create "demo" "." w_blocked)) "/work/demo/values.yaml"
    = Some (File true (transform defaultValues "main")) ∧
  node_of (snd (Create "demo" "." w_blocked)) "/work/demo/.helmignore" = None ∧
  node_of (snd (Create "demo" "." w_blocked)) "/work/demo/templates/NOTES.txt" = None ∧
  node_of (snd (Create "demo" "." w_blocked)) "/work/demo/templates/main__ingress.yaml"
    = Some (File true (transform defaultIngress "main")) ∧
  node_of (snd (Create "demo" "." w_blocked)) "/work/demo/charts" = Some Dir ∧
  Stderr (snd (Create "demo" "." w_blocked)) = [WarnOverwrite "/work/demo/Chart.yaml"].
Proof. repeat split; vm_compute; reflexivity. Qed.

(* ----------------------------------------------------------------- *)
(** ** C3: the name validator *)

Lemma class_false_not_allowed (name : string) :
  (∃ c, c ∈ chars name ∧ ¬ allowed c) → string_forallb chartName_class name = false.
Proof.
  intros (c & Hc & Hn). apply not_true_is_false. intros H.
  apply Hn, chartName_class_allowed. by apply (proj1 (string_forallb_chars _ _) H).
Qed.

Lemma class_true_allowed (name : string) :
  (∀ c, c ∈ chars name → allowed c) → string_forallb chartName_class name = true.
Proof.
  intros H. apply string_forallb_chars. intros c Hc. by apply chartName_class_allowed, H.
Qed.

Lemma Create_invalid_name (name dir : string) (err : error) (w : World) :
  validateChartName name = Some err → Create name dir w = ((EmptyString, Some err), w).
Proof. intros H. unfold Create. by rewrite H. Qed.

(** C3, as the code has it.  [validateChartName] gives the length error for
    the empty name and for a name of more than 250 bytes; for a name of 1 to
    250 bytes it gives the character-class error when some byte is outside
    [[A-Za-z0-9._-]] and no error when every byte is inside.  When it gives an
    error, [Create] returns that error with the empty path and leaves the
    world as it is: no call to the file system is made. *)
Theorem validateChartName_cases (name : string) :
  (name = EmptyString ∨ 250 < String.length name →
   validateChartName name = Some ErrChartNameLength) ∧
  (1 ≤ String.length name ≤ 250 → (∃ c, c ∈ chars name ∧ ¬ allowed c) →
   validateChartName name = Some ErrChartNameRegexp) ∧
  (1 ≤ String.length name ≤ 250 → (∀ c, c ∈ chars name → allowed c) →
   validateChartName name = None) ∧
  (∀ err dir w, validateChartName name = Some err →
                Create name dir w = ((EmptyString, Some err), w)).
Proof.
  split; [apply validateChartName_too_long|]. split; [|split].
  - intros Hlen Hc. rewrite validateChartName_in_range by done.
    by rewrite class_false_not_allowed.
  - intros Hlen Hc. rewrite validateChartName_in_range by done.
    by rewrite class_true_allowed.
  - intros err dir w. apply Create_invalid_name.
Qed.

Lemma slash_not_allowed : ¬ allowed "/"%char.
Proof. intros H%chartName_class_allowed. discriminate H. Qed.

Lemma validateChartName_cases_witness :
  validateChartName EmptyString = Some ErrChartNameLength ∧
  validateChartName "de/mo" = Some ErrChartNameRegexp ∧
  validateChartName "demo" = None ∧
  Create "de/mo" "." w_fresh = ((EmptyString, Some ErrChartNameRegexp), w_fresh).
Proof.
  split; [|split; [|split]].
  - apply (proj1 (validateChartName_cases EmptyString)). left. reflexivity.
  - apply (proj1 (proj2 (validateChartName_cases "de/mo"))).
    + simpl. lia.
    + exists "/"%char. split; [|exact slash_not_allowed].
      apply (bool_decide_unpack ("/"%char ∈ chars "de/mo")). vm_compute. exact I.
  - apply (proj1 (proj2 (proj2 (validateChartName_cases "demo")))).
    + simpl. lia.
    + apply Forall_forall.
      apply (bool_decide_unpack (Forall allowed (chars "demo"))). vm_compute. exact I.
  - apply (proj2 (proj2 (proj2 (validateChartName_cases "de/mo")))). reflexivity.
Defined.

(** C3, as the claim states it, fails for a name that is too long and holds
    a byte outside the class: 251 slashes get the length error, not the
    character-class error. *)
Lemma validateChartName_long_bad_name :
  (∃ c, c ∈ chars (string_repeat "/" 251) ∧ ¬ allowed c) ∧
  validateChartName (string_repeat "/" 251) = Some ErrChartNameLength ∧
  validateChartName (string_repeat "/" 251) ≠ Some ErrChartNameRegexp.
Proof.
  split; [|split; [reflexivity|discriminate]].
  exists "/"%char. split; [|exact slash_not_allowed]. by left.
Qed.

(* ----------------------------------------------------------------- *)
(** ** C6: no placeholder is left *)

Lemma registry_resolved (module : string) :
  no_lt module = true → Forall (fun t => no_lt (transform t module) = true) registry.
Proof.
  intros Hm. eapply Forall_impl; [apply registry_markers_only|].
  intros t Ht. by apply transform_no_lt.
Qed.

(** C6.  For a module name and a chart name made of the bytes of the class
    of the validator: no template of the registry holds the placeholder
    [<MODULE_NAME>] after [transform], and no content of the files planned by
    [getBasefiles] and [getFiles] holds it, nor any opening angle bracket at
    all (so no other placeholder either). *)
Theorem placeholders_resolved (module chartname cdir : string) :
  string_forallb chartName_class module = true →
  string_forallb chartName_class chartname = true →
  Forall (fun t => strings_Count (transform t module) marker = 0) registry ∧
  Forall (fun f => strings_Count (content f) marker = 0 ∧ no_lt (content f) = true)
         (getBasefiles cdir module chartname ++ getFiles cdir module).
Proof.
  intros Hm%valid_no_lt Hc%valid_no_lt.
  pose proof (registry_resolved module Hm) as Hreg. split.
  - eapply Forall_impl; [exact Hreg|]. intros t Ht. by apply no_lt_Count.
  - assert (Hchart : no_lt (fmt_Sprintf defaultChartfile chartname) = true)
      by (apply sprintf_go_no_lt; [done|by vm_compute]).
    assert (Hign : no_lt defaultIgnore = true) by (by vm_compute).
    unfold registry in Hreg. repeat (apply Forall_cons in Hreg as [? Hreg]).
    unfold getBasefiles, getFiles. cbn [app].
    repeat (apply Forall_cons; split;
      [cbn [content]; split; [apply no_lt_Count|]; assumption|]).
    apply Forall_nil_2.
Qed.

Lemma placeholders_resolved_witness :
  Forall (fun f => strings_Count (content f) marker = 0 ∧ no_lt (content f) = true)
         (getBasefiles "/work/demo" "main" "demo" ++ getFiles "/work/demo" "main").
Proof.
  apply (proj2 (placeholders_resolved "main" "demo" "/work/demo" eq_refl eq_refl)).
Defined.

(* ----------------------------------------------------------------- *)
(** ** C10: the header of the values *)

Lemma transform_values_header (module : string) :
  strings_HasPrefix (transform defaultValues module) values_header = true.
Proof.
  assert (Heq : defaultValues = values_header +:+ string_drop 24 defaultValues)
    by (by vm_compute).
  set (rest := string_drop 24 defaultValues) in *.
  unfold transform, strings_ReplaceAll. cbv iota. rewrite Heq.
  rewrite (replace_go_copy "<"%char "MODULE_NAME>") by (by vm_compute).
  apply prefix_app_s.
Qed.

Lemma written_head (w : World) (p c : string) (rest : list ManifestFile) :
  Forall (fun f => written w (path f) (content f)) ({| path := p; content := c |} :: rest) →
  written w p c.
Proof. intros H. apply Forall_cons in H as [H _]. exact H. Qed.

(** C10.  The values written by [Create] start with the first line of
    [defaultValues] as it is, the verb [%s] included: for every module name
    the transformed template starts with it; in add-module mode the fragment
    appended to the values file is that text for the module [chartname], and
    in new-unit mode the content of [values.yaml] in the chart directory is
    that text for the module [main]. *)
Theorem values_header_unsubstituted (chartname dir : string) (w : World) :
  validateChartName chartname = None →
  plains (cwd w) →
  node_of w (abs_from (getwd w) dir) = Some Dir →
  not_file (node_of w (chart_dir w dir chartname)) = true →
  (∀ module, strings_HasPrefix (transform defaultValues module) values_header = true) ∧
  (∀ d,
     node_of w ValuesfileName = Some (File true d) →
     Forall (fun f => writable_name w (path f)) (getFiles EmptyString chartname) →
     ∃ w' frag,
       Create chartname dir w = ((chart_dir w dir chartname, None), w') ∧
       written w' ValuesfileName (d +:+ frag) ∧
       frag = transform defaultValues chartname ∧
       strings_HasPrefix frag values_header = true) ∧
  (node_of w ValuesfileName = None →
   Forall (fun f => writable_name w (path f))
          (getBasefiles (chart_dir w dir chartname) "main" chartname
           ++ getFiles (chart_dir w dir chartname) "main") →
   makable_dir w (filepath_Join (chart_dir w dir chartname) ChartsDir) →
   ∃ w' c,
     Create chartname dir w = ((chart_dir w dir chartname, None), w') ∧
     written w' (filepath_Join (chart_dir w dir chartname) ValuesfileName) c ∧
     c = transform defaultValues "main" ∧
     strings_HasPrefix c values_header = true).
Proof.
  intros Hv HK Hdir Hcdir. split; [apply transform_values_header|]. split.
  - intros d Hvals Hw.
    destruct (Create_add_module chartname dir d w Hv HK Hdir Hcdir Hvals Hw)
      as (w' & Hc & _ & _ & Hval & _).
    exists w', (transform defaultValues chartname).
    split; [done|]. split; [done|]. split; [done|apply transform_values_header].
  - intros Hvals Hw Hd.
    destruct (Create_new_unit chartname dir w Hv HK Hdir Hcdir Hvals Hw Hd)
      as (w' & Hc & _ & Hwr & _).
    exists w', (transform defaultValues "main").
    split; [done|]. split; [|split; [done|apply transform_values_header]].
    exact (written_head w' _ _ _ Hwr).
Qed.

Lemma values_header_unsubstituted_witness :
  (∃ w' frag, Create "cache" "." w_chart = ((chart_dir w_chart "." "cache", None), w') ∧
              written w' ValuesfileName ("replicas: 1" +:+ frag) ∧
              strings_HasPrefix frag values_header = true) ∧
  (∃ w' c, Create "demo" "." w_fresh = ((chart_dir w_fresh "." "demo", None), w') ∧
           written w' (filepath_Join (chart_dir w_fresh "." "demo") ValuesfileName) c ∧
           strings_HasPrefix c values_header = true).
Proof.
  split.
  - assert (Hv : validateChartName "cache" = None) by reflexivity.
    assert (Hdir : node_of w_chart (abs_from (getwd w_chart) ".") = Some Dir)
      by (vm_compute; reflexivity).
    assert (Hcdir : not_file (node_of w_chart (chart_dir w_chart "." "cache")) = true)
      by (vm_compute; reflexivity).
    destruct (values_header_unsubstituted "cache" "." w_chart Hv w_chart_plain Hdir Hcdir)
      as (_ & Hadd & _).
    destruct (Hadd "replicas: 1") as (w' & frag & Hc & Hval & _ & Hpre).
    + vm_compute; reflexivity.
    + repeat constructor; vm_compute; reflexivity.
    + exists w', frag. split; [exact Hc|split; [exact Hval|exact Hpre]].
  - assert (Hv : validateChartName "demo" = None) by reflexivity.
    assert (Hdir : node_of w_fresh (abs_from (getwd w_fresh) ".") = Some Dir)
      by (vm_compute; reflexivity).
    assert (Hcdir : not_file (node_of w_fresh (chart_dir w_fresh "." "demo")) = true)
      by (vm_compute; reflexivity).
    destruct (values_header_unsubstituted "demo" "." w_fresh Hv w_fresh_plain Hdir Hcdir)
      as (_ & _ & Hnew).
    destruct Hnew as (w' & c & Hc & Hval & _ & Hpre).
    + vm_compute; reflexivity.
    + repeat constructor; vm_compute; reflexivity.
    + vm_compute; reflexivity.
    + exists w', c. split; [exact Hc|split; [exact Hval|exact Hpre]].
Defined.

(* ----------------------------------------------------------------- *)
(** ** C9: the kinds of the manifest generator *)

Lemma keeps_refl (w : World) : keeps w w.
Proof. by split. Qed.

Lemma keeps_trans (w1 w2 w3 : World) : keeps w1 w2 → keeps w2 w3 → keeps w1 w3.
Proof. intros [H1 H2] [H3 H4]. split; [congruence|auto]. Qed.

Lemma written_keeps (w w' : World) (name c : string) :
  keeps w w' → written w name c → written w' name c.
Proof.
  intros [Hc Hk]. unfold written, node_of. rewrite !resolve_rkey, Hc.
  destruct (rkey (cwd w) name) as [|a k]; [done|]. rewrite !node_at_lookup by done.
  apply Hk.
Qed.

Lemma writeFile_success (name c : string) (w w' : World) :
  writeFile name c w = (None, w') → written w' name c.
Proof.
  unfold writeFile, bind, os_MkdirAll.
  destruct (mkdirAll_go _ _ _) as [m' [e|]]; [by intros [=]|].
  unfold ioutil_WriteFile. rewrite !resolve_rkey.
  change (cwd (with_fs m' (with_call (CallMkdirAll (filepath_Dir name)) w))) with (cwd w).
  change (fs (with_fs m' (with_call (CallMkdirAll (filepath_Dir name)) w))) with m'.
  unfold written, node_of.
  destruct (rkey (cwd w) name) as [|a k] eqn:Ek.
  { cbn [node_at]. by intros [=]. }
  rewrite (node_at_lookup m' (a :: k)) by done.
  assert (Hw : ∀ w0, cwd w0 = cwd w →
    node_at (fs (with_fs (<[a :: k := File true c]> m') w0))
            (resolve (with_fs (<[a :: k := File true c]> m') w0) name)
    = Some (File true c)).
  { intros w0 H0. rewrite resolve_rkey. unfold with_fs. cbn [fs cwd]. rewrite H0, Ek.
    by rewrite node_at_lookup, lookup_insert_eq. }
  destruct (m' !! (a :: k)) as [[[] d|]|].
  - intros [= <-]. by apply Hw.
  - by intros [=].
  - by intros [=].
  - destruct (node_at m' (parent (a :: k))) as [[]|]; [by intros [=]| |by intros [=]].
    intros [= <-]. by apply Hw.
Qed.

Lemma os_OpenFile_append_keeps (name : string) (w w' : World)
    (r : option (list string) * option error) :
  os_OpenFile_append name w = (r, w') → keeps w w'.
Proof.
  unfold os_OpenFile_append. rewrite resolve_rkey.
  destruct (rkey (cwd w) name) as [|a k] eqn:Ek.
  { intros [= _ <-]. by split. }
  rewrite node_at_lookup by done.
  destruct (fs w !! (a :: k)) as [[[] d|]|] eqn:E; try (intros [= _ <-]; by split).
  destruct (node_at (fs w) (parent (a :: k))) as [[]|]; try (intros [= _ <-]; by split).
  intros [= _ <-]. split; [done|]. intros q x Hq. cbn [fs with_fs with_call].
  rewrite lookup_insert_ne; [done|]. intros <-. congruence.
Qed.

Lemma File_Write_empty_keeps (f : option (list string)) (w w' : World) (e : option error) :
  File_Write f EmptyString w = (e, w') → keeps w w'.
Proof.
  unfold File_Write. destruct f as [p|]; [|intros [= _ <-]; by split].
  destruct (fs w !! p) as [[wr d|]|] eqn:E; try (intros [= _ <-]; by split).
  intros [= _ <-]. split; [done|]. intros q x Hq. cbn [fs with_fs with_call].
  rewrite app_nil_r_s. destruct (decide (q = p)) as [->|Hne].
  - by rewrite lookup_insert_eq, <- Hq, E.
  - by rewrite lookup_insert_ne.
Qed.

Lemma manifests_closed (kind : string) :
  is_Some (manifests !! kind) ↔ kind ∈ ["ingress"; "service"; "deployment"].
Proof.
  unfold manifests. rewrite !elem_of_cons, elem_of_nil.
  destruct (decide (kind = "ingress")) as [->|H1].
  { split; [by left|]. intros _. vm_compute. eauto. }
  destruct (decide (kind = "service")) as [->|H2].
  { split; [by right; left|]. intros _. vm_compute. eauto. }
  destruct (decide (kind = "deployment")) as [->|H3].
  { split; [by right; right; left|]. intros _. vm_compute. eauto. }
  rewrite !lookup_insert_ne, lookup_empty by done.
  split; [by intros [? [=]]|]. intros [?|[?|[?|[]]]]; done.
Qed.

Section Manifest.
Context {V : Type}.
Variable loader_Load : string → M (result (Chart V)).

Lemma CreateManifest_unknown_written (kind name p : string) (w w' : World) :
  manifests !! kind = None →
  CreateManifest loader_Load kind name w = ((p, None), w') →
  p = filepath_Join1 (getwd w) ∧
  written w' (manifest_path (filepath_Join1 (getwd w)) kind name) EmptyString.
Proof using Type.
  intros Hk. unfold CreateManifest, manifests_index. rewrite Hk. cbn [default].
  cbn [manifest_content manifest_values path content].
  change (transformManifestName EmptyString) with (fun _ _ : string => EmptyString).
  fold (manifest_path (filepath_Join1 (getwd w)) kind name).
  unfold bind, os_Getwd, ret, Fprintf_Stderr. cbv beta iota zeta.
  destruct (loader_Load (getwd w) w) as [[schart|e] w1]; [|by intros [=]].
  destruct (validateChartName (Chart_Name schart)); [by intros [=]|].
  destruct (os_Stat (getwd w) w1) as [[[[|]]|e] w2]; cbn [IsDir negb]; [|by intros [=]..].
  cbv beta iota zeta.
  fold (manifest_path (filepath_Join1 (getwd w)) kind name).
  destruct (os_Stat (filepath_Join1 (getwd w)) w2) as [[[[|]]|e] w3]; [|by intros [=]|].
  all: destruct (os_Stat _ w3) as [[fi|e3] w4].
  all: destruct (writeFile _ _ _) as [[e4|] w5] eqn:Hwf; [by intros [=]|].
  all: apply writeFile_success in Hwf.
  all: destruct (os_OpenFile_append _ w5) as [[f err] w6] eqn:Hop.
  all: apply os_OpenFile_append_keeps in Hop.
  all: destruct err as [err|].
  all: destruct (File_Write f EmptyString _) as [e0 w8] eqn:Hfw.
  all: apply File_Write_empty_keeps in Hfw.
  all: destruct e0 as [e0|].
  all: intros [= <- <-]; (split; [done|]).
  all: eapply written_keeps; [|exact Hwf].
  all: eapply keeps_trans; [exact Hop|].
  all: try (eapply keeps_trans; [|exact Hfw]; by split).
  all: eapply keeps_trans; [|by split];
       eapply keeps_trans; [|exact Hfw]; by split.
Qed.

(** C9, as the code has it.  The registry has exactly the kinds [ingress],
    [service] and [deployment], but the command hands its first argument to
    the lookup unchecked: for a kind outside the registry, a run of the
    command that returns no error has written the manifest file
    [templates/NAME_KIND.yaml] of that kind, with no bytes in it. *)
Theorem manifestCmd_unknown_kind (kind name : string) (w w' : World) :
  (∀ k, is_Some (manifests !! k) ↔ k ∈ ["ingress"; "service"; "deployment"]) ∧
  (manifests !! kind = None →
   manifestCmd loader_Load [kind; name] w = (None, w') →
   written w' (manifest_path (filepath_Join1 (getwd w)) kind name) EmptyString).
Proof using Type.
  split; [apply manifests_closed|]. intros Hk. unfold manifestCmd, bind, Fprintf_Stderr, ret.
  destruct (CreateManifest loader_Load kind name _) as [[p e] w1] eqn:Hc. cbn [snd].
  intros [= -> <-]. by apply CreateManifest_unknown_written in Hc as [_ Hc].
Qed.
End Manifest.

Lemma manifestCmd_unknown_kind_witness :
  written (snd (manifestCmd demo_Load ["volume"; "data"] w_chart))
          (manifest_path (filepath_Join1 (getwd w_chart)) "volume" "data") EmptyString.
Proof.
  assert (Hk : manifests !! "volume" = None) by (vm_compute; reflexivity).
  assert (He : fst (manifestCmd demo_Load ["volume"; "data"] w_chart) = None)
    by (vm_compute; reflexivity).
  assert (H : manifestCmd demo_Load ["volume"; "data"] w_chart
              = (None, snd (manifestCmd demo_Load ["volume"; "data"] w_chart))).
  { rewrite <- He. by destruct (manifestCmd demo_Load ["volume"; "data"] w_chart). }
  exact (proj2 (manifestCmd_unknown_kind demo_Load "volume" "data" w_chart _) Hk H).
Defined.

(** C9, as the claim states it, fails: the command [manifest volume data],
    run in the chart [/work], reaches the lookup with the kind [volume], which
    the registry does not have, returns no error and writes the manifest file
    [/work/templates/data_volume.yaml]. *)
Lemma manifestCmd_writes_unknown_kind :
  manifests !! "volume" = None ∧
  fst (manifestCmd demo_Load ["volume"; "data"] w_chart) = None ∧
  node_of w_chart "/work/templates/data_volume.yaml" = None ∧
  node_of (snd (manifestCmd demo_Load ["volume"; "data"] w_chart))
          "/work/templates/data_volume.yaml" = Some (File true EmptyString).
Proof. repeat split; vm_compute; reflexivity. Qed.

(* ----------------------------------------------------------------- *)
(** ** Nothing is removed *)

Lemma node_kept_refl (x : node) : node_kept x x.
Proof. by destruct x as [[] d|]. Qed.

Lemma node_kept_trans (x y z : node) : node_kept x y → node_kept y z → node_kept x z.
Proof.
  destruct x as [[] d|], y as [[] d'|], z as [[] d''|]; cbn; try done. congruence.
Qed.

Lemma tree_kept_refl (m : gmap (list string) node) : tree_kept m m.
Proof. intros k x H. exists x. split; [done|apply node_kept_refl]. Qed.

Lemma tree_kept_trans (m1 m2 m3 : gmap (list string) node) :
  tree_kept m1 m2 → tree_kept m2 m3 → tree_kept m1 m3.
Proof.
  intros H1 H2 k x Hk. destruct (H1 k x Hk) as (y & Hy & Hxy).
  destruct (H2 k y Hy) as (z & Hz & Hyz). exists z. split; [done|].
  by eapply node_kept_trans.
Qed.

Lemma tree_kept_insert (m m' : gmap (list string) node) (k : list string) (y : node) :
  tree_kept m m' → (∀ x, m !! k = Some x → node_kept x y) → tree_kept m (<[k := y]> m').
Proof.
  intros H Hk q x Hq. destruct (decide (q = k)) as [->|Hne].
  - exists y. rewrite lookup_insert_eq. split; [done|by apply Hk].
  - rewrite lookup_insert_ne by done. by apply H.
Qed.

Lemma run_kept_refl (w : World) : run_kept w w.
Proof. split; [done|]. split; [apply tree_kept_refl|]. done. Qed.

Lemma run_kept_trans (w1 w2 w3 : World) : run_kept w1 w2 → run_kept w2 w3 → run_kept w1 w3.
Proof.
  intros (Hc & Ht & Hs & Hl) (Hc' & Ht' & Hs' & Hl').
  split; [congruence|]. split; [by eapply tree_kept_trans|].
  split; by etrans.
Qed.

Lemma kept_ret {A : Type} (a : A) : kept_op (ret a).
Proof. intros w. apply run_kept_refl. Qed.

Lemma kept_bind {A B : Type} (m : M A) (k : A → M B) :
  kept_op m → (∀ a, kept_op (k a)) → kept_op (bind m k).
Proof.
  intros Hm Hk w. unfold bind. specialize (Hm w). destruct (m w) as [a w1].
  eapply run_kept_trans; [exact Hm|apply Hk].
Qed.

Lemma with_call_kept (c : call) (w : World) : run_kept w (with_call c w).
Proof.
  split; [done|]. split; [apply tree_kept_refl|]. split; [done|].
  by apply prefix_app_r.
Qed.

Lemma with_diag_kept (d : diag) (w : World) : run_kept w (with_diag d w).
Proof.
  split; [done|]. split; [apply tree_kept_refl|]. split; [|done].
  by apply prefix_app_r.
Qed.

Lemma with_fs_kept (m : gmap (list string) node) (w : World) :
  tree_kept (fs w) m → run_kept w (with_fs m w).
Proof. intros H. split; [done|]. split; [done|]. done. Qed.

Lemma kept_Fprintf (d : diag) : kept_op (Fprintf_Stderr d).
Proof. intros w. apply with_diag_kept. Qed.

Lemma kept_Stat (name : string) : kept_op (os_Stat name).
Proof.
  intros w. unfold os_Stat.
  destruct (node_at (fs w) (resolve w name)) as [[]|]; apply with_call_kept.
Qed.

Lemma kept_Abs (p : string) : kept_op (filepath_Abs p).
Proof. intros w. apply run_kept_refl. Qed.

Lemma mkdirAll_go_kept (name : string) (rp : list string) (m : gmap (list string) node) :
  tree_kept m (fst (mkdirAll_go name rp m)).
Proof.
  revert name. induction rp as [|c rp IH]; intros name; [apply tree_kept_refl|].
  cbn [mkdirAll_go]. destruct (m !! rev (c :: rp)) as [[]|] eqn:E; try apply tree_kept_refl.
  specialize (IH (mkdir_parent name)).
  destruct (mkdirAll_go (mkdir_parent name) rp m) as [m' [err|]]; [exact IH|].
  cbn [fst] in *. apply tree_kept_insert; [exact IH|]. intros x Hx. congruence.
Qed.

Lemma kept_MkdirAll (name : string) : kept_op (os_MkdirAll name).
Proof.
  intros w. unfold os_MkdirAll.
  pose proof (mkdirAll_go_kept name (rev (resolve w name)) (fs w)) as H.
  destruct (mkdirAll_go _ _ _) as [m' e]. cbn [fst snd] in *.
  eapply run_kept_trans; [apply (with_call_kept (CallMkdirAll name))|].
  by apply with_fs_kept.
Qed.

Lemma node_at_Some_file (m : gmap (list string) node) (p : list string) (b : bool) (d : string) :
  node_at m p = Some (File b d) → m !! p = Some (File b d).
Proof. by destruct p. Qed.

Lemma node_at_None (m : gmap (list string) node) (p : list string) :
  node_at m p = None → m !! p = None.
Proof. by destruct p. Qed.

Lemma kept_WriteFile (name data : string) : kept_op (ioutil_WriteFile name data).
Proof.
  intros w. unfold ioutil_WriteFile.
  destruct (node_at (fs w) (resolve w name)) as [[[] d|]|] eqn:E; cbn [snd];
    try apply with_call_kept.
  - eapply run_kept_trans; [apply (with_call_kept (CallWriteFile name))|].
    apply with_fs_kept, tree_kept_insert; [apply tree_kept_refl|].
    intros x Hx. apply node_at_Some_file in E. cbn [fs with_call] in Hx.
    rewrite E in Hx. by injection Hx as <-.
  - destruct (node_at (fs w) (parent (resolve w name))) as [[]|]; cbn [snd];
      try apply with_call_kept.
    eapply run_kept_trans; [apply (with_call_kept (CallWriteFile name))|].
    apply with_fs_kept, tree_kept_insert; [apply tree_kept_refl|].
    intros x Hx. apply node_at_None in E. cbn [fs with_call] in Hx. congruence.
Qed.

Lemma kept_writeFile (name c : string) : kept_op (writeFile name c).
Proof.
  unfold writeFile. apply kept_bind; [apply kept_MkdirAll|].
  intros [err|]; [apply kept_ret|apply kept_WriteFile].
Qed.

Lemma kept_writeFiles (files : list ManifestFile) : kept_op (writeFiles files).
Proof.
  induction files as [|f rest IH]; [apply kept_ret|].
  cbn [writeFiles]. apply kept_bind; [apply kept_Stat|]. intros st.
  apply kept_bind; [destruct st; [apply kept_Fprintf|apply kept_ret]|]. intros _.
  apply kept_bind; [apply kept_writeFile|]. intros [err|]; [apply kept_ret|exact IH].
Qed.

Lemma kept_appendToValuesFile (module : string) : kept_op (appendToValuesFile module).
Proof.
  intros w. unfold appendToValuesFile, bind, os_OpenFile_append.
  set (p := resolve w ValuesfileName). set (b := transform defaultValues module).
  assert (Hwrite : ∀ w1 d, fs w1 !! p = Some (File true d) →
            run_kept w1 (snd (let (e, w2) := File_Write (Some p) b w1 in
                              match e with
                              | Some _ => Fprintf_Stderr (ErrWriting ValuesfileName)
                              | None => ret tt
                              end w2))).
  { intros w1 d Hd. unfold File_Write. rewrite Hd. unfold ret. cbn [snd].
    eapply run_kept_trans; [apply (with_call_kept (CallWrite p))|].
    apply with_fs_kept, tree_kept_insert; [apply tree_kept_refl|].
    intros x Hx. cbn [fs with_call] in Hx. rewrite Hd in Hx. by injection Hx as <-. }
  assert (Hnil : ∀ w1, run_kept w1 (snd (let (e, w2) := File_Write None b w1 in
                              match e with
                              | Some _ => Fprintf_Stderr (ErrWriting ValuesfileName)
                              | None => ret tt
                              end w2))).
  { intros w1. unfold File_Write, Fprintf_Stderr. cbn [snd]. apply with_diag_kept. }
  assert (Hfail : ∀ w1, run_kept w1 (snd (let (_, w2) :=
                              Fprintf_Stderr (ErrOpening ValuesfileName) w1 in
                            let (e, w3) := File_Write None b w2 in
                              match e with
                              | Some _ => Fprintf_Stderr (ErrWriting ValuesfileName)
                              | None => ret tt
                              end w3))).
  { intros w1. unfold Fprintf_Stderr at 1.
    eapply run_kept_trans; [apply (with_diag_kept (ErrOpening ValuesfileName))|apply Hnil]. }
  destruct (node_at (fs w) p) as [[[] d|]|] eqn:E.
  - eapply run_kept_trans; [apply (with_call_kept (CallOpenFile ValuesfileName))|].
    unfold ret at 1. apply (Hwrite _ d). by apply node_at_Some_file in E.
  - eapply run_kept_trans; [apply (with_call_kept (CallOpenFile ValuesfileName))|apply Hfail].
  - eapply run_kept_trans; [apply (with_call_kept (CallOpenFile ValuesfileName))|apply Hfail].
  - destruct (node_at (fs w) (parent p)) as [[]|].
    + eapply run_kept_trans; [apply (with_call_kept (CallOpenFile ValuesfileName))|apply Hfail].
    + eapply run_kept_trans; [apply (with_call_kept (CallOpenFile ValuesfileName))|].
      eapply run_kept_trans.
      { apply (with_fs_kept (<[p := File true EmptyString]> (fs w))).
        apply tree_kept_insert; [apply tree_kept_refl|].
        intros x Hx. apply node_at_None in E. cbn [fs with_call] in Hx. congruence. }
      unfold ret at 1. apply (Hwrite _ EmptyString). cbn [fs with_fs].
      by rewrite lookup_insert_eq.
    + eapply run_kept_trans; [apply (with_call_kept (CallOpenFile ValuesfileName))|apply Hfail].
Qed.

(** X1.  Whatever its arguments and whatever the state of the file system,
    and whether it fails or not, [Create] removes nothing: every name that
    exists before the call exists after it, a directory is still a directory,
    a read-only file holds the same bytes and a writable file is still a
    writable file; the working directory is the same, and what was printed
    and the calls made before are still there, in front.  So no failure is
    followed by the removal of the chart directory. *)
Theorem Create_removes_nothing (chartname dir : string) (w : World) :
  run_kept w (snd (Create chartname dir w)).
Proof.
  revert w. change (kept_op (Create chartname dir)). unfold Create.
  destruct (validateChartName chartname); [apply kept_ret|].
  apply kept_bind; [apply kept_Abs|]. intros [apath [err|]]; [apply kept_ret|].
  apply kept_bind; [apply kept_Stat|]. intros [[[|]]|e]; cbn [IsDir negb];
    [|apply kept_ret..].
  assert (Hbody : kept_op (st3 <- os_Stat ValuesfileName ;;
            match st3 with
            | Ok _ =>
                writeFiles (getFiles EmptyString chartname) ;;;
                appendToValuesFile chartname ;;;
                ret (filepath_Join apath chartname, None)
            | Err _ =>
                writeFiles (getBasefiles (filepath_Join apath chartname) "main" chartname) ;;;
                writeFiles (getFiles (filepath_Join apath chartname) "main") ;;;
                e <- os_MkdirAll (filepath_Join (filepath_Join apath chartname) ChartsDir) ;;
                match e with
                | Some err => ret (filepath_Join apath chartname, Some err)
                | None => ret (filepath_Join apath chartname, None)
                end
            end)).
  { apply kept_bind; [apply kept_Stat|]. intros [fi|e].
    - apply kept_bind; [apply kept_writeFiles|]. intros _.
      apply kept_bind; [apply kept_appendToValuesFile|]. intros _. apply kept_ret.
    - apply kept_bind; [apply kept_writeFiles|]. intros _.
      apply kept_bind; [apply kept_writeFiles|]. intros _.
      apply kept_bind; [apply kept_MkdirAll|]. intros [err|]; apply kept_ret. }
  apply kept_bind; [apply kept_Stat|]. intros [[[|]]|e]; [exact Hbody|apply kept_ret|exact Hbody].
Qed.

(* ----------------------------------------------------------------- *)
(** ** Nothing is removed by [CreateManifest] *)

Lemma kept_handle (w w' : World) (p : list string) (d : string) :
  run_kept w w' → fs w !! p = Some (File true d) → ∃ d', fs w' !! p = Some (File true d').
Proof.
  intros (_ & Ht & _) Hp. destruct (Ht p _ Hp) as ([[] d'|] & Hy & Hk); try done. by exists d'.
Qed.

Lemma File_Write_kept (p : list string) (b d : string) (w : World) :
  fs w !! p = Some (File true d) → run_kept w (snd (File_Write (Some p) b w)).
Proof.
  intros Hd. unfold File_Write. rewrite Hd. cbn [snd].
  eapply run_kept_trans; [apply (with_call_kept (CallWrite p))|].
  apply with_fs_kept, tree_kept_insert; [apply tree_kept_refl|].
  intros x Hx. cbn [fs with_call] in Hx. rewrite Hd in Hx. by injection Hx as <-.
Qed.

Lemma OpenFile_kept (name : string) (w : World) :
  run_kept w (snd (os_OpenFile_append name w)) ∧
  match fst (os_OpenFile_append name w) with
  | (Some p, None) => ∃ d, fs (snd (os_OpenFile_append name w)) !! p = Some (File true d)
  | (None, Some _) => True
  | _ => False
  end.
Proof.
  unfold os_OpenFile_append.
  destruct (node_at (fs w) (resolve w name)) as [[[] d|]|] eqn:E; cbn [fst snd];
    try (split; [apply with_call_kept|done]).
  - split; [apply with_call_kept|]. exists d. by apply node_at_Some_file in E.
  - destruct (node_at (fs w) (parent (resolve w name))) as [[]|]; cbn [fst snd];
      try (split; [apply with_call_kept|done]).
    split.
    + eapply run_kept_trans; [apply (with_call_kept (CallOpenFile name))|].
      apply with_fs_kept, tree_kept_insert; [apply tree_kept_refl|].
      intros x Hx. apply node_at_None in E. cbn [fs with_call] in Hx. congruence.
    + exists EmptyString. cbn [fs with_fs]. by rewrite lookup_insert_eq.
Qed.

(** Opening a file for appending, reporting the error of the opening,
    writing to the file, whatever follows: the shape of the last step of
    [appendToValuesFile] and of [CreateManifest]. *)
Lemma kept_open_write {A : Type} (name b : string) (report : error → M unit)
    (k : option error → M A) :
  (∀ e, kept_op (report e)) → (∀ e, kept_op (k e)) →
  kept_op (r <- os_OpenFile_append name ;;
           let '(f, err) := r in
           (match err with
            | Some e => report e
            | None => ret tt
            end) ;;;
           e <- File_Write f b ;;
           k e).
Proof.
  intros Hr Hk w. unfold bind at 1.
  destruct (OpenFile_kept name w) as [H1 H2].
  destruct (os_OpenFile_append name w) as [[f err] w1]. cbn [fst snd] in H1, H2.
  eapply run_kept_trans; [exact H1|].
  destruct f as [p|], err as [e|]; try done.
  - destruct H2 as [d Hd]. unfold bind, ret.
    pose proof (File_Write_kept p b d w1 Hd) as H3.
    destruct (File_Write (Some p) b w1) as [e w2]. cbn [snd] in H3.
    eapply run_kept_trans; [exact H3|apply Hk].
  - unfold bind. specialize (Hr e w1). destruct (report e w1) as [[] w2]. cbn [snd] in Hr.
    eapply run_kept_trans; [exact Hr|]. unfold File_Write. apply Hk.
Qed.

Section ManifestKeeps.
Context {V : Type}.
Variable loader_Load : string → M (result (Chart V)).

(** X2.  With a chart loader that removes nothing, [CreateManifest] removes
    nothing, whatever its arguments and whether it fails or not: names stay,
    directories stay directories, read-only files keep their bytes, the
    working directory is the same and the lines printed before are still
    there. *)
Theorem CreateManifest_removes_nothing (manifest name : string) (w : World) :
  (∀ src, kept_op (loader_Load src)) →
  run_kept w (snd (CreateManifest loader_Load manifest name w)).
Proof using Type.
  intros Hl. revert w. change (kept_op (CreateManifest loader_Load manifest name)).
  unfold CreateManifest.
  apply kept_bind; [intros w; apply run_kept_refl|]. intros apath.
  apply kept_bind; [apply Hl|]. intros [schart|e]; [|apply kept_ret].
  destruct (validateChartName (Chart_Name schart)); [apply kept_ret|].
  apply kept_bind; [apply kept_Stat|]. intros [[[|]]|e]; cbn [IsDir negb];
    [|apply kept_ret..].
  set (cdir := filepath_Join1 apath). cbv zeta.
  assert (Hbody : ∀ p c, kept_op (st3 <- os_Stat p ;;
            (match st3 with
             | Ok _ => Fprintf_Stderr (WarnOverwrite p)
             | Err _ => ret tt
             end) ;;;
            e <- writeFile p c ;;
            match e with
            | Some err => ret (cdir, Some err)
            | None =>
                r <- os_OpenFile_append (filepath_Join cdir ValuesfileName) ;;
                let '(f, err) := r in
                (match err with
                 | Some err => Fprintf_Stderr (LogPrintln err)
                 | None => ret tt
                 end) ;;;
                e <- File_Write f (transformManifestName
                                     (manifest_values (manifests_index manifest))
                                     (Chart_Name schart) name) ;;
                (match e with
                 | Some err => Fprintf_Stderr (LogPrintln err)
                 | None => ret tt
                 end) ;;;
                ret (cdir, None)
            end)).
  { intros p c. apply kept_bind; [apply kept_Stat|]. intros st.
    apply kept_bind; [destruct st; [apply kept_Fprintf|apply kept_ret]|]. intros _.
    apply kept_bind; [apply kept_writeFile|]. intros [err|]; [apply kept_ret|].
    apply (kept_open_write _ _ (fun e => Fprintf_Stderr (LogPrintln e))).
    - intros e. apply kept_Fprintf.
    - intros e. apply kept_bind; [destruct e; [apply kept_Fprintf|apply kept_ret]|].
      intros _. apply kept_ret. }
  apply kept_bind; [apply kept_Stat|].
  intros [[[|]]|e]; [apply Hbody|apply kept_ret|apply Hbody].
Qed.
End ManifestKeeps.

Lemma CreateManifest_removes_nothing_witness :
  run_kept w_chart (snd (CreateManifest demo_Load "ingress" "web" w_chart)).
Proof.
  apply (CreateManifest_removes_nothing demo_Load "ingress" "web" w_chart).
  intros src w. apply run_kept_refl.
Defined.

(* ----------------------------------------------------------------- *)
(** ** The file writer and the values file on failure *)

(** X3.  [writeFiles] on a plan in two parts: the second part is run only
    when the first part gave no error, in the world the first part left; the
    first error ends the run, and no file after the failing one is looked at
    or written. *)
Theorem writeFiles_stops_at_first_error (a b : list ManifestFile) (w : World) :
  writeFiles (a ++ b) w =
    match writeFiles a w with
    | (Some err, w1) => (Some err, w1)
    | (None, w1) => writeFiles b w1
    end.
Proof.
  revert w. induction a as [|f a IH]; intros w; [done|].
  cbn [app writeFiles]. unfold bind.
  destruct (os_Stat (path f) w) as [st w1].
  destruct (match st with
            | Ok _ => Fprintf_Stderr (WarnOverwrite (path f))
            | Err _ => ret tt
            end w1) as [[] w2].
  destruct (writeFile (path f) (content f) w2) as [[err|] w3]; [done|apply IH].
Qed.

(** X4.  When the values file cannot be opened for appending,
    [appendToValuesFile] prints the line about the opening and, the write to
    the file that is not open failing too, the line about the writing; the
    file tree is not changed. *)
Theorem appendToValuesFile_open_failure (module : string) (w : World) (e : error) :
  snd (fst (os_OpenFile_append ValuesfileName w)) = Some e →
  fs (snd (appendToValuesFile module w)) = fs w ∧
  Stderr (snd (appendToValuesFile module w))
  = Stderr w ++ [ErrOpening ValuesfileName; ErrWriting ValuesfileName].
Proof.
  unfold appendToValuesFile, bind, os_OpenFile_append.
  destruct (node_at (fs w) (resolve w ValuesfileName)) as [[[] d|]|]; cbn [fst snd].
  - done.
  - intros _. unfold Fprintf_Stderr, File_Write, with_diag. cbn. by rewrite <- app_assoc.
  - intros _. unfold Fprintf_Stderr, File_Write, with_diag. cbn. by rewrite <- app_assoc.
  - destruct (node_at (fs w) (parent (resolve w ValuesfileName))) as [[]|]; cbn [fst snd].
    + intros _. unfold Fprintf_Stderr, File_Write, with_diag. cbn. by rewrite <- app_assoc.
    + done.
    + intros _. unfold Fprintf_Stderr, File_Write, with_diag. cbn. by rewrite <- app_assoc.
Qed.

Lemma appendToValuesFile_open_failure_witness :
  fs (snd (appendToValuesFile "cache" w_values_dir)) = fs w_values_dir ∧
  Stderr (snd (appendToValuesFile "cache" w_values_dir))
  = Stderr w_values_dir ++ [ErrOpening ValuesfileName; ErrWriting ValuesfileName].
Proof.
  apply (appendToValuesFile_open_failure "cache" w_values_dir (EISDIR ValuesfileName)).
  vm_compute. reflexivity.
Defined.

(* ----------------------------------------------------------------- *)
(** ** Add-module mode when the values file cannot be opened *)

Lemma Create_body_add_module_unopened (chartname cdir : string) (x : node) (w : World) :
  has_sep chartname = false → plains (cwd w) →
  fs w !! (cwd w ++ ["values.yaml"]) = Some x →
  (x = Dir ∨ ∃ d, x = File false d) →
  Forall (fun e => writable_at (fs w) (cwd w ++ e) = true) (file_elems chartname) →
  Create_body chartname cdir w =
    ((cdir, None),
     mkWorld (foldl write_at (fs w) (plan_of (cwd w) (getFiles EmptyString chartname)))
             (cwd w)
             ((Stderr w ++ warnings_of (cwd w) (fs w) (getFiles EmptyString chartname))
                ++ [ErrOpening ValuesfileName; ErrWriting ValuesfileName])
             ((calls w ++ [CallStat ValuesfileName] ++ calls_of (getFiles EmptyString chartname))
                ++ [CallOpenFile ValuesfileName])).
Proof.
  intros Hm HK Hv Hx Hw. unfold Create_body. unfold bind at 1. rewrite os_Stat_eq.
  rewrite rkey_values by done. rewrite node_at_lookup by (by destruct (cwd w)). rewrite Hv.
  assert (Hkeys : (plan_of (cwd w) (getFiles EmptyString chartname)).*1
                  = map (app (cwd w)) (file_elems chartname)).
  { rewrite plan_of_keys.
    by destruct (rooted_keys (cwd w) None (file_elems chartname) (getFiles EmptyString chartname))
      as [-> _]; [done|done|by apply file_elems_plain|apply file_elems_nonempty
                  |apply getFiles_paths|]. }
  assert (Hbody : ∀ w0 : World, fs w0 = fs w → cwd w0 = cwd w →
    (writeFiles (getFiles EmptyString chartname) ;;;
     appendToValuesFile chartname ;;; ret (cdir, @None error)) w0 =
    ((cdir, None),
     mkWorld (foldl write_at (fs w) (plan_of (cwd w) (getFiles EmptyString chartname)))
             (cwd w)
             ((Stderr w0 ++ warnings_of (cwd w) (fs w) (getFiles EmptyString chartname))
                ++ [ErrOpening ValuesfileName; ErrWriting ValuesfileName])
             ((calls w0 ++ calls_of (getFiles EmptyString chartname))
                ++ [CallOpenFile ValuesfileName]))).
  { intros w0 Hfs Hcwd. unfold bind at 1.
    rewrite (writeFiles_rooted None (file_elems chartname));
      [|by rewrite Hcwd|done|by apply file_elems_plain|apply file_elems_nonempty
       |apply getFiles_paths|apply file_elems_compat
       |rewrite Hfs, Hcwd; by apply Forall_fmap].
    rewrite Hfs, Hcwd. unfold bind at 1.
    erewrite (appendToValuesFile_fails chartname _ x); cbn [fs cwd Stderr calls];
      [reflexivity|done| |done].
    apply foldl_write_keeps; [| |done|].
    - rewrite Hkeys. apply compat_keys_app, file_elems_compat.
    - rewrite Hkeys. by apply Forall_fmap.
    - rewrite Hkeys. intros [e [He Hin]]%list_elem_of_fmap.
      apply app_inv_head in He. subst e.
      by apply all_elems_not_values in Hin. }
  destruct x as [wr d|]; rewrite Hbody by done; cbn [Stderr calls with_call];
    by rewrite <- !app_assoc.
Qed.

(** X5.  Add-module mode with a values file that cannot be opened for
    writing (a read-only file, or a directory of that name): [Create] still
    writes the files of the module, prints the two lines about the values
    file after the overwrite warnings, leaves the values file as it is, and
    returns the chart directory and no error. *)
Theorem Create_values_file_unopened (chartname dir : string) (x : node) (w : World) :
  validateChartName chartname = None →
  plains (cwd w) →
  node_of w (abs_from (getwd w) dir) = Some Dir →
  not_file (node_of w (chart_dir w dir chartname)) = true →
  node_of w ValuesfileName = Some x →
  (x = Dir ∨ ∃ d, x = File false d) →
  Forall (fun f => writable_name w (path f)) (getFiles EmptyString chartname) →
  ∃ w',
    Create chartname dir w = ((chart_dir w dir chartname, None), w') ∧
    Forall (fun f => written w' (path f) (content f)) (getFiles EmptyString chartname) ∧
    node_of w' ValuesfileName = Some x ∧
    Stderr w' = (Stderr w ++ warnings_of (cwd w) (fs w) (getFiles EmptyString chartname))
                ++ [ErrOpening ValuesfileName; ErrWriting ValuesfileName].
Proof.
  intros Hv HK Hdir Hcdir Hvals Hx Hw.
  pose proof (validateChartName_None _ Hv) as [_ Hclass].
  pose proof (valid_no_sep _ Hclass) as Hm.
  rewrite abs_from_parent_key, node_of_render in Hdir by (done || by apply parent_key_plain).
  rewrite chart_dir_render, node_of_render in Hcdir by (done || by apply chart_key_plain).
  rewrite node_of_values in Hvals by done.
  pose proof (add_module_keys (cwd w) chartname HK Hm) as Hkeys.
  assert (Hw' : Forall (fun e => writable_at (fs w) (cwd w ++ e) = true) (file_elems chartname)).
  { apply (Forall_map_2 (app (cwd w)) (fun k => writable_at (fs w) k = true)).
    rewrite <- Hkeys.
    by apply (Forall_map_1 (fun f => rkey (cwd w) (path f))
                           (fun k => writable_at (fs w) k = true)). }
  eexists. split.
  { rewrite Create_checks by done. rewrite chart_dir_render by done.
    apply (Create_body_add_module_unopened chartname _ x); done. }
  cbn [fs cwd Stderr calls with_call].
  set (plan := plan_of (cwd w) (getFiles EmptyString chartname)).
  assert (Hpk : plan.*1 = map (app (cwd w)) (file_elems chartname))
    by (unfold plan; by rewrite plan_of_keys).
  assert (Hcompat : compat_keys plan.*1)
    by (rewrite Hpk; apply compat_keys_app, file_elems_compat).
  assert (Hwr : Forall (fun k => writable_at (fs w) k = true) plan.*1)
    by (rewrite Hpk; by apply Forall_map_1).
  assert (Hset : settled (foldl write_at (fs w) plan) plan).
  { apply foldl_write_settled; [|done..]. rewrite Hpk. apply NoDup_app_keys, file_elems_NoDup. }
  split; [|split; [|done]].
  - apply Forall_forall. intros f Hf. unfold written, node_of. cbn [fs].
    rewrite resolve_rkey. cbn [cwd].
    assert (rkey (cwd w) (path f) ≠ []) as Hne.
    { rewrite Forall_forall in Hw. by apply (writable_ne (fs w)), Hw. }
    rewrite node_at_lookup by done. by apply Hset, in_plan.
  - unfold node_of. cbn [fs]. rewrite resolve_rkey. cbn [cwd].
    rewrite rkey_values by done. rewrite node_at_lookup by (by destruct (cwd w)).
    apply foldl_write_keeps; [done..|]. rewrite Hpk.
    intros [e [He Hin]]%list_elem_of_fmap. apply app_inv_head in He. subst e.
    by apply all_elems_not_values in Hin.
Qed.

Lemma w_values_readonly_plain : plains (cwd w_values_readonly).
Proof. by repeat constructor. Qed.

Lemma Create_values_file_unopened_witness :
  ∃ w', Create "cache" "." w_values_readonly
        = ((chart_dir w_values_readonly "." "cache", None), w') ∧
        node_of w' ValuesfileName = Some (File false "replicas: 1") ∧
        Stderr w' = [ErrOpening ValuesfileName; ErrWriting ValuesfileName].
Proof.
  destruct (Create_values_file_unopened "cache" "." (File false "replicas: 1")
              w_values_readonly) as (w' & Hc & _ & Hval & Herr).
  - reflexivity.
  - exact w_values_readonly_plain.
  - vm_compute; reflexivity.
  - vm_compute; reflexivity.
  - vm_compute; reflexivity.
  - right. by exists "replicas: 1".
  - repeat constructor; vm_compute; reflexivity.
  - exists w'. split; [exact Hc|]. split; [exact Hval|].
    rewrite Herr. vm_compute. reflexivity.
Defined.

(* ----------------------------------------------------------------- *)
(** ** New-unit mode when the directory [charts] cannot be made *)

Lemma Create_body_new_unit_blocked (chartname : string) (C : list string) (b : bool)
    (d : string) (w : World) :
  plains (cwd w) → plains C →
  node_at (fs w) (cwd w ++ ["values.yaml"]) = None →
  Forall (fun e => writable_at (fs w) (C ++ e) = true) (base_elems ++ file_elems "main") →
  fs w !! (C ++ ["charts"]) = Some (File b d) →
  Create_body chartname (render C) w =
    ((render C, Some (ENOTDIR (render (C ++ ["charts"])))),
     mkWorld (foldl write_at (fs w) (plan_of (cwd w) (new_unit_files (render C) chartname)))
             (cwd w)
             (Stderr w ++ warnings_of (cwd w) (fs w) (new_unit_files (render C) chartname))
             (calls w ++ [CallStat ValuesfileName]
                ++ calls_of (new_unit_files (render C) chartname)
                ++ [CallMkdirAll (render (C ++ ["charts"]))])).
Proof.
  intros HK HC Hv Hw Hd. unfold Create_body. unfold bind at 1. rewrite os_Stat_eq.
  rewrite rkey_values by done. rewrite Hv.
  set (w1 := with_call (CallStat ValuesfileName) w).
  assert (Hall : writeFiles (new_unit_files (render C) chartname) w1 =
    (None, mkWorld (foldl write_at (fs w1) (plan_of (cwd w1) (new_unit_files (render C) chartname)))
                   (cwd w1)
                   (Stderr w1 ++ warnings_of (cwd w1) (fs w1) (new_unit_files (render C) chartname))
                   (calls w1 ++ calls_of (new_unit_files (render C) chartname)))).
  { apply (writeFiles_rooted (Some C) (base_elems ++ file_elems "main"));
      [done|done|by apply all_elems_plain
      |apply Forall_app; split; [apply base_elems_nonempty|apply file_elems_nonempty]
      |apply new_unit_paths|apply all_elems_compat|by apply Forall_fmap]. }
  assert (Hbase : fst (writeFiles (getBasefiles (render C) "main" chartname) w1) = None).
  { erewrite (writeFiles_rooted (Some C) base_elems);
      [done|done|done|apply base_elems_plain|apply base_elems_nonempty
      |apply getBasefiles_paths
      |eapply compat_keys_sub; [|apply (all_elems_compat "main")];
         intros ??; apply elem_of_app; by left
      |].
    apply Forall_fmap. apply Forall_app in Hw as [Hw _]. done. }
  pose proof (writeFiles_app _ (getFiles (render C) "main") w1 Hbase) as Happ.
  fold (new_unit_files (render C) chartname) in Happ. rewrite Hall in Happ.
  unfold bind in Happ |- *.
  destruct (writeFiles (getBasefiles (render C) "main" chartname) w1) as [e1 w2].
  destruct (writeFiles (getFiles (render C) "main") w2) as [e2 w3].
  pose proof (f_equal fst Happ) as He. pose proof (f_equal snd Happ) as Hw3.
  cbn [fst snd] in He, Hw3. clear Happ Hall. subst e2 w3.
  assert (filepath_Join (render C) ChartsDir = render (C ++ ["charts"])) as ->
    by (by apply (Join_abs C ["charts"]); [|repeat constructor|]).
  assert (plains (C ++ ["charts"])) as HCc
    by (apply Forall_app; split; [done|by repeat constructor]).
  unfold os_MkdirAll. rewrite resolve_rkey. cbn [fs cwd Stderr calls with_call w1].
  rewrite rkey_abs by done. rewrite mkdirAll_go_snoc.
  rewrite (foldl_write_keeps _ _ (C ++ ["charts"]) (File b d)); [| | |done|].
  - unfold ret, with_fs, with_call. cbn [fs cwd Stderr calls]. by rewrite <- !app_assoc.
  - rewrite new_unit_keys by done. apply compat_keys_app, all_elems_compat.
  - rewrite new_unit_keys by done. by apply Forall_fmap.
  - rewrite new_unit_keys by done. intros [e [He Hin]]%list_elem_of_fmap.
    apply app_inv_head in He. subst e. by apply (all_elems_not_charts "main") in Hin.
Qed.

(** X6.  New-unit mode when the name [charts] of the chart directory is a
    regular file: every planned file is written first, then the making of
    the directory [charts] fails, and this error, unlike the errors of the
    writes, is returned by [Create], with the chart directory. *)
Theorem Create_charts_blocked (chartname dir : string) (b : bool) (d : string) (w : World) :
  validateChartName chartname = None →
  plains (cwd w) →
  node_of w (abs_from (getwd w) dir) = Some Dir →
  not_file (node_of w (chart_dir w dir chartname)) = true →
  node_of w ValuesfileName = None →
  Forall (fun f => writable_name w (path f))
         (new_unit_files (chart_dir w dir chartname) chartname) →
  node_of w (filepath_Join (chart_dir w dir chartname) ChartsDir) = Some (File b d) →
  ∃ w',
    Create chartname dir w
    = ((chart_dir w dir chartname,
        Some (ENOTDIR (filepath_Join (chart_dir w dir chartname) ChartsDir))), w') ∧
    Forall (fun f => written w' (path f) (content f))
           (new_unit_files (chart_dir w dir chartname) chartname) ∧
    node_of w' (filepath_Join (chart_dir w dir chartname) ChartsDir) = Some (File b d).
Proof.
  intros Hv HK Hdir Hcdir Hvals Hw Hd.
  pose proof (chart_key_plain w dir chartname HK) as HC.
  set (C := chart_key w dir chartname) in *.
  rewrite abs_from_parent_key, node_of_render in Hdir by (done || by apply parent_key_plain).
  rewrite chart_dir_render in * by done. fold C in Hcdir, Hw, Hd |- *.
  rewrite node_of_render in Hcdir by done.
  rewrite node_of_values in Hvals by done.
  rewrite charts_name in * by done.
  rewrite node_of_render in Hd by (done || by apply plains_charts).
  rewrite node_at_lookup in Hd by (by destruct C).
  assert (Hw' : Forall (fun e => writable_at (fs w) (C ++ e) = true)
                       (base_elems ++ file_elems "main")).
  { apply (Forall_map_2 (app C) (fun k => writable_at (fs w) k = true)).
    rewrite <- (new_unit_keys_map (cwd w) _ chartname) by done.
    by apply (Forall_map_1 (fun f => rkey (cwd w) (path f))
                           (fun k => writable_at (fs w) k = true)). }
  set (plan := plan_of (cwd w) (new_unit_files (render C) chartname)).
  assert (Hpk : plan.*1 = map (app C) (base_elems ++ file_elems "main"))
    by (by apply new_unit_keys).
  assert (Hcompat : compat_keys plan.*1)
    by (rewrite Hpk; apply compat_keys_app, all_elems_compat).
  assert (Hwr : Forall (fun k => writable_at (fs w) k = true) plan.*1)
    by (rewrite Hpk; by apply Forall_map_1).
  eexists. split.
  { rewrite Create_checks by done. fold C.
    rewrite (Create_body_new_unit_blocked chartname C b d); cbn [fs cwd Stderr calls with_call];
      [reflexivity|done|done|by rewrite node_at_lookup by (by destruct (cwd w))|done|done]. }
  cbn [fs cwd Stderr calls]. fold plan. split.
  - apply Forall_forall. intros f Hf. unfold written, node_of. cbn [fs].
    rewrite resolve_rkey. cbn [cwd].
    assert (rkey (cwd w) (path f) ≠ []) as Hne.
    { rewrite Forall_forall in Hw. by apply (writable_ne (fs w)), Hw. }
    rewrite node_at_lookup by done.
    assert (Hset : settled (foldl write_at (fs w) plan) plan).
    { apply foldl_write_settled; [|done..]. rewrite Hpk. apply NoDup_app_keys, all_elems_NoDup. }
    by apply Hset, in_plan.
  - unfold node_of. cbn [fs]. rewrite resolve_rkey. cbn [cwd].
    rewrite rkey_abs by (done || by apply plains_charts).
    rewrite node_at_lookup by (by destruct C).
    apply foldl_write_keeps; [done..|]. rewrite Hpk.
    intros [e [He Hin]]%list_elem_of_fmap. apply app_inv_head in He. subst e.
    by apply (all_elems_not_charts "main") in Hin.
Qed.

Lemma w_charts_file_plain : plains (cwd w_charts_file).
Proof. by repeat constructor. Qed.

Lemma Create_charts_blocked_witness :
  ∃ w', Create "demo" "." w_charts_file
        = ((chart_dir w_charts_file "." "demo",
            Some (ENOTDIR (filepath_Join (chart_dir w_charts_file "." "demo") ChartsDir))), w') ∧
        Forall (fun f => written w' (path f) (content f))
               (new_unit_files (chart_dir w_charts_file "." "demo") "demo").
Proof.
  destruct (Create_charts_blocked "demo" "." true "x" w_charts_file)
    as (w' & Hc & Hwr & _).
  - reflexivity.
  - exact w_charts_file_plain.
  - vm_compute; reflexivity.
  - vm_compute; reflexivity.
  - vm_compute; reflexivity.
  - repeat constructor; vm_compute; reflexivity.
  - vm_compute; reflexivity.
  - exists w'. split; [exact Hc|exact Hwr].
Defined.

(* ----------------------------------------------------------------- *)
(** ** The checks of [Create] *)

Lemma node_of_with_call (c : call) (w : World) (name : string) :
  node_of (with_call c w) name = node_of w name.
Proof. done. Qed.

Lemma os_Stat_node (name : string) (w : World) :
  os_Stat name w =
    (match node_of w name with
     | Some Dir => Ok {| IsDir := true |}
     | Some (File _ _) => Ok {| IsDir := false |}
     | None => Err (walk_error (fs w) name [] (resolve w name))
     end, with_call (CallStat name) w).
Proof. unfold os_Stat, node_of. by destruct (node_at _ _) as [[]|]. Qed.

(** X7.  The checks of [Create] on a valid name.  When [os.Stat] fails on
    the directory [dir], [Create] returns the error that [os.Stat] gave,
    whatever it is, with the absolute path of [dir]; a regular file there
    gives the error [no such directory]; a regular file at the place of the
    chart directory gives the error [already exists and is not a directory],
    with the path of the chart directory.  In the three cases the calls of
    [os.Stat] are all that happened: no name is made, no line is printed. *)
Theorem Create_path_checks (chartname dir : string) (w : World) :
  validateChartName chartname = None →
  (∀ e w1, os_Stat (abs_from (getwd w) dir) w = (Err e, w1) →
   Create chartname dir w = ((abs_from (getwd w) dir, Some e), w1) ∧
   w1 = with_call (CallStat (abs_from (getwd w) dir)) w) ∧
  (∀ b d, node_of w (abs_from (getwd w) dir) = Some (File b d) →
   Create chartname dir w
   = ((abs_from (getwd w) dir, Some (ErrNoSuchDirectory (abs_from (getwd w) dir))),
      with_call (CallStat (abs_from (getwd w) dir)) w)) ∧
  (∀ b d, node_of w (abs_from (getwd w) dir) = Some Dir →
   node_of w (chart_dir w dir chartname) = Some (File b d) →
   Create chartname dir w
   = ((chart_dir w dir chartname, Some (ErrNotADirectory (chart_dir w dir chartname))),
      with_call (CallStat (chart_dir w dir chartname))
        (with_call (CallStat (abs_from (getwd w) dir)) w))).
Proof.
  intros Hv.
  assert (Hstep : Create chartname dir w =
    (let (a, w') := os_Stat (abs_from (getwd w) dir) w in
     match a with
     | Ok fi =>
         if negb (IsDir fi)
         then ret (abs_from (getwd w) dir, Some (ErrNoSuchDirectory (abs_from (getwd w) dir)))
         else
           st2 <- os_Stat (chart_dir w dir chartname) ;;
           match st2 with
           | Ok {| IsDir := false |} =>
               ret (chart_dir w dir chartname,
                    Some (ErrNotADirectory (chart_dir w dir chartname)))
           | _ => Create_body chartname (chart_dir w dir chartname)
           end
     | Err err => ret (abs_from (getwd w) dir, Some err)
     end w')).
  { unfold Create. by rewrite Hv. }
  rewrite Hstep. split; [|split].
  - intros e w1 Hs. rewrite Hs. split; [done|].
    rewrite os_Stat_node in Hs. by injection Hs as _ <-.
  - intros b d Hn. by rewrite os_Stat_node, Hn.
  - intros b d Hn H2. rewrite os_Stat_node, Hn. cbn [IsDir negb].
    unfold bind at 1. rewrite os_Stat_node.
    by rewrite node_of_with_call, H2.
Qed.

Lemma Create_path_checks_witness :
  Create "demo" "missing" w_fresh
  = ((abs_from (getwd w_fresh) "missing", Some (ENOENT (abs_from (getwd w_fresh) "missing"))),
     with_call (CallStat (abs_from (getwd w_fresh) "missing")) w_fresh) ∧
  Create "demo" "notes/sub" w_notes
  = ((abs_from (getwd w_notes) "notes/sub",
      Some (ENOTDIR (abs_from (getwd w_notes) "notes/sub"))),
     with_call (CallStat (abs_from (getwd w_notes) "notes/sub")) w_notes) ∧
  Create "notes" "." w_notes
  = ((chart_dir w_notes "." "notes", Some (ErrNotADirectory (chart_dir w_notes "." "notes"))),
     with_call (CallStat (chart_dir w_notes "." "notes"))
       (with_call (CallStat (abs_from (getwd w_notes) ".")) w_notes)).
Proof.
  split; [|split].
  - assert (Hn : node_of w_fresh (abs_from (getwd w_fresh) "missing") = None)
      by (vm_compute; reflexivity).
    assert (He : walk_error (fs w_fresh) (abs_from (getwd w_fresh) "missing") []
                   (resolve w_fresh (abs_from (getwd w_fresh) "missing"))
                 = ENOENT (abs_from (getwd w_fresh) "missing"))
      by (vm_compute; reflexivity).
    assert (Hs : os_Stat (abs_from (getwd w_fresh) "missing") w_fresh
                 = (Err (ENOENT (abs_from (getwd w_fresh) "missing")),
                    with_call (CallStat (abs_from (getwd w_fresh) "missing")) w_fresh))
      by (rewrite os_Stat_node, Hn, He; reflexivity).
    exact (proj1 (proj1 (Create_path_checks "demo" "missing" w_fresh eq_refl) _ _ Hs)).
  - assert (Hn : node_of w_notes (abs_from (getwd w_notes) "notes/sub") = None)
      by (vm_compute; reflexivity).
    assert (He : walk_error (fs w_notes) (abs_from (getwd w_notes) "notes/sub") []
                   (resolve w_notes (abs_from (getwd w_notes) "notes/sub"))
                 = ENOTDIR (abs_from (getwd w_notes) "notes/sub"))
      by (vm_compute; reflexivity).
    assert (Hs : os_Stat (abs_from (getwd w_notes) "notes/sub") w_notes
                 = (Err (ENOTDIR (abs_from (getwd w_notes) "notes/sub")),
                    with_call (CallStat (abs_from (getwd w_notes) "notes/sub")) w_notes))
      by (rewrite os_Stat_node, Hn, He; reflexivity).
    exact (proj1 (proj1 (Create_path_checks "demo" "notes/sub" w_notes eq_refl) _ _ Hs)).
  - apply (proj2 (proj2 (Create_path_checks "notes" "." w_notes eq_refl)) true "x").
    + vm_compute. reflexivity.
    + vm_compute. reflexivity.
Defined.

(* ----------------------------------------------------------------- *)
(** ** The place of the chart directory *)

Lemma parent_rev_cons (top : string) (below : list string) :
  parent (rev (top :: below)) = rev below.
Proof. cbn [rev]. apply parent_snoc. Qed.

Lemma extend_nosep (K : list string) (c : string) :
  plains K → has_sep c = false →
  extend K c =
    if String.eqb c EmptyString || String.eqb c "." then K
    else if String.eqb c ".." then parent K
    else K ++ [c].
Proof.
  intros HK Hc. unfold extend. rewrite path_elems_nosep by done. cbn [fold_left].
  unfold clean_step. destruct (String.eqb c EmptyString || String.eqb c ".").
  { by rewrite rev_involutive. }
  destruct (String.eqb c "..").
  - destruct (rev K) as [|top below] eqn:E.
    + apply (f_equal (@rev string)) in E. rewrite rev_involutive in E. by subst K.
    + assert (HK' : K = rev (top :: below)) by (by rewrite <- E, rev_involutive).
      assert (plain top = true) as Ht.
      { rewrite HK' in HK. cbn [rev] in HK. by apply plains_snoc in HK as [_ ?]. }
      apply plain_spec in Ht as (_ & _ & Ht & _).
      apply String.eqb_neq in Ht. rewrite Ht. by rewrite HK', parent_rev_cons.
  - cbn [rev]. by rewrite rev_involutive.
Qed.

(** X8.  Where the chart directory of a valid name is: the name is one
    path element, and the chart directory is the child of that name of the
    directory [dir], except for the two names [.] and [..], which the
    validator accepts too: they make the directory [dir] itself and its
    parent the chart directory. *)
Theorem chart_dir_of_valid_name (chartname dir : string) (w : World) :
  validateChartName chartname = None →
  plains (cwd w) →
  resolve w (chart_dir w dir chartname) =
    if String.eqb chartname "." then resolve w (abs_from (getwd w) dir)
    else if String.eqb chartname ".." then parent (resolve w (abs_from (getwd w) dir))
    else resolve w (abs_from (getwd w) dir) ++ [chartname].
Proof.
  intros Hv HK.
  pose proof (validateChartName_None _ Hv) as [Hlen Hclass].
  pose proof (valid_no_sep _ Hclass) as Hm.
  pose proof (parent_key_plain w dir HK) as HP.
  rewrite chart_dir_render, abs_from_parent_key by done.
  rewrite !resolve_rkey, !rkey_abs by (done || by apply chart_key_plain).
  unfold chart_key. rewrite extend_nosep by done.
  destruct (String.eqb chartname EmptyString) eqn:E; [|done].
  apply String.eqb_eq in E. subst chartname. cbn in Hlen. lia.
Qed.

Lemma chart_dir_of_valid_name_witness :
  resolve w_fresh (chart_dir w_fresh "sub" "..") = ["work"] ∧
  resolve w_fresh (chart_dir w_fresh "sub" "demo") = ["work"; "sub"; "demo"].
Proof.
  split.
  - rewrite (chart_dir_of_valid_name ".." "sub" w_fresh eq_refl w_fresh_plain).
    vm_compute. reflexivity.
  - rewrite (chart_dir_of_valid_name "demo" "sub" w_fresh eq_refl w_fresh_plain).
    vm_compute. reflexivity.
Defined.

(* ----------------------------------------------------------------- *)
(** ** Text without the placeholder *)

Lemma replace_go_absent (n : nat) (s old new : string) :
  strings_Contains s old = false → replace_go n s old new = s.
Proof.
  revert s. induction n as [|n IH]; intros s H; [done|].
  destruct s as [|c s]; [done|]. rewrite replace_go_cons.
  rewrite Contains_cons in H. apply orb_false_iff in H as [-> H].
  by rewrite IH.
Qed.

Lemma transform_absent (src module : string) :
  strings_Contains src marker = false → transform src module = src.
Proof. intros H. unfold transform, strings_ReplaceAll. cbv iota. by apply replace_go_absent. Qed.

(** X9.  Text that went through [transform] for the module [main] is not
    changed by [transform] again, whatever the module: the clone path leaves
    the templates of a chart that it made as they are. *)
Theorem transform_main_once (src module : string) :
  transform (transform src "main") module = transform src "main".
Proof. apply transform_absent, transform_main_resolved. Qed.

(* ----------------------------------------------------------------- *)
(** ** The chart file *)

Lemma sprintf_go_copy (pre rest arg : string) (used : bool) :
  free_of "%"%char pre = true →
  sprintf_go (pre +:+ rest) arg used = pre +:+ sprintf_go rest arg used.
Proof.
  induction pre as [|c pre IH]; intros H; [done|].
  apply free_of_cons in H as [Hc H]. rewrite !app_cons_s. cbn [sprintf_go].
  apply Ascii.eqb_neq in Hc. rewrite Hc. by rewrite IH.
Qed.

Lemma sprintf_go_plain (s arg : string) :
  free_of "%"%char s = true → sprintf_go s arg true = s.
Proof.
  intros H. rewrite <- (app_nil_r_s s) at 1. rewrite sprintf_go_copy by done.
  cbn [sprintf_go sprintf_extra]. apply app_nil_r_s.
Qed.

(** X10.  The content of [Chart.yaml] planned by [getBasefiles]: the
    template [defaultChartfile] with its one verb replaced by the chart
    name, as it is, whatever the name; the rest of the template holds no
    percent sign. *)
Theorem Chartfile_names_the_chart (cdir module chartname : string) :
  defaultChartfile = chartfile_head +:+ "%s" +:+ chartfile_tail ∧
  free_of "%"%char chartfile_head = true ∧ free_of "%"%char chartfile_tail = true ∧
  Exists (fun f => path f = filepath_Join cdir ChartfileName ∧
                   content f = chartfile_head +:+ chartname +:+ chartfile_tail)
         (getBasefiles cdir module chartname).
Proof.
  assert (H1 : defaultChartfile = chartfile_head +:+ "%s" +:+ chartfile_tail)
    by (vm_compute; reflexivity).
  assert (H2 : free_of "%"%char chartfile_head = true) by (vm_compute; reflexivity).
  assert (H3 : free_of "%"%char chartfile_tail = true) by (vm_compute; reflexivity).
  split; [exact H1|]. split; [exact H2|]. split; [exact H3|].
  unfold getBasefiles. apply Exists_cons_tl, Exists_cons_hd. cbn [path content].
  split; [done|]. unfold fmt_Sprintf. rewrite H1.
  generalize chartfile_tail H3. generalize chartfile_head H2. intros h Hh t Ht.
  rewrite sprintf_go_copy by done. f_equal.
  change ("%s" +:+ t) with (String "%"%char (String "s"%char t)).
  cbn [sprintf_go Ascii.eqb Bool.eqb]. f_equal. by apply sprintf_go_plain.
Qed.

(* ----------------------------------------------------------------- *)
(** ** [CreateManifest] in a chart directory *)

Lemma Join1_render (K : list string) : plains K → filepath_Join1 (render K) = render K.
Proof.
  intros HK. unfold filepath_Join1.
  assert (render K = String "/"%char (path_concat K)) as E by done.
  rewrite E at 1. rewrite Clean_abs by apply IsAbs_render. by rewrite clean_render.
Qed.

Lemma manifest_elem_plain (manifest name : string) :
  has_sep manifest = false → has_sep name = false →
  plain (name +:+ "_" +:+ manifest +:+ ".yaml") = true.
Proof.
  intros Hm Hn. apply plain_long.
  - rewrite !has_sep_app, Hm, Hn. done.
  - rewrite !length_app_s. cbn. lia.
Qed.

Lemma manifest_path_render (K : list string) (manifest name : string) :
  plains K → has_sep manifest = false → has_sep name = false →
  manifest_path (render K) manifest name
  = render (K ++ ["templates"; name +:+ "_" +:+ manifest +:+ ".yaml"]).
Proof.
  intros HK Hm Hn. unfold manifest_path.
  apply (Join_abs K ["templates"; name +:+ "_" +:+ manifest +:+ ".yaml"]); [done| |done].
  repeat constructor. by apply manifest_elem_plain.
Qed.

Section ManifestRun.
Context {V : Type}.
Variable loader_Load : string → M (result (Chart V)).

(** [CreateManifest] after its checks, in a chart directory. *)
Lemma CreateManifest_checks (manifest name : string) (schart : Chart V) (w : World) :
  loader_Load (getwd w) w = (Ok schart, w) →
  validateChartName (Chart_Name schart) = None →
  plains (cwd w) →
  node_at (fs w) (cwd w) = Some Dir →
  has_sep manifest = false → has_sep name = false →
  let key := cwd w ++ ["templates"; name +:+ "_" +:+ manifest +:+ ".yaml"] in
  let c := transformManifestName (manifest_content (manifests_index manifest))
                                 (Chart_Name schart) name in
  let v := transformManifestName (manifest_values (manifests_index manifest))
                                 (Chart_Name schart) name in
  CreateManifest loader_Load manifest name w =
    (st3 <- os_Stat (render key) ;;
     (match st3 with
      | Ok _ => Fprintf_Stderr (WarnOverwrite (render key))
      | Err _ => ret tt
      end) ;;;
     e <- writeFile (render key) c ;;
     match e with
     | Some err => ret (render (cwd w), Some err)
     | None =>
         r <- os_OpenFile_append (render (cwd w ++ ["values.yaml"])) ;;
         let '(f, err) := r in
         (match err with
          | Some err => Fprintf_Stderr (LogPrintln err)
          | None => ret tt
          end) ;;;
         e <- File_Write f v ;;
         (match e with
          | Some err => Fprintf_Stderr (LogPrintln err)
          | None => ret tt
          end) ;;;
         ret (render (cwd w), @None error)
     end) (with_call (CallStat (render (cwd w))) (with_call (CallStat (render (cwd w))) w)).
Proof using Type.
  intros Hl Hv HK Hdir Hm Hn key c v.
  assert (Hvn : filepath_Join (render (cwd w)) ValuesfileName
                = render (cwd w ++ ["values.yaml"]))
    by (by apply (Join_abs (cwd w) ["values.yaml"]); [|repeat constructor|]).
  rewrite getwd_render in Hl.
  unfold CreateManifest. unfold bind at 1. unfold os_Getwd. rewrite getwd_render.
  unfold bind at 1. rewrite Hl. rewrite Hv.
  unfold bind at 1. rewrite os_Stat_eq. rewrite rkey_abs by done. rewrite Hdir.
  cbn [IsDir negb]. cbv zeta. rewrite Join1_render by done.
  unfold bind at 1. rewrite os_Stat_eq. cbn [fs cwd with_call].
  rewrite rkey_abs by done. rewrite Hdir.
  cbn [path content]. fold (manifest_path (render (cwd w)) manifest name).
  rewrite manifest_path_render by done. by rewrite Hvn.
Qed.

(** X11.  [CreateManifest] in a chart directory, without failure: the
    chart loads, its name is valid, the kind and the name of the manifest
    hold no separator, the manifest file can be written and the values file
    is a writable file.  Then the manifest file [templates/NAME_KIND.yaml] of
    the working directory holds the content of the kind in the registry, and
    the values file holds its former bytes followed by the values of the
    kind, both with the placeholders of the manifest name and of the chart
    name replaced; a warning is printed when the manifest file was there
    before, and the working directory is returned with no error. *)
Theorem CreateManifest_writes (manifest name d : string) (schart : Chart V) (w : World) :
  loader_Load (getwd w) w = (Ok schart, w) →
  validateChartName (Chart_Name schart) = None →
  plains (cwd w) →
  node_of w (getwd w) = Some Dir →
  has_sep manifest = false → has_sep name = false →
  writable_name w (manifest_path (getwd w) manifest name) →
  node_of w (filepath_Join (getwd w) ValuesfileName) = Some (File true d) →
  ∃ w',
    CreateManifest loader_Load manifest name w = ((getwd w, None), w') ∧
    resolve w (manifest_path (getwd w) manifest name)
    = cwd w ++ ["templates"; name +:+ "_" +:+ manifest +:+ ".yaml"] ∧
    written w' (manifest_path (getwd w) manifest name)
      (transformManifestName (manifest_content (manifests_index manifest))
                             (Chart_Name schart) name) ∧
    written w' (filepath_Join (getwd w) ValuesfileName)
      (d +:+ transformManifestName (manifest_values (manifests_index manifest))
                                   (Chart_Name schart) name) ∧
    Stderr w' = Stderr w ++ match node_of w (manifest_path (getwd w) manifest name) with
                            | Some _ => [WarnOverwrite (manifest_path (getwd w) manifest name)]
                            | None => []
                            end.
Proof using Type.
  intros Hl Hv HK Hdir Hm Hn Hw Hvals.
  assert (Hdir' : node_at (fs w) (cwd w) = Some Dir)
    by (by rewrite getwd_render, node_of_render in Hdir).
  rewrite (CreateManifest_checks manifest name schart w Hl Hv HK Hdir' Hm Hn). cbv zeta.
  clear Hl Hdir.
  set (K := cwd w) in *. set (elem := name +:+ "_" +:+ manifest +:+ ".yaml").
  set (key := K ++ ["templates"; elem]).
  set (c := transformManifestName (manifest_content (manifests_index manifest))
                                  (Chart_Name schart) name).
  set (v := transformManifestName (manifest_values (manifests_index manifest))
                                  (Chart_Name schart) name).
  assert (Hpl : plains ["templates"; elem])
    by (repeat constructor; by apply manifest_elem_plain).
  assert (Hkp : plains key) by (by apply Forall_app).
  assert (Hvp : plains (K ++ ["values.yaml"])) by (apply Forall_app; by repeat constructor).
  rewrite getwd_render in *. fold K in Hw, Hvals |- *.
  rewrite manifest_path_render in * by done. fold elem key in Hw |- *.
  assert (Hvn : filepath_Join (render K) ValuesfileName = render (K ++ ["values.yaml"]))
    by (by apply (Join_abs K ["values.yaml"]); [|repeat constructor|]).
  rewrite Hvn in *. rewrite node_of_render in Hvals by done.
  rewrite node_at_lookup in Hvals by (by destruct K).
  unfold writable_name in Hw. rewrite resolve_rkey, rkey_abs in Hw by done.
  assert (Hkv : key ≠ K ++ ["values.yaml"]).
  { unfold key. intros E. apply app_inv_head in E. discriminate E. }
  assert (Hv1 : write_at (fs w) (key, c) !! (K ++ ["values.yaml"]) = Some (File true d)).
  { rewrite write_at_lookup_ne by done. apply mkdirs_keeps; [|done].
    by apply writable_at_spec in Hw as (_ & ? & _). }
  assert (Hrun : ∀ w0 : World, fs w0 = fs w → cwd w0 = K →
    (e <- writeFile (render key) c ;;
     match e with
     | Some err => ret (render K, Some err)
     | None =>
         r <- os_OpenFile_append (render (K ++ ["values.yaml"])) ;;
         let '(f, err) := r in
         (match err with
          | Some err => Fprintf_Stderr (LogPrintln err)
          | None => ret tt
          end) ;;;
         e <- File_Write f v ;;
         (match e with
          | Some err => Fprintf_Stderr (LogPrintln err)
          | None => ret tt
          end) ;;;
         ret (render K, @None error)
     end) w0
    = ((render K, None),
       mkWorld (<[K ++ ["values.yaml"] := File true (d +:+ v)]> (write_at (fs w) (key, c)))
               K (Stderr w0)
               (((calls w0 ++ [CallMkdirAll (filepath_Dir (render key)); CallWriteFile (render key)])
                   ++ [CallOpenFile (render (K ++ ["values.yaml"]))])
                  ++ [CallWrite (K ++ ["values.yaml"])]))).
  { intros w0 Hfs Hcwd. unfold bind at 1.
    rewrite writeFile_ok; rewrite ?Hfs, ?Hcwd, ?rkey_abs by done; [| |done].
    2:{ unfold key. rewrite (rkey_Dir_abs K K ["templates"; elem]) by done. done. }
    unfold bind at 1. unfold os_OpenFile_append. rewrite resolve_rkey.
    cbn [fs cwd Stderr calls with_call]. rewrite rkey_abs by done.
    rewrite node_at_lookup by (by destruct K). rewrite Hv1.
    unfold bind at 1. unfold ret at 1. unfold bind at 1.
    unfold File_Write. cbn [fs cwd Stderr calls with_call]. rewrite Hv1.
    unfold bind, ret, with_fs, with_call. cbn [fs cwd Stderr calls]. done. }
  unfold bind at 1. rewrite os_Stat_eq. cbn [fs cwd with_call]. fold K.
  rewrite rkey_abs by done. rewrite (node_of_render w key) by done.
  assert (Hres : resolve w (render key) = key) by (by rewrite resolve_rkey, rkey_abs).
  assert (Hend : ∀ w0 : World, cwd w0 = K →
            fs w0 = <[K ++ ["values.yaml"] := File true (d +:+ v)]> (write_at (fs w) (key, c)) →
            written w0 (render key) c ∧ written w0 (render (K ++ ["values.yaml"])) (d +:+ v)).
  { intros w0 Hc0 Hf0. unfold written.
    rewrite !node_of_render by (by rewrite ?Hc0). rewrite Hf0.
    rewrite !node_at_lookup by (by destruct K).
    rewrite lookup_insert_ne by done. rewrite lookup_insert_eq.
    by rewrite write_at_lookup_eq. }
  destruct (node_at (fs w) key) as [x|] eqn:E.
  - eexists. split.
    { destruct x; unfold bind at 1; unfold Fprintf_Stderr at 1; rewrite Hrun by done;
        reflexivity. }
    split; [done|]. destruct (Hend (mkWorld
       (<[K ++ ["values.yaml"] := File true (d +:+ v)]> (write_at (fs w) (key, c))) K [] []))
      as [H1 H2]; [done..|].
    split; [exact H1|]. split; [exact H2|]. done.
  - eexists. split.
    { unfold bind at 1; unfold ret at 1; rewrite Hrun by done; reflexivity. }
    split; [done|]. destruct (Hend (mkWorld
       (<[K ++ ["values.yaml"] := File true (d +:+ v)]> (write_at (fs w) (key, c))) K [] []))
      as [H1 H2]; [done..|].
    split; [exact H1|]. split; [exact H2|]. cbn [Stderr with_call]. by rewrite app_nil_r.
Qed.

(** X15.  [CreateManifest], unlike [Create], returns the error of the
    write of its file: when the name of the manifest file is a directory or
    a read-only file, the warning about the overwriting is printed, the
    error of the write is returned with the working directory, and the
    values file is not touched. *)
Theorem CreateManifest_returns_write_error (manifest name : string) (x : node)
    (schart : Chart V) (w : World) :
  loader_Load (getwd w) w = (Ok schart, w) →
  validateChartName (Chart_Name schart) = None →
  plains (cwd w) →
  node_of w (getwd w) = Some Dir →
  has_sep manifest = false → has_sep name = false →
  makable_dir w (filepath_Dir (manifest_path (getwd w) manifest name)) →
  node_of w (manifest_path (getwd w) manifest name) = Some x →
  (x = Dir ∨ ∃ d, x = File false d) →
  ∃ w',
    CreateManifest loader_Load manifest name w
    = ((getwd w,
        Some (match x with
              | Dir => EISDIR (manifest_path (getwd w) manifest name)
              | File _ _ => EACCES (manifest_path (getwd w) manifest name)
              end)), w') ∧
    node_of w' (manifest_path (getwd w) manifest name) = Some x ∧
    node_of w' (filepath_Join (getwd w) ValuesfileName)
    = node_of w (filepath_Join (getwd w) ValuesfileName) ∧
    Stderr w' = Stderr w ++ [WarnOverwrite (manifest_path (getwd w) manifest name)].
Proof using Type.
  intros Hl Hv HK Hdir Hm Hn Hmk Hx Hcase.
  assert (Hdir' : node_at (fs w) (cwd w) = Some Dir)
    by (by rewrite getwd_render, node_of_render in Hdir).
  rewrite (CreateManifest_checks manifest name schart w Hl Hv HK Hdir' Hm Hn). cbv zeta.
  clear Hl Hdir.
  set (K := cwd w) in *. set (elem := name +:+ "_" +:+ manifest +:+ ".yaml").
  set (key := K ++ ["templates"; elem]).
  set (c := transformManifestName (manifest_content (manifests_index manifest))
                                  (Chart_Name schart) name).
  assert (Hpl : plains ["templates"; elem])
    by (repeat constructor; by apply manifest_elem_plain).
  assert (Hkp : plains key) by (by apply Forall_app).
  assert (Hvp : plains (K ++ ["values.yaml"])) by (apply Forall_app; by repeat constructor).
  rewrite getwd_render in *. fold K in Hmk, Hx |- *.
  rewrite manifest_path_render in * by done. fold elem key in Hmk, Hx |- *.
  assert (Hvn : filepath_Join (render K) ValuesfileName = render (K ++ ["values.yaml"]))
    by (by apply (Join_abs K ["values.yaml"]); [|repeat constructor|]).
  rewrite Hvn in *. rewrite node_of_render in Hx by done.
  assert (Hkne : key ≠ []) by (unfold key; by destruct K).
  rewrite node_at_lookup in Hx by done.
  assert (Hdk : rkey K (filepath_Dir (render key)) = parent key)
    by (unfold key; by rewrite (rkey_Dir_abs K K ["templates"; elem])).
  unfold makable_dir in Hmk. rewrite resolve_rkey in Hmk. fold K in Hmk. rewrite Hdk in Hmk.
  assert (Hfail : ∀ w0 : World, fs w0 = fs w → cwd w0 = K →
    writeFile (render key) c w0
    = (Some (match x with
             | Dir => EISDIR (render key)
             | File _ _ => EACCES (render key)
             end),
       mkWorld (mkdirs (parent key) (fs w)) K (Stderr w0)
               (calls w0 ++ [CallMkdirAll (filepath_Dir (render key));
                             CallWriteFile (render key)]))).
  { intros w0 Hfs Hcwd. unfold writeFile. unfold bind at 1.
    rewrite os_MkdirAll_ok; rewrite ?Hfs, ?Hcwd, ?Hdk; [|done].
    unfold ioutil_WriteFile. rewrite resolve_rkey. cbn [fs cwd Stderr calls with_fs with_call].
    rewrite Hcwd, rkey_abs by done. rewrite node_at_lookup by done.
    rewrite (mkdirs_keeps _ _ _ x Hmk Hx).
    destruct Hcase as [->|[d ->]]; unfold with_call, with_fs; cbn [fs cwd Stderr calls];
      rewrite Hcwd, <- app_assoc; reflexivity. }
  unfold bind at 1. rewrite os_Stat_eq. cbn [fs cwd with_call]. fold K.
  rewrite rkey_abs by done. rewrite node_at_lookup by done. rewrite Hx.
  eexists. split.
  { destruct x; unfold bind at 1; unfold Fprintf_Stderr at 1; unfold bind at 1;
      rewrite Hfail by done; reflexivity. }
  unfold node_of. cbn [fs cwd Stderr calls with_diag with_call].
  rewrite !resolve_rkey. cbn [cwd]. fold K. rewrite !rkey_abs by done.
  rewrite !node_at_lookup by (done || by destruct K).
  split; [by apply mkdirs_keeps|]. split; [|done].
  apply mkdirs_frame; [done|]. intros Hp.
  pose proof (parent_prefix key) as Hpk.
  assert (K ++ ["values.yaml"] `prefix_of` key) as Hpre by (by etrans).
  unfold key in Hpre. apply prefix_app_inv in Hpre.
  apply prefix_cons_inv_1 in Hpre. discriminate Hpre.
Qed.
End ManifestRun.

Lemma CreateManifest_writes_witness :
  ∃ w', CreateManifest demo_Load "ingress" "web" w_chart = ((getwd w_chart, None), w') ∧
        written w' (manifest_path (getwd w_chart) "ingress" "web")
                (transformManifestName ingress "demo" "web") ∧
        written w' (filepath_Join (getwd w_chart) ValuesfileName)
                ("replicas: 1" +:+ transformManifestName ingressValues "demo" "web").
Proof.
  destruct (CreateManifest_writes demo_Load "ingress" "web" "replicas: 1"
              (mkChart (Some {| MetadataName := "demo" |}) [] [] tt) w_chart)
    as (w' & Hc & _ & H1 & H2 & _).
  - reflexivity.
  - reflexivity.
  - exact w_chart_plain.
  - vm_compute; reflexivity.
  - reflexivity.
  - reflexivity.
  - vm_compute; reflexivity.
  - vm_compute; reflexivity.
  - exists w'. split; [exact Hc|]. split; [exact H1|exact H2].
Defined.

Lemma w_manifest_dir_plain : plains (cwd w_manifest_dir).
Proof. by repeat constructor. Qed.

Lemma CreateManifest_returns_write_error_witness :
  ∃ w', CreateManifest demo_Load "ingress" "web" w_manifest_dir
        = ((getwd w_manifest_dir,
            Some (EISDIR (manifest_path (getwd w_manifest_dir) "ingress" "web"))), w') ∧
        node_of w' (filepath_Join (getwd w_manifest_dir) ValuesfileName)
        = node_of w_manifest_dir (filepath_Join (getwd w_manifest_dir) ValuesfileName).
Proof.
  destruct (CreateManifest_returns_write_error demo_Load "ingress" "web" Dir
              (mkChart (Some {| MetadataName := "demo" |}) [] [] tt) w_manifest_dir)
    as (w' & Hc & _ & Hv & _).
  - reflexivity.
  - reflexivity.
  - exact w_manifest_dir_plain.
  - vm_compute; reflexivity.
  - reflexivity.
  - reflexivity.
  - vm_compute; reflexivity.
  - vm_compute; reflexivity.
  - by left.
  - exists w'. split; [exact Hc|exact Hv].
Defined.

(* ----------------------------------------------------------------- *)
(** ** The equations of [strings.ReplaceAll] *)

Section ReplaceAll.
Variable o : ascii.
Variable old' : string.
Let old : string := String o old'.

Lemma replace_go_fuel (new : string) (n m : nat) (s : string) :
  String.length s ≤ n → String.length s ≤ m →
  replace_go n s old new = replace_go m s old new.
Proof.
  revert m s. induction n as [|n IH]; intros m s Hn Hm.
  - destruct s; [by destruct m|cbn in Hn; lia].
  - destruct s as [|c s]; [by destruct m|]. destruct m as [|m]; [cbn in Hm; lia|].
    cbn [String.length] in Hn, Hm. rewrite !replace_go_cons.
    destruct (String.prefix old (String c s)).
    + f_equal. apply IH.
      * pose proof (length_string_drop (String.length old') s). unfold old.
        cbn [String.length string_drop]. lia.
      * pose proof (length_string_drop (String.length old') s). unfold old.
        cbn [String.length string_drop]. lia.
    + f_equal. apply IH; lia.
Qed.

Lemma ReplaceAll_hit (new : string) (c : ascii) (s : string) :
  String.prefix old (String c s) = true →
  strings_ReplaceAll (String c s) old new
  = new +:+ strings_ReplaceAll (string_drop (String.length old) (String c s)) old new.
Proof.
  intros H. unfold strings_ReplaceAll, old at 1 3. cbv iota. fold old.
  cbn [String.length]. rewrite replace_go_cons, H. f_equal.
  apply replace_go_fuel; [|done].
  pose proof (length_string_drop (String.length old') s). unfold old.
  cbn [String.length string_drop]. lia.
Qed.

Lemma ReplaceAll_miss (new : string) (c : ascii) (s : string) :
  String.prefix old (String c s) = false →
  strings_ReplaceAll (String c s) old new = String c (strings_ReplaceAll s old new).
Proof.
  intros H. unfold strings_ReplaceAll, old at 1 3. cbv iota. fold old.
  cbn [String.length]. by rewrite replace_go_cons, H.
Qed.

Lemma ReplaceAll_copy (new pre rest : string) :
  free_of o pre = true →
  strings_ReplaceAll (pre +:+ rest) old new = pre +:+ strings_ReplaceAll rest old new.
Proof.
  intros H. unfold strings_ReplaceAll, old at 1 3. cbv iota. fold old.
  by apply replace_go_copy.
Qed.
End ReplaceAll.

(* ----------------------------------------------------------------- *)
(** ** The placeholders of the manifest generator *)

Lemma prefix_split (p s : string) :
  String.prefix p s = true → s = p +:+ string_drop (String.length p) s.
Proof.
  revert s. induction p as [|a p IH]; intros s H; [done|].
  destruct s as [|c s]; [done|]. rewrite prefix_cons_s in H.
  apply andb_true_iff in H as [Ha H]. apply bool_decide_eq_true in Ha. subst c.
  rewrite app_cons_s. cbn [String.length string_drop]. f_equal. by apply IH.
Qed.

Lemma string_drop_app_0 (a s : string) : string_drop (String.length a) (a +:+ s) = s.
Proof. rewrite <- (Nat.add_0_r (String.length a)). by rewrite string_drop_app. Qed.

Lemma no_lt_nil : no_lt EmptyString = true.
Proof. done. Qed.

(** Both placeholders resolved: no opening angle bracket is left. *)
Lemma marks_only_resolved (chartname manifestName : string) (fuel : nat) (s : string) :
  no_lt chartname = true → no_lt manifestName = true →
  marks_only fuel s = true →
  no_lt (transformManifestName s chartname manifestName) = true.
Proof.
  intros Hc Hn. unfold transformManifestName. revert s.
  induction fuel as [|fuel IH]; intros s H.
  - by destruct s.
  - destruct s as [|c s]; [done|]. cbn [marks_only] in H.
    destruct (String.prefix manifest_marker (String c s)) eqn:E1.
    + rewrite (ReplaceAll_hit "<"%char "MANIFEST_NAME>") by exact E1.
      rewrite (ReplaceAll_copy "<"%char "CHARTNAME>") by (by rewrite <- no_lt_free_of).
      rewrite no_lt_app, Hn. by apply IH.
    + destruct (String.prefix chartname_marker (String c s)) eqn:E2.
      * pose proof (prefix_split _ _ E2) as Hs.
        remember (string_drop (String.length chartname_marker) (String c s)) as t eqn:Et.
        clear Et E2.
        assert (c = "<"%char ∧ s = "CHARTNAME>" +:+ t) as [-> ->].
        { unfold chartname_marker in Hs. rewrite app_cons_s in Hs. by injection Hs as -> ->. }
        clear Hs.
        rewrite (ReplaceAll_miss "<"%char "MANIFEST_NAME>") by exact E1.
        rewrite (ReplaceAll_copy "<"%char "MANIFEST_NAME>") by done.
        rewrite <- app_cons_s.
        change (String "<" "CHARTNAME>") with chartname_marker.
        assert (Hhit : ∀ r, String.prefix chartname_marker (chartname_marker +:+ r) = true)
          by (intros r; apply prefix_app_s).
        specialize (IH t H).
        generalize dependent (strings_ReplaceAll t "<MANIFEST_NAME>" manifestName).
        intros r Hr.
        assert (chartname_marker +:+ r = String "<"%char ("CHARTNAME>" +:+ r)) as Ecm by done.
        rewrite Ecm. rewrite (ReplaceAll_hit "<"%char "CHARTNAME>");
          [|rewrite <- Ecm; apply Hhit].
        rewrite <- Ecm.
        change (String "<" "CHARTNAME>") with chartname_marker.
        rewrite string_drop_app_0. by rewrite no_lt_app, Hc.
      * apply andb_true_iff in H as [Hlt H].
        rewrite (ReplaceAll_miss "<"%char "MANIFEST_NAME>") by exact E1.
        rewrite (ReplaceAll_miss "<"%char "CHARTNAME>").
        -- rewrite no_lt_cons, Hlt. by apply IH.
        -- apply prefix_first_ne. intros ->. done.
Qed.

Lemma manifest_templates_marks :
  Forall (fun t => marks_only (String.length t) t = true) manifest_templates.
Proof. repeat constructor; vm_compute; reflexivity. Qed.

(** X12.  The registry of the manifest generator holds the six templates
    of [manifest_templates], and every opening angle bracket in them starts
    one of the two placeholders.  So for a chart name that the validator
    accepts and a manifest name without an opening angle bracket,
    [transformManifestName] leaves no placeholder, and no opening angle
    bracket at all, in the content and in the values of any kind of the
    registry. *)
Theorem manifest_placeholders_resolved (kind chartname manifestName : string) (mf : Manifest) :
  manifests !! kind = Some mf →
  validateChartName chartname = None →
  no_lt manifestName = true →
  manifest_content mf ∈ manifest_templates ∧ manifest_values mf ∈ manifest_templates ∧
  ∀ t, t = manifest_content mf ∨ t = manifest_values mf →
       no_lt (transformManifestName t chartname manifestName) = true ∧
       strings_Contains (transformManifestName t chartname manifestName) manifest_marker = false ∧
       strings_Contains (transformManifestName t chartname manifestName) chartname_marker = false.
Proof.
  intros Hk Hv Hn.
  assert (Hin : manifest_content mf ∈ manifest_templates ∧
                manifest_values mf ∈ manifest_templates).
  { unfold manifests in Hk.
    destruct (decide (kind = "ingress")) as [->|H1].
    { rewrite lookup_insert_eq in Hk. injection Hk as <-. cbn [manifest_content manifest_values].
      unfold manifest_templates. split; [by left|by right; left]. }
    rewrite lookup_insert_ne in Hk by done.
    destruct (decide (kind = "service")) as [->|H2].
    { rewrite lookup_insert_eq in Hk. injection Hk as <-. cbn [manifest_content manifest_values].
      unfold manifest_templates. split; [by right; right; left|by right; right; right; left]. }
    rewrite lookup_insert_ne in Hk by done.
    destruct (decide (kind = "deployment")) as [->|H3].
    { rewrite lookup_insert_eq in Hk. injection Hk as <-. cbn [manifest_content manifest_values].
      unfold manifest_templates. split; [by do 4 right; left|by do 5 right; left]. }
    rewrite lookup_insert_ne in Hk by done. by rewrite lookup_empty in Hk. }
  split; [apply Hin|]. split; [apply Hin|].
  pose proof (validateChartName_None _ Hv) as [_ Hclass].
  pose proof (valid_no_lt _ Hclass) as Hc.
  intros t Ht.
  assert (t ∈ manifest_templates) as Htin by (by destruct Ht as [-> | ->]; apply Hin).
  pose proof manifest_templates_marks as Hall. rewrite Forall_forall in Hall.
  pose proof (marks_only_resolved chartname manifestName _ t Hc Hn (Hall t Htin)) as Hres.
  split; [exact Hres|]. rewrite no_lt_free_of in Hres.
  split.
  - by apply (free_of_Contains "<"%char "MANIFEST_NAME>").
  - by apply (free_of_Contains "<"%char "CHARTNAME>").
Qed.

Lemma manifest_placeholders_resolved_witness :
  no_lt (transformManifestName ingress "demo" "web") = true ∧
  no_lt (transformManifestName ingressValues "demo" "web") = true.
Proof.
  destruct (manifest_placeholders_resolved "ingress" "demo" "web"
              {| manifest_content := ingress; manifest_values := ingressValues |})
    as (_ & _ & H).
  - vm_compute. reflexivity.
  - reflexivity.
  - reflexivity.
  - split; [apply (H ingress)|apply (H ingressValues)]; [by left|by right].
Defined.


(* ----------------------------------------------------------------- *)
(** ** The effect of [writeFile] and the errors of [Create] *)

Lemma mkdirAll_go_made (name : string) (rp : list string) (m m' : gmap (list string) node) :
  mkdirAll_go name rp m = (m', None) →
  node_at m' (rev rp) = Some Dir ∧ ∀ k x, m !! k = Some x → m' !! k = Some x.
Proof.
  revert name m'. induction rp as [|c rp IH]; intros name m'.
  - intros [= <-]. by split.
  - cbn [mkdirAll_go].
    assert (Hne : rev (c :: rp) ≠ []).
    { cbn [rev]. intros E. by apply app_eq_nil in E as [_ E]. }
    destruct (m !! rev (c :: rp)) as [[]|] eqn:E; [by intros [=]| |].
    + intros [= <-]. split; [|done]. by rewrite node_at_lookup.
    + destruct (mkdirAll_go (mkdir_parent name) rp m) as [m1 [err|]] eqn:Em;
        [by intros [=]|].
      intros [= <-]. destruct (IH _ m1 Em) as [_ Hk]. split.
      * rewrite node_at_lookup by done. by rewrite lookup_insert_eq.
      * intros k x Hx. destruct (decide (k = rev (c :: rp))) as [->|Hkne].
        { rewrite E in Hx. discriminate Hx. }
        rewrite lookup_insert_ne by done. by apply Hk.
Qed.

(** X13.  A call of [writeFile] that returns no error: the name holds the
    given bytes and nothing of what it held before, the directory of the name
    is a directory, every other name that existed is there with the node it
    had, and nothing was printed. *)
Theorem writeFile_effect (name c : string) (w w' : World) :
  writeFile name c w = (None, w') →
  written w' name c ∧
  node_of w' (filepath_Dir name) = Some Dir ∧
  (∀ k x, k ≠ resolve w name → fs w !! k = Some x → fs w' !! k = Some x) ∧
  Stderr w' = Stderr w.
Proof.
  unfold writeFile, bind, os_MkdirAll.
  destruct (mkdirAll_go (filepath_Dir name) (rev (resolve w (filepath_Dir name))) (fs w))
    as [m' [e|]] eqn:Em; [by intros [=]|].
  apply mkdirAll_go_made in Em as [Hd Hk]. rewrite rev_involutive in Hd.
  unfold ioutil_WriteFile.
  change (resolve (with_fs m' (with_call (CallMkdirAll (filepath_Dir name)) w)) name)
    with (resolve w name).
  change (fs (with_fs m' (with_call (CallMkdirAll (filepath_Dir name)) w))) with m'.
  set (p := resolve w name). set (q := resolve w (filepath_Dir name)) in *.
  assert (Hin : ∀ w0, cwd w0 = cwd w → node_at m' p ≠ Some Dir →
    let w1 := with_fs (<[p := File true c]> m') w0 in
    written w1 name c ∧ node_of w1 (filepath_Dir name) = Some Dir ∧
    (∀ k x, k ≠ p → fs w !! k = Some x → fs w1 !! k = Some x)).
  { intros w0 H0 Hp w1.
    assert (p ≠ []) as Hpne by (intros E; by rewrite E in Hp).
    assert (resolve w1 name = p) as Ep by (unfold p; rewrite !resolve_rkey; by rewrite <- H0).
    assert (resolve w1 (filepath_Dir name) = q) as Eq
      by (unfold q; rewrite !resolve_rkey; by rewrite <- H0).
    unfold written, node_of. rewrite Ep, Eq. cbn [fs w1 with_fs].
    split; [by rewrite node_at_lookup, lookup_insert_eq|]. split.
    - destruct (decide (p = q)) as [Epq|Hpq]; [by rewrite Epq in Hp|].
      destruct q as [|a q']; [done|]. rewrite node_at_lookup in Hd |- * by done.
      by rewrite lookup_insert_ne.
    - intros k x Hne Hx. rewrite lookup_insert_ne by done. by apply Hk. }
  destruct (node_at m' p) as [[[] d|]|] eqn:E; try by intros [=].
  - intros [= <-].
    destruct (Hin (with_call (CallWriteFile name)
                     (with_fs m' (with_call (CallMkdirAll (filepath_Dir name)) w))))
      as (H1 & H2 & H3); [done|done|]. done.
  - destruct (node_at m' (parent p)) as [[]|]; try by intros [=].
    intros [= <-].
    destruct (Hin (with_call (CallWriteFile name)
                     (with_fs m' (with_call (CallMkdirAll (filepath_Dir name)) w))))
      as (H1 & H2 & H3); [done|done|]. done.
Qed.

Lemma writeFile_effect_witness :
  written (snd (writeFile "a/b/c.txt" "x" w_fresh)) "a/b/c.txt" "x" ∧
  node_of (snd (writeFile "a/b/c.txt" "x" w_fresh)) "a/b" = Some Dir.
Proof.
  assert (He : fst (writeFile "a/b/c.txt" "x" w_fresh) = None) by (vm_compute; reflexivity).
  assert (H : writeFile "a/b/c.txt" "x" w_fresh
              = (None, snd (writeFile "a/b/c.txt" "x" w_fresh))).
  { rewrite <- He. by destruct (writeFile "a/b/c.txt" "x" w_fresh). }
  destruct (writeFile_effect "a/b/c.txt" "x" w_fresh _ H) as (H1 & H2 & _).
  split; [exact H1|exact H2].
Defined.



(* ----------------------------------------------------------------- *)
(** ** The files of two modules *)

Lemma string_app_inv_tail (a b s : string) : a +:+ s = b +:+ s → a = b.
Proof.
  intros E. apply chars_inj. apply (f_equal chars) in E. rewrite !chars_app in E.
  by apply app_inv_tail in E.
Qed.

Lemma file_elems_disjoint (m m' : string) (e : list string) :
  m ≠ m' → e ∈ file_elems m → e ∉ file_elems m'.
Proof.
  intros Hne He He'. unfold file_elems in *.
  repeat (apply elem_of_cons in He as [->|He]); try (by apply elem_of_nil in He);
  repeat (apply elem_of_cons in He' as [He'|He']); try (by apply elem_of_nil in He');
  try discriminate He'.
  all: injection He' as E; revert E.
  all: try (by intros E%string_app_inv_tail).
  all: try (by rewrite !app_nil_l_s; intros E%string_app_inv_tail).
  all: apply (neq_by_tail 10); rewrite <- ?(app_assoc_s "_" m), <- ?(app_assoc_s "_" m');
    by rewrite !tail_of_app by (simpl; lia).
Qed.

(** X16.  Two different valid module names share no file: in add-module
    mode no file planned by [getFiles] for one module has the name of a
    file planned for the other one, so adding a module never overwrites the
    files of another module. *)
Theorem modules_share_no_file (m m' : string) (w : World) (f f' : ManifestFile) :
  validateChartName m = None → validateChartName m' = None → m ≠ m' →
  plains (cwd w) →
  f ∈ getFiles EmptyString m → f' ∈ getFiles EmptyString m' →
  resolve w (path f) ≠ resolve w (path f').
Proof.
  intros Hv Hv' Hne HK Hf Hf' E.
  pose proof (validateChartName_None _ Hv) as [_ Hc].
  pose proof (validateChartName_None _ Hv') as [_ Hc'].
  pose proof (add_module_keys (cwd w) m HK (valid_no_sep _ Hc)) as Hk.
  pose proof (add_module_keys (cwd w) m' HK (valid_no_sep _ Hc')) as Hk'.
  apply (plan_key_in (cwd w)) in Hf, Hf'. rewrite Hk in Hf. rewrite Hk' in Hf'.
  apply list_elem_of_fmap in Hf as [e [He Hin]].
  apply list_elem_of_fmap in Hf' as [e' [He' Hin']].
  rewrite !resolve_rkey, He, He' in E. apply app_inv_head in E. subst e'.
  by apply (file_elems_disjoint m m' e).
Qed.

Lemma modules_share_no_file_witness :
  Forall (fun f => Forall (fun f' => resolve w_chart (path f) ≠ resolve w_chart (path f'))
                          (getFiles EmptyString "db"))
         (getFiles EmptyString "cache").
Proof.
  apply Forall_forall. intros f Hf. apply Forall_forall. intros f' Hf'.
  apply (modules_share_no_file "cache" "db" w_chart f f' eq_refl eq_refl);
    [discriminate|exact w_chart_plain|exact Hf|exact Hf'].
Defined.

(* ----------------------------------------------------------------- *)
(** ** C7: the clone path *)

Lemma Contains_nil (sub : string) :
  strings_Contains EmptyString sub = String.prefix sub EmptyString.
Proof. cbn [strings_Contains]. apply orb_false_r. Qed.

Lemma Contains_app_r (a b sub : string) :
  strings_Contains b sub = true → strings_Contains (a +:+ b) sub = true.
Proof.
  intros H. induction a as [|x a IH]; [done|].
  rewrite app_cons_s, Contains_cons, IH. apply orb_true_r.
Qed.

(** [transform] keeps every occurrence of the chart-name placeholder:
    the two placeholders cannot overlap, and the scan copies what it does
    not replace. *)
Lemma transform_keeps_chart_marker_go (new : string) (n : nat) (s : string) :
  String.length s ≤ n →
  strings_Contains s chartname_marker = true →
  strings_Contains (transform s new) chartname_marker = true.
Proof.
  unfold transform. revert s. induction n as [|n IH]; intros s Hlen Hc.
  - destruct s as [|c s]; [by rewrite Contains_nil in Hc|cbn in Hlen; lia].
  - destruct s as [|c s]; [by rewrite Contains_nil in Hc|]. cbn [String.length] in Hlen.
    destruct (String.prefix "<MODULE_NAME>" (String c s)) eqn:E1.
    + rewrite (ReplaceAll_hit "<"%char "MODULE_NAME>") by exact E1.
      pose proof (prefix_split _ _ E1) as Hs.
      remember (string_drop (String.length "<MODULE_NAME>") (String c s)) as t eqn:Et.
      apply Contains_app_r, IH.
      * rewrite Et.
        change (string_drop (String.length "<MODULE_NAME>") (String c s))
          with (string_drop 12 s).
        pose proof (length_string_drop 12 s). lia.
      * rewrite Hs in Hc.
        change ("<MODULE_NAME>" +:+ t) with (String "<"%char ("MODULE_NAME>" +:+ t)) in Hc.
        rewrite Contains_cons in Hc.
        assert (String.prefix chartname_marker (String "<"%char ("MODULE_NAME>" +:+ t)) = false)
          as Hp by done.
        rewrite Hp, orb_false_l in Hc.
        by rewrite (Contains_app_free "<"%char "CHARTNAME>") in Hc.
    + rewrite (ReplaceAll_miss "<"%char "MODULE_NAME>") by exact E1.
      rewrite Contains_cons in Hc |- *.
      destruct (String.prefix chartname_marker (String c s)) eqn:E2.
      * pose proof (prefix_split _ _ E2) as Hs.
        remember (string_drop (String.length chartname_marker) (String c s)) as t eqn:Et.
        clear Et E2 Hc.
        assert (c = "<"%char ∧ s = "CHARTNAME>" +:+ t) as [-> ->].
        { unfold chartname_marker in Hs. rewrite app_cons_s in Hs. by injection Hs as -> ->. }
        rewrite (ReplaceAll_copy "<"%char "MODULE_NAME>") by done.
        rewrite <- app_cons_s. change (String "<" "CHARTNAME>") with chartname_marker.
        by rewrite prefix_app_s.
      * rewrite orb_false_l in Hc. rewrite IH by (done || lia). apply orb_true_r.
Qed.

Lemma transform_keeps_chart_marker (src new : string) :
  strings_Contains src chartname_marker = true →
  strings_Contains (transform src new) chartname_marker = true.
Proof. by apply (transform_keeps_chart_marker_go new (String.length src)). Qed.

Lemma Forall2_map_same {A : Type} (P : A → A → Prop) (f : A → A) (l : list A) :
  (∀ x, P x (f x)) → Forall2 P l (map f l).
Proof. intros H. induction l as [|x l IH]; constructor; [apply H|exact IH]. Qed.

Section Clone.
Context {V : Type}.
Variable loader_Load : string → M (result (Chart V)).
Variable SaveDir : Chart V → string → M (option error).
Variable yaml_Marshal : V → result string.
Variable yaml_Unmarshal : string → result V.

(** C7, as the code has it.  When the source chart loads and its values
    encode and decode, [CreateFrom] hands to the saver a chart with the new
    metadata and the decoded values, in which every template holds the
    bytes of the source template after [transform] for the module [main],
    every raw file named [values.yaml] holds the bytes of the source file
    after that [transform], and every other raw file is the source file
    itself; the names of the files are those of the source chart.  So no
    template and no file [values.yaml] of the saved chart holds the
    module-name placeholder [<MODULE_NAME>]; but the chart-name placeholder
    is not resolved: every template and every raw file of the source that
    holds [<CHARTNAME>] still holds it in the saved chart. *)
Theorem CreateFrom_resolves_module_marker (chartfile : Metadata) (dest src b : string)
    (schart : Chart V) (m : V) (w w1 : World) :
  loader_Load src w = (Ok schart, w1) →
  yaml_Marshal (Values schart) = Ok b →
  yaml_Unmarshal (transform b "main") = Ok m →
  ∃ saved,
    CreateFrom loader_Load SaveDir yaml_Marshal yaml_Unmarshal chartfile dest src w
    = SaveDir saved dest w1 ∧
    ChartMetadata saved = Some chartfile ∧
    Values saved = m ∧
    Templates saved
    = map (fun t => {| Name := Name t; Data := transform (Data t) "main" |})
          (Templates schart) ∧
    Raw saved
    = map (fun f => if String.eqb (Name f) ValuesfileName
                    then {| Name := Name f; Data := transform (Data f) "main" |}
                    else f)
          (Raw schart) ∧
    map Name (Templates saved) = map Name (Templates schart) ∧
    map Name (Raw saved) = map Name (Raw schart) ∧
    Forall (fun t => strings_Contains (Data t) marker = false) (Templates saved) ∧
    Forall (fun f => Name f = ValuesfileName → strings_Contains (Data f) marker = false)
           (Raw saved) ∧
    Forall2 (fun t t' => strings_Contains (Data t) chartname_marker = true →
                         strings_Contains (Data t') chartname_marker = true)
            (Templates schart) (Templates saved) ∧
    Forall2 (fun f f' => strings_Contains (Data f) chartname_marker = true →
                         strings_Contains (Data f') chartname_marker = true)
            (Raw schart) (Raw saved).
Proof using Type.
  intros Hl Hm Hu. eexists. split.
  { unfold CreateFrom, bind. rewrite Hl, Hm, Hu. reflexivity. }
  cbn [ChartMetadata Values Templates Raw].
  split; [done|]. split; [done|]. split; [done|]. split; [done|].
  split; [|split; [|split; [|split; [|split]]]].
  - rewrite map_map. done.
  - rewrite map_map. apply map_ext. intros f. by destruct (String.eqb (Name f) ValuesfileName).
  - apply Forall_map_1, Forall_forall. intros t _. cbn [Data].
    apply transform_main_resolved.
  - apply Forall_map_1, Forall_forall. intros f _.
    destruct (String.eqb (Name f) ValuesfileName) eqn:E; cbn [Name Data].
    + intros _. apply transform_main_resolved.
    + intros Hn. apply String.eqb_neq in E. done.
  - apply Forall2_map_same. intros t Ht. cbn [Data]. by apply transform_keeps_chart_marker.
  - apply Forall2_map_same. intros f Hf.
    destruct (String.eqb (Name f) ValuesfileName); [|done].
    cbn [Data]. by apply transform_keeps_chart_marker.
Qed.
End Clone.

Lemma CreateFrom_resolves_module_marker_witness :
  ∃ saved : Chart unit,
    CreateFrom marked_Load (fun _ _ => ret None) unit_Marshal unit_Unmarshal
      {| MetadataName := "demo" |} "/work/demo" "starter" w_fresh
    = (None, w_fresh) ∧
    Templates saved
    = map (fun t => {| Name := Name t; Data := transform (Data t) "main" |})
          (Templates marked_chart) ∧
    Forall (fun t => strings_Contains (Data t) marker = false) (Templates saved) ∧
    Forall (fun f => Name f = ValuesfileName → strings_Contains (Data f) marker = false)
           (Raw saved) ∧
    Forall2 (fun t t' => strings_Contains (Data t) chartname_marker = true →
                         strings_Contains (Data t') chartname_marker = true)
            (Templates marked_chart) (Templates saved).
Proof.
  destruct (CreateFrom_resolves_module_marker marked_Load (fun _ _ => ret None)
              unit_Marshal unit_Unmarshal {| MetadataName := "demo" |}
              "/work/demo" "starter" "{}" marked_chart tt w_fresh w_fresh
              eq_refl eq_refl eq_refl)
    as (saved & Hc & _ & _ & Ht & _ & _ & _ & Hm & Hr & Hk & _).
  exists saved. split; [exact Hc|]. split; [exact Ht|]. split; [exact Hm|].
  split; [exact Hr|exact Hk].
Defined.

(** C7, as the claim states it, fails for the chart-name placeholder: the
    chart handed to the saver still holds [<CHARTNAME>] in its template and in
    its values file. *)
Lemma CreateFrom_keeps_chart_marker :
  ∃ saved,
    (∀ SaveDir, CreateFrom marked_Load SaveDir unit_Marshal unit_Unmarshal
                  {| MetadataName := "demo" |} "/work/demo" "starter" w_fresh
                = SaveDir saved "/work/demo" w_fresh) ∧
    Exists (fun t => strings_Contains (Data t) chartname_marker = true) (Templates saved) ∧
    Exists (fun f => Name f = ValuesfileName ∧
                     strings_Contains (Data f) chartname_marker = true) (Raw saved).
Proof.
  exists (mkChart (Some {| MetadataName := "demo" |})
            [ {| Name := "templates/app.yaml"; Data := "name: <CHARTNAME>-main" |} ]
            [ {| Name := "values.yaml"; Data := "main: {chart: <CHARTNAME>}" |} ] tt).
  split; [reflexivity|]. split; by repeat constructor.
Qed.
